(* ===== verification/_CoqProject ===== *)
-Q . S2P
Prelude.v
PyFloat.v
PyNum.v
Frame.v
Format.v
Comparator.v
Loader.v
NLargest.v
Dashboard.v
Session.v
Style.v
