(* ===== verification/Prelude.v ===== *)
(** * Verification of the price-experiment dashboard (src/app.py)

    The program is one Streamlit script, [src/app.py].  At start-up it
    loads three pre-aggregated measure tables (revenue, margin, quantity)
    and a per-product table ([load_data], lines 51-71), renames the
    abbreviated year columns, computes for each measure the aggregate
    percentage change of the Test cohort ([compute_percentage_change],
    lines 74-79), rounds the per-row percentage columns in place (lines
    82-84), and derives a performance difference against the Control
    cohort (lines 87-89), which [performance_arrow] (lines 92-98) turns
    into a verdict.  A radio button then selects one of five pages
    (lines 101-102, 113-288): the home page, one detail page per measure
    and the per-product page, whose bar chart shows the ten largest
    products of the selected metric ([nlargest], line 256).

    ** Library layout (one file per component, in dependency order)

    - [Prelude]     (this file) the error monad [result] modelling the
                    Python exceptions the script can raise ([KeyError],
                    [TypeError], [ValueError], [IndexError],
                    [FileNotFoundError]) and the marker [SubFrame] where
                    the model stops following a run, its notation in
                    [py_scope], the [pydb] and [pyrw] databases, the
                    [inv_ok] tactic and the list lemmas the files share.
    - [PyFloat]     float64 as an exact rational or +inf, -inf, nan, with
                    the IEEE rules for the special values, comparisons
                    that are false on nan, [abs], and [round(x, 2)] (round
                    half to even, characterised by [rhe_spec]); a setoid
                    [xeq] with [Proper] instances and the order of [xlt].
    - [PyNum]       numpy scalars: int64 with two's-complement wrap-around
                    ([wrap64]) and float64, with the promotion rules of
                    [-], [*], [/] and [round] used at line 75.
    - [Frame]       a pandas DataFrame as an ordered list of labelled
                    columns (int64, float64, strings; labels may repeat):
                    [df[label]], [df[label] = col], [rename], [sum] (int64
                    wrap-around, nan skipped), [mean], [round], and the
                    shape of a table ([rectangular], [labels]).  The class
                    [Table] is the interface the metric code uses, and
                    [TableLaws] its laws, proved for frames.
    - [Format]      the f-string formats [:.2f], [:,.2f] and [:,.0f],
                    [str] of a float ([float_str], CPython's shortest
                    repr, behind [astype(str)]), a reader of the printed
                    text ([read_float]) and Python's thousands rule
                    ([grouped]).
    - [Comparator]  [compute_percentage_change], the rounding loop body,
                    the performance difference and [performance_arrow],
                    written against [Table].
    - [Loader]      [load_data] and the dict [rename_cols].
    - [NLargest]    [DataFrame.nlargest(n, col)] (keep='first') as a stable
                    insertion sort, the abstract top-n specification
                    [top_n] and the refinement and uniqueness theorems.
    - [Dashboard]   the start-up sequence (lines 71-89), the rounding loop
                    over a store of the three tables (the loop variable
                    [df] is an alias, so the store is updated in place),
                    the radio pages, the home, detail and per-product
                    pages, and [run]: one run of the script for a page.
    - [Session]     Streamlit's reruns as a step relation on a process
                    holding the files on disk and the cache of
                    [@st.cache_data load_data] (line 50), and executions
                    along an infinite stream of events ([exec]).
    - [Style]       [st.set_page_config] (line 6) and the stylesheet of
                    lines 8-47 as parsed rules ([app_css]), with the CSS
                    cascade (importance, specificity, order, inheritance
                    of [color]) that applies it to a node of the page
                    next to Streamlit's own stylesheet.

    ** What the theorems show

    - Comparator (C1-C10): the percentage change on float and int64
      columns, the zero-base case (nan or an infinity, no exception),
      the error paths in Python's evaluation order (a column of strings
      sums without error and raises at the subtraction), the rounding
      loop leaves the percentage change unchanged and is idempotent, the
      performance difference on finite and on all-nan Control columns,
      [performance_arrow] on every sign, and the characterisation of its
      "No difference" branch: zero or nan.
    - Loader (C11): [load_data] gives each measure table the canonical
      year labels over the file's abbreviated columns.
    - NLargest (C12-C13, C30): [nlargest] meets the top-n specification,
      the specification determines the result, and the result keeps the
      labels with min(n, rows) rows.
    - Dashboard (C14-C22): each measure page shows its own measure, the
      loop rounds each table once through its alias, every page draws
      one view, the Test changes are computed before the loop and the
      performance differences after it, the start-up keeps the shape of
      the tables, the home page and the detail pages agree, the charts
      plot the table's columns and their labels read back as the plotted
      values, and a bad per-product file only breaks the per-product
      page.
    - Session (C23-C26): the cache never changes once filled, every
      rerun shows [run] of the files first read, a missing file is not
      cached, and under fairness (the user keeps interacting) and
      readable files the cache is eventually filled for good.
    - Format and Frame (C27-C29): printing then reading gives
      [round(x, nd)], the grouping is Python's rule and the only text
      following it, and [Series.sum()]'s nan-skipping fold equals its
      closed form.
    - Style (C31): the [!important] declarations win over any theme
      without [!important], before or after the app's sheet, so every
      div of the sidebar is white; a colour set only on a container is
      lost on a descendant the theme colours.

    ** Bounds and fuel

    Every definition is structurally recursive and every function of
    the model is total ([group_rev], which recurses on the tail after
    three digits, has its own induction principle [group_rev_rect]).
    The one bounded search is [shortest_decimals], the fewest decimals
    that write a value, with fuel [str_fuel] = 17 (a float64 prints
    with at most 17 significant digits); it returns [None] when the fuel
    runs out, and [shortest_decimals_complete] shows that two decimals
    suffice for every value the charts label.  int64 sums are taken
    modulo 2^64 into [-2^63, 2^63), as numpy does ([int_sum_wrap]); the
    int64 theorem C4 assumes the totals fit.  The per-product page keeps
    n = 10 rows; the [NLargest] theorems hold for every n.  The session
    theorems hold for every sequence of events; the liveness theorem
    assumes fairness (after every moment the user interacts again) and
    files that stay readable, and without either the cache may stay
    empty forever.

    ** Not modelled

    The imports (lines 1-3); Streamlit's own stylesheet and the HTML it
    generates (the theorems of [Style] hold for any stylesheet without
    [!important] declarations and any node; of the properties the sheet
    sets only [color] is inherited, as in CSS, and colours are compared
    as written, not as rendered); HTML layout, images and the plotly
    figures (the model stops at the data and labels passed to them, and
    at plotly's check that a column argument names a column); [str] of
    a float that needs more than 17 decimals (its binary approximation
    is not in the exact model; the charts never show one); CSV parsing
    (the tables as read are the input; only a missing file is modelled;
    [pd.read_csv] renames duplicated headers, so a file as read has
    distinct labels); a sub-DataFrame selected by a duplicated label,
    which only the rename can create (a file with both "Test 25" and
    "Test 2025"): pandas goes on with Series values, the model stops
    with [SubFrame]; [product_df.describe()] (line 237: its [std] row is
    a square root, which the exact-rational float model cannot
    represent, and on a table without columns it raises ValueError
    before [nlargest]); binary floating-point rounding error (a float is
    its exact rational value) and the sign of zero.  Streamlit sessions
    are not told apart: the cache of [@st.cache_data] is shared by all
    of them, and the [Session] model is that of the server process; its
    events are widget interactions and edits of the files, not the
    "Clear cache" action of Streamlit's menu, which empties the cache.
*)

From Stdlib Require Import String List ZArith Lia.
Import ListNotations.

(** ** Python exceptions and the error monad *)

(** The exceptions the modelled statements of app.py can raise, and the
    point where the model stops following a run ([SubFrame]). *)
Inductive pyerr : Type :=
| KeyError (label : string)      (* missing column or dict key *)
| TypeError (what : string)      (* operation on a non-numeric value *)
| ValueError (what : string)     (* bad format code, plotly column check *)
| IndexError                       (* list index out of range *)
| FileNotFoundError (path : string)  (* pd.read_csv on a missing file *)
| SubFrame (label : string).
(* [SubFrame] is not an exception: [df[label]] on a duplicated label
   returns a sub-DataFrame, with which the script goes on; the model does
   not follow sub-DataFrames and stops the run there.  A result
   [Err (SubFrame _)] says nothing about what Python does next. *)

Inductive result (A : Type) : Type :=
| Ok (a : A)
| Err (e : pyerr).
Arguments Ok {A} a.
Arguments Err {A} e.

Definition bind {A B : Type} (r : result A) (k : A -> result B) : result B :=
  match r with
  | Ok a => k a
  | Err e => Err e
  end.

Definition rmap {A B : Type} (f : A -> B) (r : result A) : result B :=
  bind r (fun a => Ok (f a)).

Declare Scope py_scope.
Delimit Scope py_scope with py.
Notation "x <- c ;; k" := (bind c (fun x => k))
  (at level 60, c at next level, right associativity) : py_scope.
Notation "f <$$> r" := (rmap f r) (at level 61, left associativity) : py_scope.

(** ** Generic lemmas on the monad *)

Lemma bind_eq_Ok {A B : Type} (r : result A) (k : A -> result B) (b : B) :
  bind r k = Ok b <-> exists a, r = Ok a /\ k a = Ok b.
Proof.
  destruct r as [a|e]; simpl; split.
  - intros H; exists a; auto.
  - intros (a' & H1 & H2); injection H1 as ->; exact H2.
  - discriminate.
  - intros (a' & H1 & _); discriminate.
Qed.

Lemma bind_eq_Err {A B : Type} (r : result A) (k : A -> result B) (e : pyerr) :
  bind r k = Err e <-> r = Err e \/ exists a, r = Ok a /\ k a = Err e.
Proof.
  destruct r as [a|e']; simpl; split.
  - intros H; right; exists a; auto.
  - intros [H | (a' & H1 & H2)]; [discriminate | injection H1 as ->; exact H2].
  - intros H; left; congruence.
  - intros [H | (a' & H1 & _)]; [congruence | discriminate].
Qed.

Lemma bind_assoc {A B C : Type} (r : result A) (k1 : A -> result B)
  (k2 : B -> result C) :
  bind (bind r k1) k2 = bind r (fun a => bind (k1 a) k2).
Proof. destruct r; reflexivity. Qed.

Lemma bind_ext {A B : Type} (r : result A) (k1 k2 : A -> result B) :
  (forall a, r = Ok a -> k1 a = k2 a) -> bind r k1 = bind r k2.
Proof. destruct r as [a|e]; simpl; auto. Qed.

Create HintDb pydb.
Create Rewrite HintDb pyrw.
#[export] Hint Rewrite @bind_assoc : pyrw.

(** Decompose a successful chain of binds in hypothesis [H]. *)
Ltac inv_ok H :=
  repeat (apply bind_eq_Ok in H as (? & ? & H)).

(** ** Generic list lemmas *)

Lemma in_firstn {A : Type} (n : nat) (l : list A) (x : A) :
  In x (firstn n l) -> In x l.
Proof. intros H; rewrite <- (firstn_skipn n l); apply in_or_app; left; exact H. Qed.
