(* ===== verification/PyFloat.v ===== *)
(** * PyFloat: the float64 values app.py computes with

    A Python float or numpy float64 is modelled by its exact value: a
    rational [Fin q], or one of the IEEE special values [PInf], [NInf],
    [NaN].  Arithmetic follows IEEE 754 on the special values
    (inf - inf = nan, 0 * inf = nan, x / 0 = +-inf or nan: numpy scalars
    do not raise), and is exact on finite values.  [xround] is
    [round(x, ndigits)] of Python and numpy: round half to even on the
    exact value.  Equal rationals with different representations are
    identified by the setoid [xeq]. *)

From Stdlib Require Import QArith Qround Qabs Lqa ZArith Lia Setoid Morphisms Bool.
From S2P Require Import Prelude.

Module PyFloat.

Inductive xfloat : Type :=
| Fin (q : Q)
| PInf
| NInf
| NaN.

Definition is_nan (x : xfloat) : bool :=
  match x with NaN => true | _ => false end.

(** An infinity of the given sign. *)
Definition inf_of (pos : bool) : xfloat := if pos then PInf else NInf.

Definition xneg (x : xfloat) : xfloat :=
  match x with
  | Fin a => Fin (- a)
  | PInf => NInf
  | NInf => PInf
  | NaN => NaN
  end.

Definition xadd (x y : xfloat) : xfloat :=
  match x, y with
  | NaN, _ | _, NaN => NaN
  | PInf, NInf | NInf, PInf => NaN
  | PInf, _ | _, PInf => PInf
  | NInf, _ | _, NInf => NInf
  | Fin a, Fin b => Fin (a + b)
  end.

Definition xsub (x y : xfloat) : xfloat := xadd x (xneg y).

(** Sign of a finite nonzero value or an infinity: [true] for positive. *)
Definition xpos (x : xfloat) : bool :=
  match x with
  | Fin a => Qle_bool 0 a
  | PInf => true
  | _ => false
  end.

Definition xzero (x : xfloat) : bool :=
  match x with Fin a => Qeq_bool a 0 | _ => false end.

Definition xmul (x y : xfloat) : xfloat :=
  match x, y with
  | NaN, _ | _, NaN => NaN
  | Fin a, Fin b => Fin (a * b)
  | _, _ => if xzero x || xzero y then NaN
            else inf_of (Bool.eqb (xpos x) (xpos y))
  end.

(** Division; a zero divisor is +0.0 (the sign of zero is not modelled). *)
Definition xdiv (x y : xfloat) : xfloat :=
  match x, y with
  | NaN, _ | _, NaN => NaN
  | Fin a, Fin b =>
      if Qeq_bool b 0 then
        (if Qeq_bool a 0 then NaN else inf_of (Qle_bool 0 a))
      else Fin (a / b)
  | Fin _, _ => Fin 0
  | _, Fin b =>
      if Qeq_bool b 0 then x else inf_of (Bool.eqb (xpos x) (Qle_bool 0 b))
  | _, _ => NaN
  end.

(** [x < y] and [x > y] of Python: false whenever nan is involved. *)
Definition xlt (x y : xfloat) : bool :=
  match x, y with
  | NaN, _ | _, NaN => false
  | NInf, NInf => false
  | NInf, _ => true
  | Fin a, Fin b => negb (Qle_bool b a)
  | Fin _, PInf => true
  | _, _ => false
  end.

Definition xgt (x y : xfloat) : bool := xlt y x.

Definition xabs (x : xfloat) : xfloat :=
  match x with
  | Fin a => Fin (Qabs a)
  | NInf => PInf
  | y => y
  end.

(** Round half to even of a rational, to an integer. *)
Definition round_half_even (y : Q) : Z :=
  let f := Qfloor y in
  match Qcompare (y - inject_Z f) (1 # 2) with
  | Lt => f
  | Gt => (f + 1)%Z
  | Eq => if Z.even f then f else (f + 1)%Z
  end.

(** [round(x, nd)]: infinities and nan are returned unchanged. *)
Definition xround (nd : nat) (x : xfloat) : xfloat :=
  match x with
  | Fin q =>
      let s := inject_Z (10 ^ Z.of_nat nd) in
      Fin (inject_Z (round_half_even (q * s)) / s)
  | y => y
  end.

(** ** Equality of values up to the representation of rationals *)

Definition xeq (x y : xfloat) : Prop :=
  match x, y with
  | Fin a, Fin b => a == b
  | PInf, PInf | NInf, NInf | NaN, NaN => True
  | _, _ => False
  end.

(** ** Boolean tests on rationals, turned into propositions *)

Lemma Qle_bool_false (a b : Q) : Qle_bool a b = false -> b < a.
Proof.
  intros H. apply Qnot_le_lt. intros Hle. apply Qle_bool_iff in Hle. congruence.
Qed.

Ltac qbool_to_prop :=
  repeat match goal with
  | H : Qeq_bool _ _ = true |- _ => apply Qeq_bool_iff in H
  | H : Qeq_bool _ _ = false |- _ => apply Qeq_bool_neq in H
  | H : Qle_bool _ _ = true |- _ => apply Qle_bool_iff in H
  | H : Qle_bool _ _ = false |- _ => apply Qle_bool_false in H
  end.

(** Case on every boolean rational test of the goal. *)
Ltac qcases :=
  repeat match goal with
  | |- context [Qeq_bool ?a ?b] => destruct (Qeq_bool a b) eqn:?
  | |- context [Qle_bool ?a ?b] => destruct (Qle_bool a b) eqn:?
  end; qbool_to_prop.

#[export] Instance xeq_equiv : Equivalence xeq.
Proof.
  split.
  - intros []; simpl; auto; reflexivity.
  - intros [] []; simpl; auto; intros; symmetry; auto.
  - intros [] [] []; simpl; try tauto; intros; etransitivity; eauto.
Qed.

(** Destruct two related arguments; the mismatched cases vanish. *)
Ltac xdestruct x x' :=
  destruct x, x'; simpl in *; try contradiction.

Ltac xsolve :=
  simpl in *; qcases; simpl; try exact I; try (exfalso; lra);
  try lra; try reflexivity.

#[export] Instance xneg_proper : Proper (xeq ==> xeq) xneg.
Proof. intros x x' Hx; xdestruct x x'; auto; xsolve. Qed.

#[export] Instance xadd_proper : Proper (xeq ==> xeq ==> xeq) xadd.
Proof.
  intros x x' Hx y y' Hy; xdestruct x x'; xdestruct y y'; auto; xsolve.
Qed.

#[export] Instance xsub_proper : Proper (xeq ==> xeq ==> xeq) xsub.
Proof. intros x x' Hx y y' Hy; unfold xsub; rewrite Hx, Hy; reflexivity. Qed.

#[export] Instance xmul_proper : Proper (xeq ==> xeq ==> xeq) xmul.
Proof.
  intros x x' Hx y y' Hy; xdestruct x x'; xdestruct y y'; auto; xsolve.
  rewrite Hx, Hy; reflexivity.
Qed.

#[export] Instance xdiv_proper : Proper (xeq ==> xeq ==> xeq) xdiv.
Proof.
  intros x x' Hx y y' Hy; xdestruct x x'; xdestruct y y'; auto; xsolve.
  rewrite Hx, Hy; reflexivity.
Qed.

#[export] Instance xlt_proper : Proper (xeq ==> xeq ==> eq) xlt.
Proof.
  intros x x' Hx y y' Hy; xdestruct x x'; xdestruct y y'; auto; xsolve.
Qed.

#[export] Instance xabs_proper : Proper (xeq ==> xeq) xabs.
Proof. intros x x' Hx; xdestruct x x'; auto; rewrite Hx; reflexivity. Qed.

(** Addition is associative on exact values, infinities and nan. *)
Lemma xadd_assoc (a b c : xfloat) : xeq (xadd (xadd a b) c) (xadd a (xadd b c)).
Proof. destruct a, b, c; simpl; try exact I; ring. Qed.

Lemma xadd_zero_r (a : xfloat) : xeq (xadd a (Fin 0)) a.
Proof. destruct a; simpl; try exact I; ring. Qed.

(** ** Round half to even *)

(** Push [inject_Z] through sums and constants, for [lra]. *)
Ltac qz := rewrite ?inject_Z_plus in *; change (inject_Z 1) with 1 in *.

#[export] Instance round_half_even_proper : Proper (Qeq ==> eq) round_half_even.
Proof.
  intros y y' Hy; unfold round_half_even.
  rewrite <- (Qfloor_comp y y' Hy).
  assert (Hc : (y - inject_Z (Qfloor y) ?= 1 # 2) = (y' - inject_Z (Qfloor y) ?= 1 # 2))
    by (apply Qcompare_comp; [lra | reflexivity]).
  rewrite Hc; reflexivity.
Qed.

Lemma round_half_even_Z (z : Z) : round_half_even (inject_Z z) = z.
Proof.
  unfold round_half_even. rewrite Qfloor_Z.
  assert (H : (inject_Z z - inject_Z z ?= 1 # 2) = Lt) by (apply (proj1 (Qlt_alt _ _)); lra).
  rewrite H; reflexivity.
Qed.

(** The rounded integer is within one half of the value. *)
Lemma round_half_even_bounds (y : Q) :
  inject_Z (round_half_even y) - (1 # 2) <= y <= inject_Z (round_half_even y) + (1 # 2).
Proof.
  unfold round_half_even.
  pose proof (Qfloor_le y) as Hlo. pose proof (Qlt_floor y) as Hhi.
  destruct (Qcompare_spec (y - inject_Z (Qfloor y)) (1 # 2)) as [H|H|H];
    [destruct (Z.even (Qfloor y)) | |]; qz; split; lra.
Qed.

(** Two integers less than one apart are equal. *)
Lemma Z_close_eq (a b : Z) : inject_Z a < inject_Z b + 1 -> inject_Z b < inject_Z a + 1 -> a = b.
Proof.
  intros H1 H2; change 1 with (inject_Z 1) in H1, H2.
  rewrite <- inject_Z_plus, <- Zlt_Qlt in H1, H2; lia.
Qed.

(** What [round] promises: the nearest integer, and on a tie the even
    one. *)
Definition rhe_spec (y : Q) (k : Z) : Prop :=
  (inject_Z k - (1 # 2) < y < inject_Z k + (1 # 2)) \/
  ((y == inject_Z k - (1 # 2) \/ y == inject_Z k + (1 # 2)) /\ Z.even k = true).

Lemma round_half_even_spec (y : Q) : rhe_spec y (round_half_even y).
Proof.
  unfold rhe_spec, round_half_even.
  pose proof (Qfloor_le y) as Hlo. pose proof (Qlt_floor y) as Hhi.
  destruct (Qcompare_spec (y - inject_Z (Qfloor y)) (1 # 2)) as [H|H|H].
  - destruct (Z.even (Qfloor y)) eqn:E; right; (split; [qz; lra|]); [exact E|].
    rewrite Z.even_add, E; reflexivity.
  - left; qz; lra.
  - left; qz; lra.
Qed.

Lemma even_adjacent (k : Z) : Z.even k = true -> Z.even (k + 1) = true -> False.
Proof. rewrite Z.even_add; intros ->; discriminate. Qed.

(** The specification determines the result. *)
Lemma rhe_spec_unique (y : Q) (k k' : Z) : rhe_spec y k -> rhe_spec y k' -> k = k'.
Proof.
  unfold rhe_spec; intros [H|[[H|H] E]] [H'|[[H'|H'] E']];
    try (apply Z_close_eq; lra); exfalso;
    first [ apply (even_adjacent k' E'); replace (k' + 1)%Z with k
              by (apply Z_close_eq; qz; lra); exact E
          | apply (even_adjacent k E); replace (k + 1)%Z with k'
              by (apply Z_close_eq; qz; lra); exact E' ].
Qed.

(** Round half to even is symmetric: [round(-y) = -round(y)]. *)
Lemma round_half_even_opp (y : Q) : round_half_even (- y) = (- round_half_even y)%Z.
Proof.
  apply (rhe_spec_unique (- y)); [apply round_half_even_spec|].
  destruct (round_half_even_spec y) as [H|[[H|H] E]]; unfold rhe_spec;
    rewrite inject_Z_opp; [left; lra | right | right];
    (split; [lra | rewrite Z.even_opp; exact E]).
Qed.

Lemma round_half_even_nonneg (y : Q) : 0 <= y -> (0 <= round_half_even y)%Z.
Proof.
  intros Hy; pose proof (round_half_even_bounds y) as [_ H].
  assert (Hlt : inject_Z (-1) < inject_Z (round_half_even y))
    by (change (inject_Z (-1)) with (-1 # 1); lra).
  rewrite <- Zlt_Qlt in Hlt; lia.
Qed.

(** The scale [10^nd] of [round(x, nd)] is not zero. *)
Lemma scale_nonzero (nd : nat) : ~ inject_Z (10 ^ Z.of_nat nd) == 0.
Proof.
  change 0 with (inject_Z 0); rewrite inject_Z_injective.
  pose proof (Z.pow_pos_nonneg 10 (Z.of_nat nd)); lia.
Qed.

(** [round] of a value already rounded to [nd] digits returns it unchanged:
    re-running the rounding of app.py (lines 82-84) is harmless. *)
Lemma xround_idem (nd : nat) (x : xfloat) : xround nd (xround nd x) = xround nd x.
Proof.
  destruct x as [q| | |]; try reflexivity; simpl.
  set (s := inject_Z (10 ^ Z.of_nat nd)).
  assert (Hs : ~ s == 0) by apply scale_nonzero.
  rewrite (round_half_even_proper _ (inject_Z (round_half_even (q * s))))
    by (field; exact Hs).
  rewrite round_half_even_Z; reflexivity.
Qed.

(** A rounded finite value is a multiple of [10^-nd] within half a unit of
    the original. *)
Lemma xround_fin_bounds (nd : nat) (q : Q) :
  exists z : Z, xround nd (Fin q) = Fin (inject_Z z / inject_Z (10 ^ Z.of_nat nd)) /\
    inject_Z z - (1 # 2) <= q * inject_Z (10 ^ Z.of_nat nd) <= inject_Z z + (1 # 2).
Proof.
  exists (round_half_even (q * inject_Z (10 ^ Z.of_nat nd))); split;
    [reflexivity | apply round_half_even_bounds].
Qed.

(** ** Arithmetic on finite values *)

Lemma xdiv_fin (a b : Q) : ~ b == 0 -> xdiv (Fin a) (Fin b) = Fin (a / b).
Proof.
  intros Hb; simpl; destruct (Qeq_bool b 0) eqn:E; auto.
  apply Qeq_bool_iff in E; contradiction.
Qed.

(** Division of a finite value by zero: nan for 0/0, an infinity otherwise. *)
Lemma xdiv_fin_zero (a b : Q) : b == 0 ->
  xdiv (Fin a) (Fin b) = if Qeq_bool a 0 then NaN else inf_of (Qle_bool 0 a).
Proof.
  intros Hb; simpl; destruct (Qeq_bool b 0) eqn:E; auto.
  apply Qeq_bool_neq in E; contradiction.
Qed.

(** ** [xlt] is a strict total order on the values other than nan *)

Ltac xlt_cases :=
  repeat match goal with
  | x : xfloat |- _ => destruct x
  end;
  cbn [xlt is_nan negb] in *; try discriminate; try reflexivity;
  repeat match goal with
  | H : negb _ = true |- _ => apply negb_true_iff in H
  | H : negb _ = false |- _ => apply negb_false_iff in H
  | |- negb _ = true => apply negb_true_iff
  | |- negb _ = false => apply negb_false_iff
  end; qbool_to_prop; qcases; try reflexivity; try discriminate; try lra.

Lemma xlt_irrefl (a : xfloat) : xlt a a = false.
Proof. xlt_cases. Qed.

Lemma xlt_trans (a b c : xfloat) : xlt a b = true -> xlt b c = true -> xlt a c = true.
Proof. intros H1 H2; xlt_cases. Qed.

Lemma xlt_asym (a b : xfloat) : xlt a b = true -> xlt b a = false.
Proof. intros H; xlt_cases. Qed.

(** Two valid values neither of which is smaller compare alike with
    every value. *)
Lemma xlt_eqv_l (a b c : xfloat) :
  is_nan a = false -> is_nan b = false -> xlt a b = false -> xlt b a = false ->
  xlt a c = xlt b c.
Proof. intros Na Nb H1 H2; xlt_cases. Qed.

Lemma xlt_eqv_r (a b c : xfloat) :
  is_nan a = false -> is_nan b = false -> xlt a b = false -> xlt b a = false ->
  xlt c a = xlt c b.
Proof. intros Na Nb H1 H2; xlt_cases. Qed.

Lemma xlt_le_trans (a b c : xfloat) :
  is_nan b = false -> is_nan c = false ->
  xlt a b = true -> xlt c b = false -> xlt a c = true.
Proof. intros Nb Nc H1 H2; xlt_cases. Qed.

Lemma xle_lt_trans (a b c : xfloat) :
  is_nan a = false -> is_nan b = false ->
  xlt b a = false -> xlt b c = true -> xlt a c = true.
Proof. intros Na Nb H1 H2; xlt_cases. Qed.

Lemma xle_trans (a b c : xfloat) :
  is_nan a = false -> is_nan b = false -> is_nan c = false ->
  xlt b a = false -> xlt c b = false -> xlt c a = false.
Proof. intros Na Nb Nc H1 H2; xlt_cases. Qed.

Lemma xlt_total (a b : xfloat) :
  is_nan a = false -> is_nan b = false ->
  xlt a b = true \/ xlt b a = true \/ (xlt a b = false /\ xlt b a = false).
Proof. intros Na Nb; destruct (xlt a b), (xlt b a); auto. Qed.

End PyFloat.
