(* ===== verification/PyNum.v ===== *)
(** * PyNum: numpy scalars (int64 and float64) and their arithmetic

    [Series.sum()] of an integer column returns a numpy int64, of a float
    column a numpy float64.  The arithmetic of [compute_percentage_change]
    (app.py line 75) follows numpy's promotion: int64 - int64 stays int64
    and wraps around modulo 2^64; true division always gives a float64;
    a float64 operand makes the result float64.  An int64 converts to
    float64 by its exact value.  The sum of an object column of strings
    is a Python str ([VStr]); arithmetic on it raises TypeError. *)

From Stdlib Require Import QArith ZArith Lia String.
From S2P Require Import Prelude PyFloat.

Module PyNum.
Import PyFloat.
Local Open Scope Z_scope.

Definition int64_min : Z := - 2 ^ 63.
Definition int64_max : Z := 2 ^ 63 - 1.

(** Two's-complement wrap-around of a mathematical integer to int64. *)
Definition wrap64 (z : Z) : Z := (z + 2 ^ 63) mod 2 ^ 64 - 2 ^ 63.

Definition in_int64 (z : Z) : bool := (int64_min <=? z) && (z <=? int64_max).

Inductive pynum : Type :=
| NInt (z : Z)
| NFlt (x : xfloat).

Definition to_float (n : pynum) : xfloat :=
  match n with
  | NInt z => Fin (inject_Z z)
  | NFlt x => x
  end.

(** [a - b] *)
Definition num_sub (a b : pynum) : pynum :=
  match a, b with
  | NInt x, NInt y => NInt (wrap64 (x - y))
  | _, _ => NFlt (xsub (to_float a) (to_float b))
  end.

(** [a * b] *)
Definition num_mul (a b : pynum) : pynum :=
  match a, b with
  | NInt x, NInt y => NInt (wrap64 (x * y))
  | _, _ => NFlt (xmul (to_float a) (to_float b))
  end.

(** [a / b]: true division, always a float64, never an exception. *)
Definition num_truediv (a b : pynum) : pynum :=
  NFlt (xdiv (to_float a) (to_float b)).

(** [round(a, nd)]: an integer is returned unchanged. *)
Definition num_round (nd : nat) (a : pynum) : pynum :=
  match a with
  | NInt z => NInt z
  | NFlt x => NFlt (xround nd x)
  end.

(** The value [Series.sum()] returns: a numpy scalar, or the Python str
    that pandas builds by concatenating the strings of an object column. *)
Inductive pyval : Type :=
| VNum (n : pynum)
| VStr (s : string).

Definition is_str (v : pyval) : bool :=
  match v with VStr _ => true | VNum _ => false end.

(** [a - b] on two sums: a str operand raises TypeError. *)
Definition py_sub (a b : pyval) : result pynum :=
  match a, b with
  | VNum x, VNum y => Ok (num_sub x y)
  | _, _ => Err (TypeError "unsupported operand type(s) for -")
  end.

(** [a / b] with a sum [b] as divisor. *)
Definition py_truediv (a : pynum) (b : pyval) : result pynum :=
  match b with
  | VNum y => Ok (num_truediv a y)
  | VStr _ => Err (TypeError "unsupported operand type(s) for /")
  end.

(** ** Wrap-around lemmas *)

Lemma wrap64_range (z : Z) : int64_min <= wrap64 z <= int64_max.
Proof.
  unfold wrap64, int64_min, int64_max.
  pose proof (Z.mod_pos_bound (z + 2 ^ 63) (2 ^ 64)). lia.
Qed.

Lemma in_int64_spec (z : Z) : in_int64 z = true <-> int64_min <= z <= int64_max.
Proof. unfold in_int64; rewrite andb_true_iff, !Z.leb_le; tauto. Qed.

Lemma wrap64_small (z : Z) : int64_min <= z <= int64_max -> wrap64 z = z.
Proof.
  unfold wrap64, int64_min, int64_max; intros H.
  rewrite Z.mod_small; lia.
Qed.

(** Wrapping an intermediate result does not change the final wrap. *)
Lemma wrap64_add_l (a b : Z) : wrap64 (wrap64 a + b) = wrap64 (a + b).
Proof.
  unfold wrap64.
  replace (((a + 2 ^ 63) mod 2 ^ 64 - 2 ^ 63) + b + 2 ^ 63)
    with ((a + 2 ^ 63) mod 2 ^ 64 + b) by lia.
  rewrite Z.add_mod_idemp_l by lia.
  f_equal. f_equal. lia.
Qed.

(** The wrapped value differs from the exact one by a multiple of 2^64. *)
Lemma wrap64_congr (z : Z) : exists k, wrap64 z = z - k * 2 ^ 64.
Proof.
  exists ((z + 2 ^ 63) / 2 ^ 64). unfold wrap64.
  rewrite Z.mod_eq by lia. lia.
Qed.

End PyNum.
