(* ===== verification/Frame.v ===== *)
(** * Frame: the pandas DataFrame operations app.py uses

    A DataFrame read from a CSV file is an ordered list of labelled
    columns; pandas allows duplicated labels, so the model keeps an
    association list.  A column holds int64 values (an integer CSV column
    without gaps), float64 values (nan for an empty cell) or strings.
    Modelled operations:
    - [getitem df label]          [df[label]]: KeyError when absent, the
                                  model stops ([SubFrame]) on a
                                  duplicated label;
    - [setitem df label c]        [df[label] = c]: replaces every column
                                  of that label in place, appends otherwise;
    - [rename m df]               [df.rename(columns=m)];
    - [col_sum], [col_mean], [col_round]
                                  [Series.sum()], [Series.mean()],
                                  [Series.round(nd)] (nan skipped by sum
                                  and mean, as pandas' skipna=True; the
                                  sum of strings is their concatenation).
    The class [Table] is the interface the Comparator and the Dashboard
    use; [TableLaws] states what it promises, and [frame] implements it.
    [rectangular] and [labels] describe the shape of a table, which the
    operations above keep; [float_sum_ref] is the closed form of the
    float sum (C29). *)

From Stdlib Require Import String List QArith ZArith Lia Bool.
From S2P Require Import Prelude PyFloat PyNum.
Import ListNotations.

Module Frame.
Import PyFloat PyNum.

Inductive column : Type :=
| IntCol (l : list Z)
| FloatCol (l : list xfloat)
| StrCol (l : list string).

Record frame : Type := mkFrame { columns : list (string * column) }.

Definition col_length (c : column) : nat :=
  match c with
  | IntCol l => length l
  | FloatCol l => length l
  | StrCol l => length l
  end.

Definition matches (label : string) (p : string * column) : bool :=
  String.eqb (fst p) label.

(** [df[label]]: KeyError when no column has the label.  A duplicated
    label selects a sub-DataFrame, which the model does not represent:
    it stops there with [SubFrame] (not an exception of the script). *)
Definition getitem (df : frame) (label : string) : result column :=
  match filter (matches label) (columns df) with
  | [] => Err (KeyError label)
  | [(_, c)] => Ok c
  | _ => Err (SubFrame label)
  end.

(** The new value of one entry under [df[label] = c]. *)
Definition replace_col (label : string) (c : column) (p : string * column)
  : string * column :=
  if matches label p then (label, c) else p.

(** [df[label] = c] *)
Definition setitem (df : frame) (label : string) (c : column) : frame :=
  if existsb (matches label) (columns df)
  then mkFrame (map (replace_col label c) (columns df))
  else mkFrame (columns df ++ [(label, c)]).

(** A Python dict with string keys and values, in insertion order. *)
Fixpoint dict_get (m : list (string * string)) (k : string) : option string :=
  match m with
  | [] => None
  | (k', v) :: m' => if String.eqb k' k then Some v else dict_get m' k
  end.

Definition rename_label (m : list (string * string)) (l : string) : string :=
  match dict_get m l with
  | Some l' => l'
  | None => l
  end.

(** [df.rename(columns=m)] *)
Definition rename (m : list (string * string)) (df : frame) : frame :=
  mkFrame (map (fun p => (rename_label m (fst p), snd p)) (columns df)).

(** Exact sum of a list of rationals, in the order numpy adds them. *)
Definition qsum (qs : list Q) : Q := fold_left Qplus qs 0.

(** Exact sum of a list of integers. *)
Definition zsum (zs : list Z) : Z := fold_left Z.add zs 0%Z.

(** Sum of an int64 column: numpy accumulates in int64 and wraps. *)
Definition int_sum (l : list Z) : Z :=
  fold_left (fun acc v => wrap64 (acc + v)) l 0%Z.

(** Sum of a float64 column, nan skipped; the empty sum is 0.0. *)
Definition float_sum (l : list xfloat) : xfloat :=
  fold_left (fun acc v => if is_nan v then acc else xadd acc v) l (Fin 0).

Definition is_pinf (x : xfloat) : bool := match x with PInf => true | _ => false end.
Definition is_ninf (x : xfloat) : bool := match x with NInf => true | _ => false end.

Fixpoint fin_values (l : list xfloat) : list Q :=
  match l with
  | [] => []
  | Fin q :: l' => q :: fin_values l'
  | _ :: l' => fin_values l'
  end.

(** The value numpy's nan-skipping sum has on exact values: nan when both
    infinities occur, the infinity when one occurs, else the exact sum of
    the finite values. *)
Definition float_sum_ref (l : list xfloat) : xfloat :=
  if existsb is_pinf l && existsb is_ninf l then NaN
  else if existsb is_pinf l then PInf
  else if existsb is_ninf l then NInf
  else Fin (qsum (fin_values l)).

Definition count_valid (l : list xfloat) : nat :=
  length (filter (fun v => negb (is_nan v)) l).

(** [Series.sum()] never raises: an int64 or float64 scalar, and for a
    column of strings (object dtype) their concatenation, a Python str;
    the empty object column sums to the int 0. *)
Definition col_sum (c : column) : pyval :=
  match c with
  | IntCol l => VNum (NInt (int_sum l))
  | FloatCol l => VNum (NFlt (float_sum l))
  | StrCol [] => VNum (NInt 0)
  | StrCol (s :: l) => VStr (fold_left String.append l s)
  end.

(** [Series.mean()]: nan when there is no valid value; an integer column
    is summed in float64 (no wrap-around). *)
Definition col_mean (c : column) : result xfloat :=
  match c with
  | IntCol [] => Ok NaN
  | IntCol l =>
      Ok (Fin (inject_Z (zsum l) / inject_Z (Z.of_nat (length l))))
  | FloatCol l =>
      match count_valid l with
      | O => Ok NaN
      | n => Ok (xdiv (float_sum l) (Fin (inject_Z (Z.of_nat n))))
      end
  | StrCol [] => Ok NaN
  | StrCol _ => Err (TypeError "mean")
  end.

(** [Series.round(nd)]: integers are unchanged. *)
Definition col_round (nd : nat) (c : column) : result column :=
  match c with
  | IntCol l => Ok (IntCol l)
  | FloatCol l => Ok (FloatCol (map (xround nd) l))
  | StrCol _ => Err (TypeError "round")
  end.

(** Every column of [df] has [n] rows: the shape of a table read from a
    CSV file. *)
Definition rectangular (n : nat) (df : frame) : bool :=
  forallb (fun p => Nat.eqb (col_length (snd p)) n) (columns df).

(** The column labels, in order ([df.columns]). *)
Definition labels (df : frame) : list string := map fst (columns df).

(** Number of columns carrying a label. *)
Definition label_count (df : frame) (label : string) : nat :=
  length (filter (matches label) (columns df)).

(** ** The table interface used by the client components *)

Class Table (T : Type) := {
  tbl_get : T -> string -> result column;
  tbl_set : T -> string -> column -> T;
  tbl_count : T -> string -> nat
}.

Class TableLaws (T : Type) `{Table T} := {
  get_set_same : forall t l c, (tbl_count t l <= 1)%nat -> tbl_get (tbl_set t l c) l = Ok c;
  get_set_other : forall t l l' c, l <> l' -> tbl_get (tbl_set t l c) l' = tbl_get t l';
  count_set : forall t l l' c, (tbl_count t l' <= 1)%nat -> (tbl_count (tbl_set t l c) l' <= 1)%nat;
  set_get : forall t l c, tbl_get t l = Ok c -> tbl_set t l c = t;
  get_count : forall t l c, tbl_get t l = Ok c -> tbl_count t l = 1%nat;
  get_none : forall t l, tbl_count t l = O -> tbl_get t l = Err (KeyError l);
  get_one : forall t l, tbl_count t l = 1%nat -> exists c, tbl_get t l = Ok c
}.

#[export] Instance frame_table : Table frame := {
  tbl_get := getitem;
  tbl_set := setitem;
  tbl_count := label_count
}.

(** ** Lemmas on column selection and replacement *)

Lemma matches_self (l : string) (c : column) : matches l (l, c) = true.
Proof. apply String.eqb_refl. Qed.

Lemma matches_other (l l' : string) (c : column) : l <> l' -> matches l' (l, c) = false.
Proof. intros H; apply String.eqb_neq; exact H. Qed.

#[export] Hint Rewrite matches_self : pyrw.

Lemma replace_col_match (l : string) (c : column) (p : string * column) :
  matches l p = true -> replace_col l c p = (l, c).
Proof. unfold replace_col; intros ->; reflexivity. Qed.

Lemma replace_col_nomatch (l : string) (c : column) (p : string * column) :
  matches l p = false -> replace_col l c p = p.
Proof. unfold replace_col; intros ->; reflexivity. Qed.

(** Case on whether entry [p] carries label [l], rewriting [replace_col]. *)
Ltac case_match_col l c p :=
  let E := fresh "E" in
  destruct (matches l p) eqn:E;
  [rewrite (replace_col_match l c p E) | rewrite (replace_col_nomatch l c p E)];
  simpl; rewrite ?E.

Lemma filter_replace_same (l : string) (c : column) (cols : list (string * column)) :
  filter (matches l) (map (replace_col l c) cols)
  = map (fun _ => (l, c)) (filter (matches l) cols).
Proof.
  induction cols as [|p cols IH]; simpl; auto.
  case_match_col l c p; rewrite ?matches_self, IH; reflexivity.
Qed.

Lemma filter_replace_other (l l' : string) (c : column) (cols : list (string * column)) :
  l <> l' ->
  filter (matches l') (map (replace_col l c) cols) = filter (matches l') cols.
Proof.
  intros Hne; induction cols as [|p cols IH]; simpl; auto.
  case_match_col l c p.
  - rewrite matches_other by exact Hne.
    unfold matches in E |- *; apply String.eqb_eq in E; rewrite E.
    rewrite (proj2 (String.eqb_neq l l') Hne); exact IH.
  - destruct (matches l' p); rewrite IH; reflexivity.
Qed.

Lemma existsb_filter_nil {A : Type} (f : A -> bool) (l : list A) :
  existsb f l = false -> filter f l = [].
Proof.
  induction l as [|x l IH]; simpl; auto.
  destruct (f x); simpl; [discriminate | exact IH].
Qed.

Lemma filter_nil_existsb {A : Type} (f : A -> bool) (l : list A) :
  filter f l = [] -> existsb f l = false.
Proof.
  induction l as [|x l IH]; simpl; auto.
  destruct (f x); simpl; [discriminate | exact IH].
Qed.

Lemma label_count_set (df : frame) (l l' : string) (c : column) :
  label_count (setitem df l c) l' =
  if String.eqb l l' then Nat.max 1 (label_count df l') else label_count df l'.
Proof.
  unfold label_count, setitem.
  destruct (String.eqb_spec l l') as [<-|Hne].
  - destruct (existsb (matches l) (columns df)) eqn:E; simpl.
    + rewrite filter_replace_same, length_map.
      destruct (filter (matches l) (columns df)) eqn:F;
        [apply filter_nil_existsb in F; congruence | simpl; lia].
    + rewrite filter_app, existsb_filter_nil by exact E; simpl.
      rewrite matches_self; reflexivity.
  - destruct (existsb (matches l) (columns df)); simpl.
    + rewrite filter_replace_other by exact Hne; reflexivity.
    + rewrite filter_app; simpl; rewrite matches_other by exact Hne.
      rewrite app_nil_r; reflexivity.
Qed.

Lemma map_replace_fixed (l : string) (c : column) (cols : list (string * column)) :
  (forall p, In p cols -> matches l p = true -> p = (l, c)) ->
  map (replace_col l c) cols = cols.
Proof.
  induction cols as [|p cols IH]; intros Hp; simpl; auto.
  rewrite IH by (intros; apply Hp; simpl; auto).
  case_match_col l c p; [rewrite (Hp p (or_introl eq_refl) E)|]; reflexivity.
Qed.

(** Storing back the column just read leaves the frame unchanged. *)
Lemma setitem_getitem (df : frame) (l : string) (c : column) :
  getitem df l = Ok c -> setitem df l c = df.
Proof.
  unfold getitem, setitem; intros Hget.
  destruct (filter (matches l) (columns df)) as [|[l0 c0] [|q r]] eqn:F;
    try discriminate; injection Hget as ->.
  assert (Hin : forall p, In p (columns df) -> matches l p = true -> p = (l, c)).
  { intros p Hp Hm.
    assert (Hf : In p (filter (matches l) (columns df))) by (apply filter_In; auto).
    rewrite F in Hf; destruct Hf as [<-|[]].
    unfold matches in Hm; simpl in Hm; apply String.eqb_eq in Hm; subst; reflexivity. }
  assert (E : existsb (matches l) (columns df) = true).
  { destruct (existsb (matches l) (columns df)) eqn:E; auto.
    rewrite existsb_filter_nil in F by exact E; discriminate. }
  rewrite E, map_replace_fixed by exact Hin; destruct df; reflexivity.
Qed.

#[export] Instance frame_table_laws : TableLaws frame.
Proof.
  split; simpl.
  - intros df l c Hc; unfold getitem, setitem.
    unfold label_count in Hc.
    destruct (existsb (matches l) (columns df)) eqn:E; simpl.
    + rewrite filter_replace_same.
      destruct (filter (matches l) (columns df)) as [|p [|q r]] eqn:F; simpl in *;
        [apply filter_nil_existsb in F; congruence | reflexivity | lia].
    + rewrite filter_app, existsb_filter_nil by exact E; simpl.
      rewrite matches_self; reflexivity.
  - intros df l l' c Hne; unfold getitem, setitem.
    destruct (existsb (matches l) (columns df)); simpl.
    + rewrite filter_replace_other by exact Hne; reflexivity.
    + rewrite filter_app; simpl; rewrite matches_other by exact Hne.
      rewrite app_nil_r; reflexivity.
  - intros df l l' c Hc; rewrite label_count_set.
    destruct (String.eqb l l'); lia.
  - intros df l c Hget; apply setitem_getitem; exact Hget.
  - intros df l c; unfold getitem, label_count.
    destruct (filter (matches l) (columns df)) as [|[l0 c0] [|q r]]; simpl;
      congruence.
  - intros df l; unfold getitem, label_count.
    destruct (filter (matches l) (columns df)); [reflexivity | discriminate].
  - intros df l; unfold getitem, label_count.
    destruct (filter (matches l) (columns df)) as [|[l0 c0] [|q r]]; simpl;
      try discriminate; eauto.
Qed.

(** ** Sums and means *)

Lemma int_sum_acc (l : list Z) (a : Z) :
  fold_left (fun acc v => wrap64 (acc + v)) l (wrap64 a) = wrap64 (fold_left Z.add l a).
Proof.
  revert a; induction l as [|v l IH]; intros a; simpl; auto.
  rewrite wrap64_add_l; apply IH.
Qed.

(** numpy's step-wise wrapping int64 sum is the wrap of the exact sum. *)
Lemma int_sum_wrap (l : list Z) : int_sum l = wrap64 (zsum l).
Proof. unfold int_sum, zsum; rewrite <- int_sum_acc; reflexivity. Qed.

(** On finite values no row is skipped and the sum is exact. *)
Lemma float_sum_fin (qs : list Q) : float_sum (map Fin qs) = Fin (qsum qs).
Proof.
  unfold float_sum, qsum; generalize 0 as a.
  induction qs as [|q qs IH]; intros a; simpl; auto.
Qed.

Lemma col_sum_fin (qs : list Q) : col_sum (FloatCol (map Fin qs)) = VNum (NFlt (Fin (qsum qs))).
Proof. simpl; rewrite float_sum_fin; reflexivity. Qed.

(** ** The shape of a table *)

Lemma getitem_in (df : frame) (l : string) (c : column) :
  getitem df l = Ok c -> In (l, c) (columns df).
Proof.
  unfold getitem; destruct (filter (matches l) (columns df)) as [|[l' c'] [|q r]] eqn:E;
    try discriminate; intros H; injection H as <-.
  assert (Hin : In (l', c') (filter (matches l) (columns df))) by (rewrite E; left; reflexivity).
  apply filter_In in Hin as [Hin Hm]; unfold matches in Hm; simpl in Hm.
  apply String.eqb_eq in Hm; subst; exact Hin.
Qed.

Lemma getitem_exists (df : frame) (l : string) (c : column) :
  getitem df l = Ok c -> existsb (matches l) (columns df) = true.
Proof.
  intros H; apply existsb_exists; exists (l, c); split;
    [apply getitem_in; exact H | apply matches_self].
Qed.

Lemma getitem_length (n : nat) (df : frame) (l : string) (c : column) :
  rectangular n df = true -> getitem df l = Ok c -> col_length c = n.
Proof.
  unfold rectangular; rewrite forallb_forall; intros Hr Hg.
  apply Nat.eqb_eq, (Hr _ (getitem_in df l c Hg)).
Qed.

Lemma setitem_rectangular (n : nat) (df : frame) (l : string) (c : column) :
  rectangular n df = true -> col_length c = n -> rectangular n (setitem df l c) = true.
Proof.
  unfold rectangular, setitem; intros Hr Hc.
  destruct (existsb (matches l) (columns df)); simpl.
  - rewrite forallb_forall in *; intros p Hp; apply in_map_iff in Hp as (p' & <- & Hp').
    unfold replace_col; destruct (matches l p'); simpl; [apply Nat.eqb_eq; exact Hc | auto].
  - rewrite forallb_app, Hr; simpl; rewrite Hc, Nat.eqb_refl; reflexivity.
Qed.

(** Assigning an existing label keeps the labels and their order. *)
Lemma setitem_labels (df : frame) (l : string) (c : column) :
  existsb (matches l) (columns df) = true -> labels (setitem df l c) = labels df.
Proof.
  unfold labels, setitem; intros ->; simpl; rewrite map_map; apply map_ext.
  intros [l' c']; unfold replace_col, matches; simpl.
  destruct (String.eqb_spec l' l); subst; reflexivity.
Qed.

Lemma col_round_length (nd : nat) (c c' : column) :
  col_round nd c = Ok c' -> col_length c' = col_length c.
Proof. destruct c; simpl; intros H; inversion H; subst; simpl; rewrite ?length_map; reflexivity. Qed.

Lemma rename_rectangular (m : list (string * string)) (n : nat) (df : frame) :
  rectangular n (rename m df) = rectangular n df.
Proof.
  unfold rectangular, rename; simpl; induction (columns df) as [|p cols IH]; simpl; congruence.
Qed.

Lemma rename_labels (m : list (string * string)) (df : frame) :
  labels (rename m df) = map (rename_label m) (labels df).
Proof. unfold labels, rename; simpl; rewrite !map_map; reflexivity. Qed.

(** ** [Series.sum()] of a float column against its closed form *)

Lemma fold_Qplus_acc (qs : list Q) (a : Q) :
  fold_left Qplus qs a == a + fold_left Qplus qs 0.
Proof.
  revert a; induction qs as [|r qs IH]; intros a; simpl; [ring|].
  rewrite (IH (a + r)), (IH (0 + r)); ring.
Qed.

Lemma qsum_cons (q : Q) (qs : list Q) : qsum (q :: qs) == q + qsum qs.
Proof. unfold qsum; simpl; rewrite fold_Qplus_acc; ring. Qed.

(** Adding a value that is not nan in front of the list. *)
Lemma float_sum_ref_cons (v : xfloat) (l : list xfloat) :
  is_nan v = false -> xeq (float_sum_ref (v :: l)) (xadd v (float_sum_ref l)).
Proof.
  intros Hv; unfold float_sum_ref; destruct v as [q| | |]; try discriminate; cbn [existsb is_pinf is_ninf orb fin_values];
    destruct (existsb is_pinf l), (existsb is_ninf l); simpl; try exact I.
  apply qsum_cons.
Qed.

Lemma float_sum_ref_nan (l : list xfloat) : float_sum_ref (NaN :: l) = float_sum_ref l.
Proof. reflexivity. Qed.

Lemma float_sum_acc (l : list xfloat) (acc : xfloat) :
  xeq (fold_left (fun acc v => if is_nan v then acc else xadd acc v) l acc)
      (xadd acc (float_sum_ref l)).
Proof.
  revert acc; induction l as [|v l IH]; intros acc; cbn [fold_left].
  - symmetry; apply xadd_zero_r.
  - destruct (is_nan v) eqn:Hv.
    + destruct v; try discriminate; rewrite float_sum_ref_nan; apply IH.
    + rewrite IH, float_sum_ref_cons by exact Hv; apply xadd_assoc.
Qed.

(** C29. The nan-skipping left fold numpy runs for [Series.sum()] on a
    float column is equivalent to its closed form [float_sum_ref]: nan
    rows are skipped, +inf and -inf together give nan, one of them alone
    gives it, and otherwise the result is the exact sum of the finite
    values. *)
Theorem float_sum_equiv (l : list xfloat) : xeq (float_sum l) (float_sum_ref l).
Proof.
  unfold float_sum; rewrite float_sum_acc.
  destruct (float_sum_ref l); simpl; try exact I; ring.
Qed.

Lemma count_valid_all_nan (l : list xfloat) : forallb is_nan l = true -> count_valid l = O.
Proof.
  unfold count_valid; induction l as [|v l IH]; simpl; auto.
  intros Hn; apply andb_true_iff in Hn as [-> Hl]; simpl; auto.
Qed.

Lemma count_valid_fin (qs : list Q) : count_valid (map Fin qs) = length qs.
Proof. unfold count_valid; induction qs; simpl; auto. Qed.

(** Rounding a column twice is rounding it once. *)
Lemma col_round_idem (nd : nat) (c c' : column) :
  col_round nd c = Ok c' -> col_round nd c' = Ok c'.
Proof.
  destruct c as [l|l|l]; simpl; intros Hc; try discriminate; injection Hc as <-;
    simpl; auto.
  rewrite map_map; f_equal; f_equal; apply map_ext; intros x; apply xround_idem.
Qed.

(** ** Renaming *)

Lemma rename_label_absent (m : list (string * string)) (l : string) :
  dict_get m l = None -> rename_label m l = l.
Proof. unfold rename_label; intros ->; reflexivity. Qed.

Lemma filter_rename (m : list (string * string)) (df : frame) (l : string) :
  filter (matches l) (columns (rename m df))
  = map (fun p => (rename_label m (fst p), snd p))
        (filter (fun p => String.eqb (rename_label m (fst p)) l) (columns df)).
Proof.
  unfold rename; simpl; induction (columns df) as [|p cols IH]; simpl; auto.
  unfold matches at 1; simpl.
  destruct (String.eqb (rename_label m (fst p)) l); simpl; rewrite IH; reflexivity.
Qed.

(** [df[l]] after a renaming, in terms of the labels the renaming sends
    to [l]. *)
Lemma getitem_rename (m : list (string * string)) (df : frame) (l : string)
  (P : string -> bool) :
  (forall x, String.eqb (rename_label m x) l = P x) ->
  getitem (rename m df) l =
  match filter (fun p => P (fst p)) (columns df) with
  | [] => Err (KeyError l)
  | [(_, c)] => Ok c
  | _ => Err (SubFrame l)
  end.
Proof.
  intros HP; unfold getitem; rewrite filter_rename.
  rewrite (filter_ext _ (fun p => P (fst p))) by (intros; apply HP).
  destruct (filter _ (columns df)) as [|[l0 c0] [|q r]]; reflexivity.
Qed.

End Frame.
