(* ===== verification/Format.v ===== *)
(** * Format: the f-string number formats of app.py

    app.py prints its numbers with the format specifications [.2f]
    (percentages, lines 94, 96, 125-126, 197, 201), [,.2f] (currency
    totals, lines 121-124, 182-188) and [,.0f] (quantity totals, lines
    147-150).  [format_fixed grouping nd x] models [format(x, spec)] for
    these specifications: nan, inf and -inf print as "nan", "inf",
    "-inf"; a finite value is rounded half to even at [nd] decimals (on
    its exact value, as CPython does), printed with a leading "-" when
    negative (also when it rounds to zero), its integer part grouped by
    thousands with "," when [grouping] is set.  The file also holds a
    reader of the printed text ([read_float]), Python's thousands rule
    ([grouped]), and the round-trip theorems: the text denotes
    [round(x, nd)] (C27), and the grouping is the only one following the
    rule (C28).  [float_str] is Python's [str] of a float, used by the
    chart labels ([astype(str)], line 109); its search for the shortest
    decimals is bounded by [str_fuel] = 17, and [read_float_str_rounded]
    uses [shortest_decimals_complete] to show that two decimals suffice
    for every value the charts show. *)

From Stdlib Require Import String Ascii List Bool QArith Qabs ZArith NArith Lia Lqa.
From Stdlib Require Import DecimalString DecimalN.
From S2P Require Import Prelude PyFloat.
Import ListNotations.
Local Open Scope string_scope.

Module Format.
Import PyFloat.

(** Decimal digits of a natural number, "0" for zero. *)
Definition digits (n : N) : string := NilEmpty.string_of_uint (N.to_uint n).

Fixpoint zeros (k : nat) : string :=
  match k with
  | O => ""
  | S k' => String "0" (zeros k')
  end.

Definition pad_left (w : nat) (s : string) : string :=
  zeros (w - String.length s)%nat ++ s.

(** Insert "," every three characters, on the reversed digits. *)
Fixpoint group_rev (cs : list ascii) : list ascii :=
  match cs with
  | a :: b :: c :: ((_ :: _) as rest) => a :: b :: c :: ","%char :: group_rev rest
  | _ => cs
  end.

Definition group_thousands (s : string) : string :=
  string_of_list_ascii (rev (group_rev (rev (list_ascii_of_string s)))).

(** The digits of a non-negative integer [n] read as [n / 10^nd]: at
    least one integer digit, the integer part grouped when [grouping]
    holds, and [nd] digits after the point. *)
Definition fixed_point (grouping : bool) (nd : nat) (n : N) : string :=
  let s := pad_left (S nd) (digits n) in
  let k := (String.length s - nd)%nat in
  let ip := substring 0 k s in
  let fp := substring k nd s in
  (if grouping then group_thousands ip else ip)
  ++ (match nd with O => "" | _ => "." ++ fp end).

(** [format(x, ",.<nd>f")] when [grouping] holds, [format(x, ".<nd>f")]
    otherwise. *)
Definition format_fixed (grouping : bool) (nd : nat) (x : xfloat) : string :=
  match x with
  | NaN => "nan"
  | PInf => "inf"
  | NInf => "-inf"
  | Fin q =>
      let n := Z.to_N (round_half_even (Qabs q * inject_Z (10 ^ Z.of_nat nd))) in
      (if Qle_bool 0 q then "" else "-") ++ fixed_point grouping nd n
  end.

(** ** [str] of a number *)

(** [q * 10^d] is an integer. *)
Definition exact_at (d : nat) (q : Q) : bool :=
  let y := q * inject_Z (10 ^ Z.of_nat d) in
  Z.eqb (Z.modulo (Qnum y) (Zpos (Qden y))) 0.

(** The fewest decimals, from [d] on, that write [q] exactly; [None] when
    [fuel] more decimals are not enough. *)
Fixpoint shortest_decimals (fuel d : nat) (q : Q) : option nat :=
  if exact_at d q then Some d
  else match fuel with
       | O => None
       | S f => shortest_decimals f (S d) q
       end.

(** A float64 prints with at most 17 significant digits. *)
Definition str_fuel : nat := 17.

(** [str(z)] of an integer. *)
Definition int_str (z : Z) : string :=
  (if Z.leb 0 z then "" else "-") ++ digits (Z.to_N (Z.abs z)).

Fixpoint drop_zeros (l : list ascii) : list ascii :=
  match l with
  | a :: l' => if Ascii.eqb a "0" then drop_zeros l' else l
  | [] => []
  end.

(** The digits of [n] without its trailing zeros. *)
Definition significant (n : N) : string :=
  string_of_list_ascii (rev (drop_zeros (rev (list_ascii_of_string (digits n))))).

(** Exponent notation of [n * 10^p] ([n > 0]): the first significant
    digit, the others after a point, and a signed exponent of at least
    two digits, as [1e+16], [1.5e+16], [1e-05]. *)
Definition exp_form (n : N) (p : Z) : string :=
  let D := significant n in
  let e := (Z.of_nat (String.length (digits n)) - 1 + p)%Z in
  let mant := match D with
              | String c EmptyString => String c EmptyString
              | String c rest => String c ("." ++ rest)
              | EmptyString => "0"
              end in
  mant ++ "e" ++ (if Z.ltb e 0 then "-" else "+") ++ pad_left 2 (digits (Z.to_N (Z.abs e))).

(** [str(x)] of a float64 ([astype(str)], line 109), CPython's [repr]: the
    shortest decimal that writes the value, in fixed notation with at
    least one decimal when [1e-4 <= |x| < 1e16] or [x = 0], in exponent
    notation otherwise.  The exact model has no binary approximation: a
    value that needs more than [str_fuel] decimals prints with
    [str_fuel] decimals. *)
Definition float_str (x : xfloat) : string :=
  match x with
  | NaN => "nan"
  | PInf => "inf"
  | NInf => "-inf"
  | Fin q =>
      let a := Qabs q in
      match shortest_decimals str_fuel 0 a with
      | None => format_fixed false str_fuel x
      | Some d =>
          if Qle_bool (inject_Z (10 ^ 16)) a || (negb (Qeq_bool a 0) && negb (Qle_bool (1 # 10000) a))
          then (if Qle_bool 0 q then "" else "-")
               ++ exp_form (Z.to_N (round_half_even (a * inject_Z (10 ^ Z.of_nat d)))) (- Z.of_nat d)
          else format_fixed false (Nat.max 1 d) x
      end
  end.

(** ** Reading a formatted number back

    [read_float] is the reader a user applies to the dashboard's text: an
    optional "-", digits with "," separators, an optional "." followed by
    digits; or one of "nan", "inf", "-inf".  It is the specification side
    of the round-trip theorems below. *)

Fixpoint sall (P : ascii -> bool) (s : string) : bool :=
  match s with
  | EmptyString => true
  | String c r => P c && sall P r
  end.

Definition is_digit (c : ascii) : bool :=
  (48 <=? nat_of_ascii c)%nat && (nat_of_ascii c <=? 57)%nat.

Definition not_comma (c : ascii) : bool := negb (Ascii.eqb c ",").

(** The characters [format_fixed] puts in the integer part. *)
Definition num_char (c : ascii) : bool := is_digit c || Ascii.eqb c ",".

Fixpoint drop_commas (s : string) : string :=
  match s with
  | EmptyString => EmptyString
  | String c r => if Ascii.eqb c "," then drop_commas r else String c (drop_commas r)
  end.

Fixpoint split_dot (s : string) : string * string :=
  match s with
  | EmptyString => (EmptyString, EmptyString)
  | String c r =>
      if Ascii.eqb c "." then (EmptyString, r)
      else let '(a, b) := split_dot r in (String c a, b)
  end.

Definition strip_minus (s : string) : bool * string :=
  match s with
  | String c r => if Ascii.eqb c "-" then (true, r) else (false, s)
  | EmptyString => (false, s)
  end.

(** Digits with "," separators, then optionally "." and digits. *)
Definition read_unsigned (body : string) : option Q :=
  let '(ip, fp) := split_dot body in
  match NilEmpty.uint_of_string (drop_commas ip ++ fp) with
  | Some d =>
      Some (inject_Z (Z.of_N (N.of_uint d)) / inject_Z (10 ^ Z.of_nat (String.length fp)))
  | None => None
  end.

Definition read_decimal (s : string) : option Q :=
  let '(neg, body) := strip_minus s in
  option_map (fun v => if neg then - v else v) (read_unsigned body).

Definition read_float (s : string) : option xfloat :=
  match read_decimal s with
  | Some q => Some (Fin q)
  | None =>
      if String.eqb s "nan" then Some NaN
      else if String.eqb s "inf" then Some PInf
      else if String.eqb s "-inf" then Some NInf
      else None
  end.

(** Python's "," option: on the reversed digits, groups of three separated
    by ",", the last group (the leading digits) of one to three. *)
Inductive grouped_rev : list ascii -> Prop :=
| grouped_short (l : list ascii) :
    (length l <= 3)%nat -> forallb not_comma l = true -> grouped_rev l
| grouped_sep (a b c : ascii) (r : list ascii) :
    not_comma a = true -> not_comma b = true -> not_comma c = true ->
    r <> [] -> grouped_rev r -> grouped_rev (a :: b :: c :: ","%char :: r).

Definition grouped (s : string) : Prop := grouped_rev (rev (list_ascii_of_string s)).

(** ** Strings *)

Lemma sall_app (P : ascii -> bool) (a b : string) :
  sall P (a ++ b) = sall P a && sall P b.
Proof. induction a as [|c a IH]; simpl; [reflexivity|]; rewrite IH, andb_assoc; reflexivity. Qed.

Lemma sall_impl (P P' : ascii -> bool) (s : string) :
  (forall c, P c = true -> P' c = true) -> sall P s = true -> sall P' s = true.
Proof.
  intros HP; induction s as [|c s IH]; simpl; auto.
  rewrite !andb_true_iff; intros [H1 H2]; auto.
Qed.

Lemma sall_substring (P : ascii -> bool) (n m : nat) (s : string) :
  sall P s = true -> sall P (substring n m s) = true.
Proof.
  revert n m; induction s as [|c s IH]; intros [|n] [|m]; simpl; auto;
    rewrite andb_true_iff; intros [H1 H2]; simpl; auto.
  rewrite H1; simpl; apply (IH 0%nat); exact H2.
Qed.

Lemma length_append (a b : string) : String.length (a ++ b) = (String.length a + String.length b)%nat.
Proof. induction a as [|c a IH]; simpl; auto. Qed.

Lemma substring_length (n m : nat) (s : string) :
  (n + m <= String.length s)%nat -> String.length (substring n m s) = m.
Proof.
  revert n m; induction s as [|c s IH]; intros [|n] [|m]; simpl; intros H;
    try reflexivity; try lia; f_equal; apply (IH 0%nat) || apply IH; simpl; lia.
Qed.

Lemma substring_all (m : nat) (s : string) :
  (String.length s <= m)%nat -> substring 0 m s = s.
Proof.
  revert m; induction s as [|c s IH]; intros [|m]; simpl; intros H;
    try reflexivity; try lia; f_equal; apply IH; lia.
Qed.

Lemma substring_zero (n : nat) (s : string) : substring n 0 s = EmptyString.
Proof. revert n; induction s as [|c s IH]; intros [|n]; simpl; auto. Qed.

(** A prefix and the rest of a string put back together. *)
Lemma substring_split (k : nat) (s : string) :
  substring 0 k s ++ substring k (String.length s - k) s = s.
Proof.
  revert s; induction k as [|k IH]; intros s.
  - rewrite substring_zero, Nat.sub_0_r; apply substring_all; lia.
  - destruct s as [|c s]; [reflexivity|]; simpl; f_equal; apply IH.
Qed.

Lemma drop_commas_app (a b : string) : drop_commas (a ++ b) = drop_commas a ++ drop_commas b.
Proof.
  induction a as [|c a IH]; simpl; [reflexivity|].
  destruct (Ascii.eqb c ","); simpl; rewrite IH; reflexivity.
Qed.

Lemma drop_commas_id (s : string) : sall not_comma s = true -> drop_commas s = s.
Proof.
  induction s as [|c s IH]; simpl; [reflexivity|]; unfold not_comma.
  destruct (Ascii.eqb c ","); simpl; [discriminate|]; intros H; rewrite IH; auto.
Qed.

Lemma split_dot_none (a : string) :
  sall (fun c => negb (Ascii.eqb c ".")) a = true -> split_dot a = (a, EmptyString).
Proof.
  induction a as [|c a IH]; simpl; [reflexivity|].
  destruct (Ascii.eqb c "."); simpl; [discriminate|]; intros H; rewrite IH; auto.
Qed.

Lemma split_dot_at (a b : string) :
  sall (fun c => negb (Ascii.eqb c ".")) a = true -> split_dot (a ++ String "." b) = (a, b).
Proof.
  induction a as [|c a IH]; simpl; [reflexivity|].
  destruct (Ascii.eqb c "."); simpl; [discriminate|]; intros H; rewrite IH; auto.
Qed.

Lemma strip_minus_plain (s : string) :
  sall (fun c => negb (Ascii.eqb c "-")) s = true -> strip_minus s = (false, s).
Proof. destruct s as [|c s]; simpl; [reflexivity|]; destruct (Ascii.eqb c "-"); easy. Qed.

(** ** Thousands grouping *)

(** Induction following the recursion of [group_rev]. *)
Lemma group_rev_rect (P : list ascii -> Prop) :
  (forall l, match l with a :: b :: c :: ((_ :: _) as r) => P r | _ => True end -> P l) ->
  forall l, P l.
Proof.
  intros H l.
  assert (HP : forall n l', (length l' <= n)%nat -> P l') by
   (intros n; induction n as [|n IHn]; intros l' Hl; apply H;
    destruct l' as [|a [|b [|c [|d r]]]]; auto; simpl in Hl;
    first [lia | apply IHn; simpl; lia]).
  exact (HP _ l (le_n _)).
Qed.
Lemma sall_list (P : ascii -> bool) (l : list ascii) :
  sall P (string_of_list_ascii l) = forallb P l.
Proof. induction l as [|c l IH]; simpl; congruence. Qed.

Lemma drop_commas_list (l : list ascii) :
  drop_commas (string_of_list_ascii l) = string_of_list_ascii (filter not_comma l).
Proof.
  induction l as [|c l IH]; simpl; [reflexivity|]; unfold not_comma.
  destruct (Ascii.eqb c ","); simpl; rewrite IH; reflexivity.
Qed.

Lemma forallb_rev {A} (P : A -> bool) (l : list A) : forallb P (rev l) = forallb P l.
Proof.
  induction l as [|x l IH]; simpl; [reflexivity|].
  rewrite forallb_app, IH; simpl; rewrite andb_true_r, andb_comm; reflexivity.
Qed.

Lemma filter_all {A} (P : A -> bool) (l : list A) : forallb P l = true -> filter P l = l.
Proof.
  induction l as [|x l IH]; simpl; [reflexivity|].
  rewrite andb_true_iff; intros [-> H]; rewrite IH; auto.
Qed.

(** One step of [group_rev] on four or more digits. *)
Lemma group_rev_long (a b c d : ascii) (r : list ascii) :
  group_rev (a :: b :: c :: d :: r) = a :: b :: c :: ","%char :: group_rev (d :: r).
Proof. reflexivity. Qed.

Lemma group_rev_filter (l : list ascii) : filter not_comma (group_rev l) = filter not_comma l.
Proof.
  apply (group_rev_rect (fun l => filter not_comma (group_rev l) = filter not_comma l)).
  intros [|a [|b [|c [|d r]]]] IH; try reflexivity.
  change (filter not_comma ([a; b; c; ","%char] ++ group_rev (d :: r))%list
          = filter not_comma ([a; b; c] ++ d :: r)%list).
  rewrite !filter_app, IH; reflexivity.
Qed.

Lemma group_rev_forallb (P : ascii -> bool) (l : list ascii) :
  P ","%char = true -> forallb P (group_rev l) = forallb P l.
Proof.
  intros Hc; apply (group_rev_rect (fun l => forallb P (group_rev l) = forallb P l)).
  intros [|a [|b [|c [|d r]]]] IH;
    [cbn [group_rev forallb]; rewrite ?Hc; reflexivity ..|].
  rewrite group_rev_long; cbn [forallb]; rewrite IH, Hc; reflexivity.
Qed.

Lemma group_rev_cons (d : ascii) (r : list ascii) : exists t, group_rev (d :: r) = d :: t.
Proof. destruct r as [|e [|f [|g r]]]; simpl; eauto. Qed.

Lemma group_rev_grouped (l : list ascii) :
  forallb not_comma l = true -> grouped_rev (group_rev l).
Proof.
  apply (group_rev_rect (fun l => forallb not_comma l = true -> grouped_rev (group_rev l))).
  intros [|a [|b [|c [|d r]]]] IH Hl;
    try (apply grouped_short; [simpl; lia | exact Hl]).
  rewrite group_rev_long.
  simpl in Hl; rewrite !andb_true_iff in Hl; destruct Hl as (Ha & Hb & Hc & Hd).
  destruct (group_rev_cons d r) as [t' Ht]; apply grouped_sep; auto.
  - rewrite Ht; discriminate.
  - apply IH; simpl; apply andb_true_iff; exact Hd.
Qed.

Lemma grouped_rev_filter_nonempty (l : list ascii) :
  grouped_rev l -> l <> [] -> filter not_comma l <> [].
Proof.
  intros [l' _ Hf | a b c r Ha _ _ _ _]; [|simpl; rewrite Ha; discriminate].
  destruct l' as [|x l']; [contradiction|]; simpl in *.
  apply andb_true_iff in Hf as [-> _]; discriminate.
Qed.

(** A grouped list is the grouping of its digits. *)
Lemma grouped_rev_unique (l : list ascii) : grouped_rev l -> group_rev (filter not_comma l) = l.
Proof.
  induction 1 as [l Hlen Hf | a b c r Ha Hb Hc Hr Hg IH].
  - rewrite filter_all by exact Hf.
    destruct l as [|a [|b [|c [|d r]]]]; simpl in *; auto; lia.
  - simpl; rewrite Ha, Hb, Hc.
    destruct (filter not_comma r) as [|x y] eqn:E;
      [exfalso; exact (grouped_rev_filter_nonempty r Hg Hr E)|].
    rewrite group_rev_long, IH; reflexivity.
Qed.

Lemma drop_commas_group (s : string) :
  sall not_comma s = true -> drop_commas (group_thousands s) = s.
Proof.
  intros Hs; unfold group_thousands.
  rewrite drop_commas_list, filter_rev, group_rev_filter, filter_rev, rev_involutive.
  rewrite filter_all; [apply string_of_list_ascii_of_string|].
  rewrite <- sall_list, string_of_list_ascii_of_string; exact Hs.
Qed.

Lemma sall_group (P : ascii -> bool) (s : string) :
  P ","%char = true -> sall P s = true -> sall P (group_thousands s) = true.
Proof.
  intros Hc Hs; unfold group_thousands.
  rewrite sall_list, forallb_rev, group_rev_forallb, forallb_rev by exact Hc.
  rewrite <- sall_list, string_of_list_ascii_of_string; exact Hs.
Qed.

(** ** Printing then reading *)

Lemma append_empty (s : string) : s ++ "" = s.
Proof. induction s as [|c s IH]; simpl; congruence. Qed.

Lemma length_zeros (m : nat) : String.length (zeros m) = m.
Proof. induction m as [|m IH]; simpl; auto. Qed.

Lemma sall_zeros (m : nat) : sall is_digit (zeros m) = true.
Proof. induction m as [|m IH]; simpl; auto. Qed.

Lemma sall_uint (d : Decimal.uint) : sall is_digit (NilEmpty.string_of_uint d) = true.
Proof. induction d; simpl; auto. Qed.

Lemma uint_of_zeros (m : nat) (s : string) :
  NilEmpty.uint_of_string (zeros m ++ s)
  = option_map (Nat.iter m Decimal.D0) (NilEmpty.uint_of_string s).
Proof.
  induction m as [|m IH]; simpl.
  - destruct (NilEmpty.uint_of_string s); reflexivity.
  - rewrite IH; destruct (NilEmpty.uint_of_string s); reflexivity.
Qed.

(** Leading zeros do not change the value read. *)
Lemma of_uint_zeros (m : nat) (d : Decimal.uint) :
  N.of_uint (Nat.iter m Decimal.D0 d) = N.of_uint d.
Proof. induction m as [|m IH]; simpl; [reflexivity | exact IH]. Qed.

(** Exclude a character from the digits and separators. *)
Ltac char_excl :=
  let c := fresh "c" in let H := fresh "H" in
  intros c H; apply negb_true_iff;
  match goal with |- Ascii.eqb _ ?x = false =>
    destruct (Ascii.eqb_spec c x); [subst; vm_compute in H; discriminate H | reflexivity]
  end.

Lemma digit_not_comma (c : ascii) : is_digit c = true -> not_comma c = true.
Proof. revert c; unfold not_comma; char_excl. Qed.

Lemma digit_num_char (c : ascii) : is_digit c = true -> num_char c = true.
Proof. intros H; unfold num_char; rewrite H; reflexivity. Qed.

Lemma num_char_not_minus (c : ascii) : num_char c = true -> negb (Ascii.eqb c "-") = true.
Proof. revert c; char_excl. Qed.

Lemma num_char_not_dot (c : ascii) : num_char c = true -> negb (Ascii.eqb c ".") = true.
Proof. revert c; char_excl. Qed.

#[local] Hint Resolve digit_not_comma digit_num_char num_char_not_minus num_char_not_dot
  sall_zeros sall_uint : pydb.

(** Reading back the digits [fixed_point] prints gives [n / 10^nd], and
    they hold no "-". *)
Lemma read_fixed_point (g : bool) (nd : nat) (n : N) :
  sall (fun c => negb (Ascii.eqb c "-")) (fixed_point g nd n) = true /\
  read_unsigned (fixed_point g nd n) = Some (inject_Z (Z.of_N n) / inject_Z (10 ^ Z.of_nat nd)).
Proof.
  unfold fixed_point; cbv zeta.
  set (s := pad_left (S nd) (digits n)).
  assert (Hlen : (S nd <= String.length s)%nat)
    by (unfold s, pad_left; rewrite length_append, length_zeros; lia).
  assert (Hdig : sall is_digit s = true)
    by (unfold s, pad_left, digits; rewrite sall_app, sall_zeros, sall_uint; reflexivity).
  assert (Hread : option_map N.of_uint (NilEmpty.uint_of_string s) = Some n).
  { unfold s, pad_left, digits; rewrite uint_of_zeros, NilEmpty.usu; simpl.
    rewrite of_uint_zeros, DecimalN.Unsigned.of_to; reflexivity. }
  set (k := (String.length s - nd)%nat).
  assert (Hsplit : substring 0 k s ++ substring k nd s = s).
  { pose proof (substring_split k s) as H.
    replace (String.length s - k)%nat with nd in H by (unfold k; lia); exact H. }
  assert (Hfp : String.length (substring k nd s) = nd) by (apply substring_length; unfold k; lia).
  assert (Hip : sall is_digit (substring 0 k s) = true) by (apply sall_substring; exact Hdig).
  assert (Hfd : sall is_digit (substring k nd s) = true) by (apply sall_substring; exact Hdig).
  set (G := if g then group_thousands (substring 0 k s) else substring 0 k s).
  assert (HG : drop_commas G = substring 0 k s /\ sall num_char G = true).
  { unfold G; destruct g; split.
    all: try apply drop_commas_group; try apply drop_commas_id;
         try (apply sall_group; [reflexivity|]).
    all: eapply sall_impl; [|exact Hip]; eauto with pydb. }
  destruct HG as [HG HGc].
  assert (Hsd : split_dot (G ++ match nd with O => "" | S _ => "." ++ substring k nd s end)
                = (G, substring k nd s)).
  { destruct nd as [|nd'].
    - rewrite substring_zero, append_empty; apply split_dot_none; eapply sall_impl; eauto with pydb.
    - apply split_dot_at; eapply sall_impl; eauto with pydb. }
  split.
  - rewrite sall_app, (sall_impl _ _ G) by eauto with pydb; simpl.
    destruct nd; simpl; [reflexivity|]; eapply sall_impl; [|exact Hfd]; eauto with pydb.
  - unfold read_unsigned; rewrite Hsd, HG, Hsplit, Hfp.
    destruct (NilEmpty.uint_of_string s); simpl in Hread; [|discriminate].
    injection Hread as ->; reflexivity.
Qed.

Lemma strip_minus_neg (s : string) : strip_minus (String "-" s) = (true, s).
Proof. reflexivity. Qed.

Section Values.
Local Open Scope Q_scope.
Variable (nd : nat).
Let s := inject_Z (10 ^ Z.of_nat nd).

Lemma scale_nonneg : 0 <= s.
Proof.
  unfold s; change 0 with (inject_Z 0); rewrite <- Zle_Qle.
  apply Z.pow_nonneg; lia.
Qed.

(** The integer [format_fixed] prints for [q >= 0] is [round(q * 10^nd)]. *)
Lemma fixed_value_pos (q : Q) : 0 <= q ->
  inject_Z (Z.of_N (Z.to_N (round_half_even (Qabs q * s)))) / s
  == inject_Z (round_half_even (q * s)) / s.
Proof.
  intros Hq; pose proof scale_nonneg.
  rewrite (round_half_even_proper (Qabs q * s) (q * s)) by (rewrite Qabs_pos; [reflexivity | exact Hq]).
  rewrite Z2N.id; [reflexivity|]; apply round_half_even_nonneg, Qmult_le_0_compat; assumption.
Qed.

(** For [q < 0] it prints the magnitude after a "-". *)
Lemma fixed_value_neg (q : Q) : q < 0 ->
  - (inject_Z (Z.of_N (Z.to_N (round_half_even (Qabs q * s)))) / s)
  == inject_Z (round_half_even (q * s)) / s.
Proof.
  intros Hq; pose proof scale_nonneg.
  assert (Hn : (0 <= round_half_even (Qabs q * s))%Z)
    by (apply round_half_even_nonneg, Qmult_le_0_compat; [apply Qabs_nonneg | assumption]).
  rewrite Z2N.id by exact Hn.
  rewrite (round_half_even_proper (Qabs q * s) (- (q * s))) by (rewrite Qabs_neg; [ring | lra]).
  rewrite round_half_even_opp, inject_Z_opp; unfold Qdiv; ring.
Qed.

End Values.

(** Reading back [format_fixed]: the rounded value. *)
Lemma read_format_fixed (g : bool) (nd : nat) (x : xfloat) :
  exists y, read_float (format_fixed g nd x) = Some y /\ xeq y (xround nd x).
Proof.
  destruct x as [q| | |]; [|eexists; split; reflexivity || exact I ..].
  unfold format_fixed, read_float, read_decimal.
  destruct (read_fixed_point g nd (Z.to_N (round_half_even (Qabs q * inject_Z (10 ^ Z.of_nat nd)))))
    as [Hm Hr].
  destruct (Qle_bool 0 q) eqn:E; cbn [append].
  - rewrite strip_minus_plain by exact Hm; cbv beta iota; rewrite Hr.
    eexists; split; [reflexivity|]; cbn [xeq xround].
    apply fixed_value_pos; apply Qle_bool_iff; exact E.
  - rewrite strip_minus_neg; cbv beta iota; rewrite Hr.
    eexists; split; [reflexivity|]; cbn [xeq xround].
    apply fixed_value_neg; apply Qle_bool_false in E; exact E.
Qed.

(** C27. Round trip of the number formats: reading back the text
    [format_fixed] prints gives the value rounded half to even at [nd]
    decimals, for every float (nan, inf and -inf included) and with or
    without the thousands separators: the dashboard's figures show
    exactly [round(x, nd)]. *)
Theorem format_fixed_roundtrip (g : bool) (nd : nat) (x : xfloat) :
  exists y, read_float (format_fixed g nd x) = Some y /\ xeq y (xround nd x).
Proof. apply read_format_fixed. Qed.

(** C28. The thousands separators of [,.2f] and [,.0f] follow Python's
    rule, and [group_thousands] is the only way to follow it: for a digit
    string [s], a text [t] is grouped (groups of three from the right,
    the leading group of one to three) with digits [s] exactly when [t] is
    [group_thousands s]. *)
Theorem group_thousands_spec (s t : string) :
  sall not_comma s = true ->
  (grouped t /\ drop_commas t = s <-> t = group_thousands s).
Proof.
  intros Hs; split.
  - intros [Hg Hd]; subst s; unfold group_thousands.
    rewrite <- (string_of_list_ascii_of_string t) at 2.
    rewrite drop_commas_list, list_ascii_of_string_of_list_ascii, <- filter_rev.
    rewrite (grouped_rev_unique _ Hg), rev_involutive, string_of_list_ascii_of_string.
    reflexivity.
  - intros ->; split; [|apply drop_commas_group; exact Hs].
    unfold grouped, group_thousands.
    rewrite list_ascii_of_string_of_list_ascii, rev_involutive.
    apply group_rev_grouped; rewrite forallb_rev, <- sall_list, string_of_list_ascii_of_string.
    exact Hs.
Qed.

(** ** Printing with [str] *)

Lemma exact_at_spec (d : nat) (q : Q) :
  exact_at d q = true <-> exists z, q * inject_Z (10 ^ Z.of_nat d) == inject_Z z.
Proof.
  unfold exact_at; cbv zeta; remember (q * inject_Z (10 ^ Z.of_nat d)) as y eqn:Ey.
  rewrite Z.eqb_eq; split.
  - intros Hm; exists (Qnum y / Zpos (Qden y))%Z.
    apply (Z.div_exact (Qnum y) (Zpos (Qden y))) in Hm; [|discriminate].
    unfold Qeq; cbn [Qnum Qden inject_Z]; rewrite Z.mul_1_r; rewrite Hm at 1; ring.
  - intros (z & Hz); unfold Qeq in Hz; cbn [Qnum Qden inject_Z] in Hz; rewrite Z.mul_1_r in Hz.
    rewrite Hz; apply Z.mod_mul; discriminate.
Qed.

(** An exact value stays exact with more decimals. *)
Lemma exact_at_le (d D : nat) (q : Q) :
  (d <= D)%nat -> exact_at d q = true -> exact_at D q = true.
Proof.
  intros Hle H; apply exact_at_spec in H as (z & Hz); apply exact_at_spec.
  exists (z * 10 ^ Z.of_nat (D - d))%Z.
  replace (Z.of_nat D) with (Z.of_nat d + Z.of_nat (D - d))%Z by lia.
  rewrite Z.pow_add_r by lia; rewrite !inject_Z_mult, <- Hz; ring.
Qed.

Lemma exact_at_abs (d : nat) (q : Q) : exact_at d (Qabs q) = exact_at d q.
Proof.
  apply eq_true_iff_eq; rewrite !exact_at_spec; split; intros (z & Hz);
    destruct (Qlt_le_dec q 0) as [Hn|Hp].
  - exists (- z)%Z; rewrite inject_Z_opp, <- Hz, Qabs_neg by lra; ring.
  - exists z; rewrite <- Hz, Qabs_pos by exact Hp; reflexivity.
  - exists (- z)%Z; rewrite inject_Z_opp, <- Hz, Qabs_neg by lra; ring.
  - exists z; rewrite <- Hz, Qabs_pos by exact Hp; reflexivity.
Qed.

(** Rounding an exact value to its decimals changes nothing. *)
Lemma xround_exact (d : nat) (q : Q) : exact_at d q = true -> xeq (xround d (Fin q)) (Fin q).
Proof.
  intros H; apply exact_at_spec in H as (z & Hz); cbn [xround xeq].
  rewrite (round_half_even_proper _ _ Hz), round_half_even_Z, <- Hz.
  field; apply scale_nonzero.
Qed.

(** A value rounded to [nd] decimals is exact at [nd] decimals. *)
Lemma xround_exact_at (nd : nat) (x : xfloat) (q : Q) :
  xround nd x = Fin q -> exact_at nd q = true.
Proof.
  destruct x as [q0| | |]; cbn [xround]; intros H; try discriminate.
  injection H as <-; apply exact_at_spec.
  exists (round_half_even (q0 * inject_Z (10 ^ Z.of_nat nd))); field; apply scale_nonzero.
Qed.

(** The search for the shortest decimals stops, within its fuel, at the
    fewest decimals that write the value. *)
Lemma shortest_decimals_complete (fuel d m : nat) (q : Q) :
  (d <= m <= d + fuel)%nat -> exact_at m q = true ->
  exists d', shortest_decimals fuel d q = Some d' /\ (d <= d' <= m)%nat /\
    exact_at d' q = true /\ (forall k, (d <= k < d')%nat -> exact_at k q = false).
Proof.
  revert d; induction fuel as [|f IH]; intros d Hb Hm; simpl;
    destruct (exact_at d q) eqn:E.
  - exists d; repeat split; auto; lia.
  - replace m with d in Hm by lia; congruence.
  - exists d; repeat split; auto; lia.
  - assert (Hd : m <> d) by (intros ->; congruence).
    destruct (IH (S d)) as (d' & H1 & H2 & H3 & H4); [lia | exact Hm|].
    exists d'; repeat split; auto; try lia.
    intros k Hk; destruct (Nat.eq_dec k d) as [->|Hk']; [exact E | apply H4; lia].
Qed.

(** Values of the fixed-notation range. *)
Definition below_1e16 (x : xfloat) : Prop :=
  match x with
  | Fin q => Qabs q < inject_Z (10 ^ 16)
  | _ => True
  end.

(** Reading back [str(x)] of a value written with at most 17 decimals in
    the fixed-notation range gives the value. *)
Lemma read_float_str (q : Q) (m : nat) :
  (m <= str_fuel)%nat -> exact_at m (Qabs q) = true -> Qabs q < inject_Z (10 ^ 16) ->
  q == 0 \/ (1 # 10000) <= Qabs q ->
  exists y, read_float (float_str (Fin q)) = Some y /\ xeq y (Fin q).
Proof.
  intros Hm He Hb Hs.
  destruct (shortest_decimals_complete str_fuel 0 m (Qabs q)) as (d & Hd & Hdm & Ed & _);
    [unfold str_fuel in *; lia | exact He|].
  unfold float_str; rewrite Hd.
  assert (Hb' : Qle_bool (inject_Z (10 ^ 16)) (Qabs q) = false)
    by (apply not_true_iff_false; rewrite Qle_bool_iff; lra).
  assert (Hs' : negb (Qeq_bool (Qabs q) 0) && negb (Qle_bool (1 # 10000) (Qabs q)) = false).
  { destruct Hs as [H0|H1].
    - assert (Qeq_bool (Qabs q) 0 = true) as -> by (apply Qeq_bool_iff; rewrite H0; reflexivity).
      reflexivity.
    - assert (Qle_bool (1 # 10000) (Qabs q) = true) as -> by (apply Qle_bool_iff; exact H1).
      apply andb_false_r. }
  rewrite Hb', Hs'; cbn [orb].
  destruct (read_format_fixed false (Nat.max 1 d) (Fin q)) as (y & Hy & Ey).
  exists y; split; [exact Hy|]; rewrite Ey.
  apply xround_exact; rewrite <- exact_at_abs; apply (exact_at_le d); [lia | exact Ed].
Qed.

(** A value rounded to two decimals is 0 or at least 0.01 in magnitude. *)
Lemma rounded_not_tiny (x : xfloat) (q : Q) :
  xround 2 x = Fin q -> q == 0 \/ (1 # 10000) <= Qabs q.
Proof.
  destruct x as [q0| | |]; cbn [xround]; intros H; try discriminate; injection H as <-.
  match goal with |- context [round_half_even ?t] => generalize (round_half_even t) as k end.
  intros k; change (inject_Z (Z.pow_pos 10 2)) with 100.
  destruct (Z.eq_dec k 0) as [->|Hk]; [left; reflexivity | right].
  assert (H1 : 1 <= Qabs (inject_Z k)).
  { destruct (Z_lt_le_dec k 0) as [Hn|Hp].
    - rewrite Qabs_neg by (change 0 with (inject_Z 0); rewrite <- Zle_Qle; lia).
      assert (inject_Z k <= inject_Z (-1)) by (rewrite <- Zle_Qle; lia).
      change (inject_Z (-1)) with (-1) in H; lra.
    - rewrite Qabs_pos by (change 0 with (inject_Z 0); rewrite <- Zle_Qle; lia).
      change 1 with (inject_Z 1); rewrite <- Zle_Qle; lia. }
  unfold Qdiv; rewrite Qabs_Qmult; change (Qabs (/ 100)) with (1 # 100); lra.
Qed.

(** [str] of a float rounded to two decimals in the fixed-notation range
    reads back as that float. *)
Lemma read_float_str_rounded (x : xfloat) :
  below_1e16 (xround 2 x) ->
  exists y, read_float (float_str (xround 2 x)) = Some y /\ xeq y (xround 2 x).
Proof.
  destruct (xround 2 x) as [q| | |] eqn:Hx; intros Hb;
    [|eexists; split; reflexivity || exact I ..].
  apply (read_float_str q 2); [unfold str_fuel; lia | | exact Hb |].
  - rewrite exact_at_abs; exact (xround_exact_at 2 x q Hx).
  - exact (rounded_not_tiny x q Hx).
Qed.

(** ** The theorems at concrete inputs *)

Lemma group_thousands_spec_witness :
  sall not_comma "1234567" = true /\
  (grouped "1,234,567" /\ drop_commas "1,234,567" = "1234567" <-> "1,234,567" = group_thousands "1234567").
Proof. split; [reflexivity | apply group_thousands_spec; reflexivity]. Defined.

End Format.
