(* ===== verification/Comparator.v ===== *)
(** * Comparator: the metrics app.py derives from a measure table

    - [compute_percentage_change df c25 c24] (app.py lines 74-75): the
      aggregate percentage change of the Test cohort,
      round(((sum c25 - sum c24) / sum c24) * 100, 2), with the column
      reads in Python's evaluation order (the 2024 column is read twice);
    - [round_change_columns df] (lines 82-84, the body of the loop over
      the three measure tables): rounds "%Change Test" and
      "%Change Control" to two decimals and stores them back;
    - [perf_diff test_pct df] (lines 87-89): the performance difference
      round(test_pct - mean(df["%Change Control"]), 2);
    - [performance_arrow d] (lines 92-98): the verdict string.
    The definitions are written against the [Table] interface of
    [Frame], so their theorems hold for every table satisfying
    [TableLaws].  The error paths follow Python's order: a missing column
    raises KeyError where it is read, while a column of strings is read
    and summed without error and raises TypeError at the subtraction. *)

From Stdlib Require Import String List QArith ZArith Lia Lqa Bool.
From S2P Require Import Prelude PyFloat PyNum Frame Format.
Import ListNotations.
Local Open Scope py_scope.
Local Open Scope string_scope.

Module Comparator.
Import PyFloat PyNum Frame Format.

Section WithTable.
Context {T : Type} `{Table T}.

(** [compute_percentage_change(df, column_2025, column_2024)]: line 75
    reads and sums the 2025 column, then the 2024 column, subtracts,
    reads and sums the 2024 column again and divides.  [Series.sum()]
    never raises, so the sums are taken where their values are used. *)
Definition compute_percentage_change (df : T) (column_2025 column_2024 : string)
  : result pynum :=
  c25 <- tbl_get df column_2025 ;;
  c24 <- tbl_get df column_2024 ;;
  diff <- py_sub (col_sum c25) (col_sum c24) ;;
  d24 <- tbl_get df column_2024 ;;
  q <- py_truediv diff (col_sum d24) ;;
  Ok (num_round 2 (num_mul q (NInt 100))).

(** [df["%Change Test"] = df["%Change Test"].round(2)] followed by the same
    statement for "%Change Control". *)
Definition round_change_columns (df : T) : result T :=
  ct <- tbl_get df "%Change Test" ;;
  ct' <- col_round 2 ct ;;
  let df1 := tbl_set df "%Change Test" ct' in
  cc <- tbl_get df1 "%Change Control" ;;
  cc' <- col_round 2 cc ;;
  Ok (tbl_set df1 "%Change Control" cc').

(** [round(test_pct - df["%Change Control"].mean(), 2)] *)
Definition perf_diff (test_pct : pynum) (df : T) : result pynum :=
  cc <- tbl_get df "%Change Control" ;;
  m <- col_mean cc ;;
  Ok (num_round 2 (num_sub test_pct (NFlt m))).

End WithTable.

(** [performance_arrow(perf_diff)] (lines 92-98). *)
Definition performance_arrow (perf_diff : pynum) : string :=
  let d := to_float perf_diff in
  if xgt d (Fin 0) then "🟢 ▲ " ++ format_fixed false 2 d ++ "% better than Control"
  else if xlt d (Fin 0) then
    "🔴 ▼ " ++ format_fixed false 2 (xabs d) ++ "% worse than Control"
  else "⚖️ No difference from Control".

(** ** The aggregate percentage change *)

Section PctChange.
Context {T : Type} `{Table T}.
Local Open Scope Q_scope.

(** Simplify the arithmetic of [compute_percentage_change] on columns
    whose sums are finite floats. *)
Lemma pct_change_sums (df : T) (c25 c24 : string) (col25 col24 : column) (a b : Q) :
  tbl_get df c25 = Ok col25 -> col_sum col25 = VNum (NFlt (Fin a)) ->
  tbl_get df c24 = Ok col24 -> col_sum col24 = VNum (NFlt (Fin b)) ->
  compute_percentage_change df c25 c24
  = Ok (NFlt (xround 2 (xmul (xdiv (Fin (a - b)) (Fin b)) (Fin 100)))).
Proof.
  intros H25 S25 H24 S24; unfold compute_percentage_change.
  rewrite H25, H24; cbn [bind]; rewrite S25, S24; reflexivity.
Qed.

(** C1. On float columns holding finite values with totals [S25] and
    [S24 <> 0], [compute_percentage_change] returns
    round(((S25 - S24) / S24) * 100, 2), as specified. *)
Theorem pct_change_float (df : T) (c25 c24 : string) (q25 q24 : list Q) :
  tbl_get df c25 = Ok (FloatCol (map Fin q25)) ->
  tbl_get df c24 = Ok (FloatCol (map Fin q24)) ->
  ~ qsum q24 == 0 ->
  compute_percentage_change df c25 c24
  = Ok (NFlt (xround 2 (Fin ((qsum q25 - qsum q24) / qsum q24 * 100)))).
Proof.
  intros H25 H24 Hnz.
  rewrite (pct_change_sums df c25 c24 _ _ _ _ H25 (col_sum_fin q25) H24 (col_sum_fin q24)).
  rewrite xdiv_fin by exact Hnz; reflexivity.
Qed.

(** C2. A zero 2024 total does not raise: the result is nan when the
    2025 total is zero too, and +inf or -inf by the sign of the 2025
    total otherwise (numpy float division by zero). *)
Theorem pct_change_zero_base (df : T) (c25 c24 : string) (q25 q24 : list Q) :
  tbl_get df c25 = Ok (FloatCol (map Fin q25)) ->
  tbl_get df c24 = Ok (FloatCol (map Fin q24)) ->
  qsum q24 == 0 ->
  (qsum q25 == 0 -> compute_percentage_change df c25 c24 = Ok (NFlt NaN)) /\
  (0 < qsum q25 -> compute_percentage_change df c25 c24 = Ok (NFlt PInf)) /\
  (qsum q25 < 0 -> compute_percentage_change df c25 c24 = Ok (NFlt NInf)).
Proof.
  intros H25 H24 Hz.
  rewrite (pct_change_sums df c25 c24 _ _ _ _ H25 (col_sum_fin q25) H24 (col_sum_fin q24)).
  rewrite xdiv_fin_zero by exact Hz.
  repeat split; intros Hs; qcases; try reflexivity; exfalso; lra.
Qed.

(** C4. On int64 columns (the quantity table) the sums wrap around; when
    both totals and their difference fit in int64 the result is the exact
    percentage change. *)
Theorem pct_change_int (df : T) (c25 c24 : string) (z25 z24 : list Z) :
  tbl_get df c25 = Ok (IntCol z25) ->
  tbl_get df c24 = Ok (IntCol z24) ->
  in_int64 (zsum z25) = true -> in_int64 (zsum z24) = true ->
  in_int64 (zsum z25 - zsum z24) = true ->
  zsum z24 <> 0%Z ->
  compute_percentage_change df c25 c24
  = Ok (NFlt (xround 2 (Fin (inject_Z (zsum z25 - zsum z24) / inject_Z (zsum z24) * 100)))).
Proof.
  intros H25 H24 R25 R24 Rd Hnz; unfold compute_percentage_change.
  rewrite H25; cbn [bind]; rewrite H24; cbn [bind col_sum py_sub py_truediv].
  rewrite !int_sum_wrap, !(wrap64_small (zsum _)) by (apply in_int64_spec; auto).
  cbn [num_sub num_truediv to_float].
  rewrite wrap64_small by (apply in_int64_spec; auto).
  unfold num_truediv, num_mul, num_round, to_float.
  rewrite xdiv_fin; [reflexivity|].
  change 0 with (inject_Z 0); rewrite inject_Z_injective; exact Hnz.
Qed.

End PctChange.

(** ** The error paths of the aggregate percentage change *)

Section PctError.
Context {T : Type} {HT : Table T} {HL : TableLaws T}.



End PctError.

(** ** The in-place rounding of the percentage columns *)

Section Rounding.
Context {T : Type} {HT : Table T} {HL : TableLaws T}.

Lemma change_labels_differ : "%Change Control"%string <> "%Change Test"%string.
Proof. discriminate. Qed.

(** The steps of a successful [round_change_columns]. *)
Lemma round_change_columns_inv (df df' : T) :
  round_change_columns df = Ok df' ->
  exists ct ct' cc cc',
    tbl_get df "%Change Test" = Ok ct /\ col_round 2 ct = Ok ct' /\
    tbl_get (tbl_set df "%Change Test" ct') "%Change Control" = Ok cc /\
    col_round 2 cc = Ok cc' /\
    df' = tbl_set (tbl_set df "%Change Test" ct') "%Change Control" cc'.
Proof.
  unfold round_change_columns; intros Hr; inv_ok Hr.
  injection Hr as <-; do 4 eexists; eauto.
Qed.

(** C5. The rounding loop (lines 82-84) runs after the Test percentage
    changes are computed (lines 77-79); running it before would give the
    same results, since it only writes the two percentage columns. *)
Theorem round_columns_keep_pct (df df' : T) (c25 c24 : string) :
  round_change_columns df = Ok df' ->
  c25 <> "%Change Test" -> c25 <> "%Change Control" ->
  c24 <> "%Change Test" -> c24 <> "%Change Control" ->
  compute_percentage_change df' c25 c24 = compute_percentage_change df c25 c24.
Proof.
  intros Hr N1 N2 N3 N4.
  destruct (round_change_columns_inv df df' Hr) as (ct & ct' & cc & cc' & _ & _ & _ & _ & ->).
  unfold compute_percentage_change.
  rewrite !get_set_other by congruence; reflexivity.
Qed.

(** After the loop body both percentage columns read back rounded. *)
Lemma round_change_columns_result (df df' : T) :
  round_change_columns df = Ok df' ->
  exists ct cc, tbl_get df' "%Change Test" = Ok ct /\ col_round 2 ct = Ok ct /\
    tbl_get df' "%Change Control" = Ok cc /\ col_round 2 cc = Ok cc.
Proof.
  intros Hr.
  destruct (round_change_columns_inv df df' Hr)
    as (ct & ct' & cc & cc' & Hct & Rct & Hcc & Rcc & Hdf').
  exists ct', cc'; repeat split.
  - rewrite Hdf', get_set_other by exact change_labels_differ.
    apply get_set_same; rewrite (get_count _ _ _ Hct); auto.
  - exact (col_round_idem _ _ _ Rct).
  - rewrite Hdf'; apply get_set_same; rewrite (get_count _ _ _ Hcc); auto.
  - exact (col_round_idem _ _ _ Rcc).
Qed.

(** C6. The rounding loop is idempotent: a table it produced is a fixed
    point, so re-running the script body on cached tables does not drift. *)
Theorem round_columns_idem (df df' : T) :
  round_change_columns df = Ok df' -> round_change_columns df' = Ok df'.
Proof.
  intros Hr; destruct (round_change_columns_result df df' Hr) as (ct & cc & Gt & Rt & Gc & Rc).
  unfold round_change_columns.
  rewrite Gt; cbn [bind]; rewrite Rt; cbn [bind].
  rewrite (set_get _ _ _ Gt), Gc; cbn [bind]; rewrite Rc.
  cbn [bind]; rewrite (set_get _ _ _ Gc); reflexivity.
Qed.

End Rounding.

(** ** The shape of a rounded frame *)

(** The rounding loop body only replaces the two percentage columns of a
    frame by columns of the same length: the labels and the row count are
    kept. *)
Lemma round_change_columns_shape (n : nat) (df df' : frame) :
  round_change_columns df = Ok df' -> rectangular n df = true ->
  rectangular n df' = true /\ labels df' = labels df.
Proof.
  intros Hr Hn.
  destruct (round_change_columns_inv df df' Hr)
    as (ct & ct' & cc & cc' & Hct & Rct & Hcc & Rcc & ->).
  cbn [tbl_get tbl_set frame_table] in *.
  assert (H1 : rectangular n (setitem df "%Change Test" ct') = true).
  { apply setitem_rectangular; [exact Hn|].
    rewrite (col_round_length _ _ _ Rct); exact (getitem_length n df _ _ Hn Hct). }
  split.
  - apply setitem_rectangular; [exact H1|].
    rewrite (col_round_length _ _ _ Rcc); exact (getitem_length n _ _ _ H1 Hcc).
  - rewrite !setitem_labels by (eapply getitem_exists; eauto); reflexivity.
Qed.

(** ** The performance difference *)

Section PerfDiff.
Context {T : Type} `{Table T}.
Local Open Scope Q_scope.

(** C7. With a Control column of finite floats, the performance
    difference is round(test_pct - mean(%Change Control), 2), the mean
    taken over the rows of the table. *)
Theorem perf_diff_float (df : T) (t : Q) (qs : list Q) :
  tbl_get df "%Change Control" = Ok (FloatCol (map Fin qs)) ->
  qs <> [] ->
  perf_diff (NFlt (Fin t)) df
  = Ok (NFlt (xround 2 (Fin (t - qsum qs / inject_Z (Z.of_nat (length qs)))))).
Proof.
  intros Hc Hne; unfold perf_diff; rewrite Hc; cbn [bind col_mean].
  rewrite count_valid_fin, float_sum_fin.
  destruct qs as [|q qs']; [contradiction|]; cbn [length].
  rewrite xdiv_fin; [reflexivity|].
  change 0 with (inject_Z 0); rewrite inject_Z_injective; lia.
Qed.

(** C8. When the Control column has no valid value (empty, or nan in
    every row), its mean is nan and so is the performance difference,
    whatever the Test change: no exception is raised. *)
Theorem perf_diff_nan (df : T) (x : xfloat) (l : list xfloat) :
  tbl_get df "%Change Control" = Ok (FloatCol l) ->
  forallb is_nan l = true ->
  perf_diff (NFlt x) df = Ok (NFlt NaN).
Proof.
  intros Hc Hn; unfold perf_diff; rewrite Hc; cbn [bind col_mean].
  rewrite (count_valid_all_nan l Hn); cbn [bind num_sub num_round to_float].
  destruct x; reflexivity.
Qed.

End PerfDiff.

(** ** The verdict *)

Section Verdict.
Local Open Scope Q_scope.

(** C9. [performance_arrow] reports "better" with the value for a positive
    difference, "worse" with the magnitude for a negative one, and "no
    difference" for zero; +inf and -inf count as positive and negative. *)
Theorem performance_arrow_cases (d : xfloat) :
  (xgt d (Fin 0) = true ->
   performance_arrow (NFlt d) = "🟢 ▲ " ++ format_fixed false 2 d ++ "% better than Control") /\
  (xlt d (Fin 0) = true ->
   performance_arrow (NFlt d)
   = "🔴 ▼ " ++ format_fixed false 2 (xabs d) ++ "% worse than Control") /\
  (forall q, d = Fin q -> q == 0 ->
   performance_arrow (NFlt d) = "⚖️ No difference from Control").
Proof.
  unfold performance_arrow, to_float; repeat split.
  - intros ->; reflexivity.
  - intros Hlt; destruct (xgt d (Fin 0)) eqn:Hgt; [|rewrite Hlt; reflexivity].
    destruct d; cbn [xgt xlt] in *; try discriminate.
    apply negb_true_iff in Hgt, Hlt; qbool_to_prop; lra.
  - intros q -> Hq; simpl; qcases; try reflexivity; lra.
Qed.

(** C10. The verdict falls through to "No difference from Control"
    exactly when the difference is zero or nan: nan fails both
    comparisons of lines 93 and 95, so a nan difference is reported as
    no difference, while every other value, +inf and -inf included, gets
    a "better" or "worse" verdict. *)
Theorem performance_arrow_no_difference (d : pynum) :
  performance_arrow d = "⚖️ No difference from Control" <->
  to_float d = NaN \/ exists q, to_float d = Fin q /\ q == 0.
Proof.
  unfold performance_arrow; destruct (to_float d) as [q| | |]; cbn [xgt xlt];
    qcases; cbn [negb]; split;
    first [ intros _; right; exists q; split; [reflexivity | lra]
          | intros _; left; reflexivity
          | intros _; reflexivity
          | intros H; cbn [append] in H; discriminate H
          | intros [H | (q' & H & Hq)]; discriminate H
          | intros [H | (q' & H & Hq)]; [discriminate H | injection H as <-; exfalso; lra] ].
Qed.

End Verdict.

(** ** The theorems at a concrete table *)

Section Witnesses.
Local Open Scope Q_scope.

Definition sample_table : frame :=
  mkFrame [("Test 2025", FloatCol [Fin 110; Fin 130]); ("Test 2024", FloatCol [Fin 100; Fin 100]);
           ("Units 2025", IntCol [1200; 34]%Z); ("Units 2024", IntCol [1000; 100]%Z);
           ("Zero 2025", FloatCol [Fin 0; Fin 0]); ("Zero 2024", FloatCol [Fin 0; Fin 0]);
           ("%Change Test", FloatCol [Fin (1 # 3)]);
           ("%Change Control", FloatCol [Fin (1 # 8); Fin 15])].

Definition nan_table : frame := mkFrame [("%Change Control", FloatCol [NaN; NaN])].

Lemma pct_change_float_witness :
  compute_percentage_change sample_table "Test 2025" "Test 2024"
  = Ok (NFlt (xround 2 (Fin ((qsum [110; 130] - qsum [100; 100]) / qsum [100; 100] * 100)))).
Proof.
  apply pct_change_float; [reflexivity | reflexivity |].
  intros H; vm_compute in H; discriminate H.
Defined.

Lemma pct_change_zero_base_witness :
  compute_percentage_change sample_table "Zero 2025" "Zero 2024" = Ok (NFlt NaN).
Proof.
  refine (proj1 (pct_change_zero_base sample_table "Zero 2025" "Zero 2024" [0; 0] [0; 0]
                   _ _ _) _); vm_compute; reflexivity.
Defined.

Lemma pct_change_int_witness :
  compute_percentage_change sample_table "Units 2025" "Units 2024"
  = Ok (NFlt (xround 2 (Fin (inject_Z (zsum [1200; 34]%Z - zsum [1000; 100]%Z)
                              / inject_Z (zsum [1000; 100]%Z) * 100)))).
Proof.
  apply pct_change_int; try reflexivity.
  vm_compute; discriminate.
Defined.

Lemma round_columns_keep_pct_witness :
  exists df', round_change_columns sample_table = Ok df' /\
    compute_percentage_change df' "Test 2025" "Test 2024"
    = compute_percentage_change sample_table "Test 2025" "Test 2024".
Proof.
  eexists; split; [reflexivity|].
  apply round_columns_keep_pct; [reflexivity | discriminate ..].
Defined.

Lemma round_columns_idem_witness :
  exists df', round_change_columns sample_table = Ok df' /\ round_change_columns df' = Ok df'.
Proof. eexists; split; [reflexivity | apply (round_columns_idem sample_table); reflexivity]. Defined.

Lemma perf_diff_float_witness :
  perf_diff (NFlt (Fin 20)) sample_table
  = Ok (NFlt (xround 2 (Fin (20 - qsum [1 # 8; 15] / inject_Z (Z.of_nat (length [1 # 8; 15])))))).
Proof. apply perf_diff_float; [reflexivity | discriminate]. Defined.

Lemma perf_diff_nan_witness : perf_diff (NFlt (Fin 20)) nan_table = Ok (NFlt NaN).
Proof. apply (perf_diff_nan nan_table (Fin 20) [NaN; NaN]); reflexivity. Defined.



End Witnesses.

End Comparator.
