(* ===== verification/Loader.v ===== *)
(** * Loader: [load_data] (app.py lines 51-71)

    [load_data] reads four CSV files and renames the abbreviated year
    columns of the three measure tables with the dict [rename_cols]
    (lines 58-65); the per-product table is returned as read.  CSV
    parsing is input, not modelled: the four frames as read by
    [pd.read_csv] are the argument [raw_data].  [st.cache_data] memoises
    the call and hands every rerun a copy of the result, which the model
    reflects by [load_data] being a function of its input.  C11 states
    what the renaming does to each measure table, with the labels of the
    dict written out. *)

From Stdlib Require Import String List Bool QArith.
From S2P Require Import Prelude PyFloat Frame.
Import ListNotations.
Local Open Scope string_scope.

Module Loader.
Import Frame.

(** The dict [rename_cols] of line 58, in insertion order. *)
Definition rename_cols : list (string * string) :=
  [("Test 25", "Test 2025"); ("Control 25", "Control 2025");
   ("Test 24", "Test 2024"); ("Control 24", "Control 2024")].

(** The four files as read: aggregated_revenue.csv, aggregated_margin.csv,
    aggregated_quantity.csv and the per-product results file. *)
Record raw_data : Type := mkRaw {
  raw_revenue : frame;
  raw_margin : frame;
  raw_quantity : frame;
  raw_product : frame
}.

Record loaded : Type := mkLoaded {
  revenue_df : frame;
  margin_df : frame;
  quantity_df : frame;
  product_df : frame
}.

(** [load_data()] *)
Definition load_data (raw : raw_data) : loaded :=
  mkLoaded (rename rename_cols (raw_revenue raw))
           (rename rename_cols (raw_margin raw))
           (rename rename_cols (raw_quantity raw))
           (raw_product raw).

(** ** Lookups in a renamed measure table *)

(** Case on every string comparison with [x] in the goal. *)
Ltac label_cases x :=
  repeat match goal with
  | |- context [String.eqb ?a x] => destruct (String.eqb_spec a x); subst
  | |- context [String.eqb x ?a] => destruct (String.eqb_spec x a); subst
  end.

(** The labels [rename_cols] sends to a canonical label are the
    abbreviated one and the canonical one itself. *)
Lemma rename_cols_preimage (abbr canon : string) :
  In (abbr, canon) rename_cols ->
  forall x, String.eqb (rename_label rename_cols x) canon
            = String.eqb x abbr || String.eqb x canon.
Proof.
  intros Hin x.
  simpl in Hin; repeat destruct Hin as [Hin|Hin]; try contradiction;
    injection Hin as <- <-;
    unfold rename_label, rename_cols; cbn [dict_get]; label_cases x;
    try reflexivity; congruence.
Qed.

Lemma rename_cols_fixed (l : string) :
  ~ In l (map fst rename_cols) -> ~ In l (map snd rename_cols) ->
  forall x, String.eqb (rename_label rename_cols x) l = String.eqb x l.
Proof.
  intros N1 N2 x; simpl in N1, N2.
  unfold rename_label, rename_cols; cbn [dict_get]; label_cases x;
    label_cases l; try reflexivity; tauto.
Qed.

Lemma filter_matches_or (df : frame) (abbr canon : string) :
  label_count df canon = O ->
  filter (fun p => String.eqb (fst p) abbr || String.eqb (fst p) canon) (columns df)
  = filter (matches abbr) (columns df).
Proof.
  unfold label_count, matches; induction (columns df) as [|p cols IH]; simpl; auto.
  destruct (String.eqb (fst p) canon); simpl; [discriminate|].
  rewrite orb_false_r; destruct (String.eqb (fst p) abbr); simpl; intros H; auto.
  f_equal; auto.
Qed.

(** After the renaming, reading a canonical column (for instance
    "Test 2025") finds exactly the column the file had under the
    abbreviated label of the dict, provided the file has no column under
    the canonical label already. *)
Theorem rename_cols_lookup (df : frame) (abbr canon : string) (c : column) :
  In (abbr, canon) rename_cols -> label_count df canon = O ->
  getitem (rename rename_cols df) canon = Ok c <-> getitem df abbr = Ok c.
Proof.
  intros Hin H0.
  rewrite (getitem_rename _ _ _ _ (rename_cols_preimage abbr canon Hin)).
  rewrite (filter_matches_or df abbr canon H0); unfold getitem.
  destruct (filter (matches abbr) (columns df)) as [|[l0 c0] [|q r]];
    split; congruence.
Qed.

(** Every other label, for instance "%Change Test" and "%Change Control",
    reads the same column before and after renaming. *)
Theorem rename_cols_other (df : frame) (l : string) :
  ~ In l (map fst rename_cols) -> ~ In l (map snd rename_cols) ->
  getitem (rename rename_cols df) l = getitem df l.
Proof.
  intros N1 N2.
  rewrite (getitem_rename _ _ _ _ (rename_cols_fixed l N1 N2)); reflexivity.
Qed.

(** The table [load_data] returns for each measure file. *)
Lemma load_data_table (raw : raw_data) (file : raw_data -> frame) (table : loaded -> frame) :
  (file, table) = (raw_revenue, revenue_df) \/ (file, table) = (raw_margin, margin_df) \/
  (file, table) = (raw_quantity, quantity_df) ->
  table (load_data raw) = rename rename_cols (file raw).
Proof. intros [E|[E|E]]; injection E as -> ->; reflexivity. Qed.

(** C11. [load_data] renames the year columns of each of the three measure
    tables (lines 58-65): when the file has none of the canonical labels,
    the loaded table reads under "Test 2025", "Control 2025", "Test 2024"
    and "Control 2024" the columns the file has under "Test 25",
    "Control 25", "Test 24" and "Control 24", every other label reads
    what it reads in the file, and the per-product table is the file as
    read. *)
Theorem load_data_year_columns (raw : raw_data) (file : raw_data -> frame)
    (table : loaded -> frame) :
  (file, table) = (raw_revenue, revenue_df) \/ (file, table) = (raw_margin, margin_df) \/
  (file, table) = (raw_quantity, quantity_df) ->
  Forall (fun canon => label_count (file raw) canon = O)
    ["Test 2025"; "Control 2025"; "Test 2024"; "Control 2024"] ->
  (forall c, getitem (table (load_data raw)) "Test 2025" = Ok c <->
             getitem (file raw) "Test 25" = Ok c) /\
  (forall c, getitem (table (load_data raw)) "Control 2025" = Ok c <->
             getitem (file raw) "Control 25" = Ok c) /\
  (forall c, getitem (table (load_data raw)) "Test 2024" = Ok c <->
             getitem (file raw) "Test 24" = Ok c) /\
  (forall c, getitem (table (load_data raw)) "Control 2024" = Ok c <->
             getitem (file raw) "Control 24" = Ok c) /\
  (forall l, ~ In l ["Test 25"; "Control 25"; "Test 24"; "Control 24";
                    "Test 2025"; "Control 2025"; "Test 2024"; "Control 2024"] ->
             getitem (table (load_data raw)) l = getitem (file raw) l) /\
  product_df (load_data raw) = raw_product raw.
Proof.
  intros Hft Hc; rewrite (load_data_table raw file table Hft).
  inversion_clear Hc as [|? ? C1 Hc1]; inversion_clear Hc1 as [|? ? C2 Hc2];
    inversion_clear Hc2 as [|? ? C3 Hc3]; inversion_clear Hc3 as [|? ? C4 _].
  split; [intros c; apply rename_cols_lookup; [simpl; tauto | exact C1]|].
  split; [intros c; apply rename_cols_lookup; [simpl; tauto | exact C2]|].
  split; [intros c; apply rename_cols_lookup; [simpl; tauto | exact C3]|].
  split; [intros c; apply rename_cols_lookup; [simpl; tauto | exact C4]|].
  split; [intros l Hl; apply rename_cols_other; simpl in *; tauto | reflexivity].
Qed.

(** ** The theorems at a concrete file *)

Definition sample_file : frame :=
  mkFrame [("Test 25", FloatCol [PyFloat.Fin 1%Q]); ("Test 24", FloatCol [PyFloat.Fin 2%Q]);
           ("%Change Test", FloatCol [PyFloat.Fin 3%Q])].

Definition sample_files : raw_data := mkRaw sample_file sample_file sample_file sample_file.

Lemma load_data_year_columns_witness :
  Forall (fun canon => label_count sample_file canon = O)
    ["Test 2025"; "Control 2025"; "Test 2024"; "Control 2024"] /\
  getitem (revenue_df (load_data sample_files)) "Test 2025" = Ok (FloatCol [PyFloat.Fin 1%Q]).
Proof.
  split; [repeat constructor|].
  apply (proj1 (load_data_year_columns sample_files raw_revenue revenue_df
                  (or_introl eq_refl) (ltac:(repeat constructor)))); reflexivity.
Defined.

End Loader.
