(* ===== verification/NLargest.v ===== *)
(** * NLargest: [DataFrame.nlargest(n, column)] (app.py line 256)

    The per-product page keeps the ten products with the largest value of
    the selected metric.  pandas' [nlargest] with the default
    [keep='first'] returns the rows with the [n] largest non-nan values,
    largest first, rows of equal value in their original order, followed
    by rows whose value is nan (in row order) when fewer than [n] values
    are valid; the whole row of the frame is kept.  The model sorts the
    valid rows by a stable insertion sort ([sort_desc]) and takes the
    first [n] rows of the sorted rows followed by the nan rows.

    The abstract specification [top_n] (sorted by [rank_lt], a prefix of
    length min(n, rows), every selected row ranking before every row left
    out) determines the result uniquely; [nlargest_idx] refines it. *)

From Stdlib Require Import String List QArith ZArith Lia Bool Sorted Permutation.
From S2P Require Import Prelude PyFloat PyNum Frame.
Import ListNotations.
Local Open Scope py_scope.
Local Open Scope nat_scope.

Module NLargest.
Import PyFloat PyNum Frame.

(** A row index with its value in the selected column. *)
Definition entry : Type := (nat * xfloat)%type.

(** [p] comes before [q] in the output: larger value, or equal value and
    earlier row. *)
Definition ranks_before (p q : entry) : bool :=
  xlt (snd q) (snd p) || (negb (xlt (snd p) (snd q)) && (fst p <? fst q)).

(** Insert [p] after every entry whose value is not smaller. *)
Fixpoint insert_desc (p : entry) (l : list entry) : list entry :=
  match l with
  | [] => [p]
  | q :: l' => if xlt (snd q) (snd p) then p :: q :: l' else q :: insert_desc p l'
  end.

(** Stable sort by decreasing value (numpy's mergesort on the negated
    values, as pandas uses it). *)
Definition sort_desc (l : list entry) : list entry :=
  fold_left (fun acc p => insert_desc p acc) l [].

Definition indexed (vals : list xfloat) : list entry :=
  combine (seq 0 (length vals)) vals.

(** The row positions [nlargest(n, ...)] returns, in output order. *)
Definition nlargest_idx (n : nat) (vals : list xfloat) : list nat :=
  let idx := indexed vals in
  map fst (firstn n (sort_desc (filter (fun p => negb (is_nan (snd p))) idx)
                     ++ filter (fun p => is_nan (snd p)) idx)).

(** The values of a numeric column, as float64 keys. *)
Definition numeric_values (c : column) : result (list xfloat) :=
  match c with
  | IntCol l => Ok (map (fun z => Fin (inject_Z z)) l)
  | FloatCol l => Ok l
  | StrCol _ => Err (TypeError "nlargest")
  end.

(** The rows at the given positions, in that order ([DataFrame.take]). *)
Definition take_rows (idx : list nat) (c : column) : column :=
  match c with
  | IntCol l => IntCol (map (fun i => nth i l 0%Z) idx)
  | FloatCol l => FloatCol (map (fun i => nth i l NaN) idx)
  | StrCol l => StrCol (map (fun i => nth i l ""%string) idx)
  end.

(** [df.nlargest(n, label)] *)
Definition nlargest (n : nat) (df : frame) (label : string) : result frame :=
  c <- getitem df label ;;
  vals <- numeric_values c ;;
  let idx := nlargest_idx n vals in
  Ok (mkFrame (map (fun p => (fst p, take_rows idx (snd p))) (columns df))).

(** ** Order on entries *)

Definition valid (p : entry) : Prop := is_nan (snd p) = false.

(** The strict order [nlargest] sorts valid entries by. *)
Definition R (p q : entry) : Prop := ranks_before p q = true.

Lemma ranks_before_irrefl (p : entry) : ranks_before p p = false.
Proof. unfold ranks_before; rewrite xlt_irrefl, Nat.ltb_irrefl; reflexivity. Qed.

Lemma ranks_before_trans (p q r : entry) :
  valid p -> valid q -> valid r -> R p q -> R q r -> R p r.
Proof.
  destruct p as [i a], q as [j b], r as [k c]; unfold valid, R, ranks_before; simpl.
  intros Va Vb Vc.
  rewrite !orb_true_iff, !andb_true_iff, !negb_true_iff, !Nat.ltb_lt.
  intros [H1 | [H1 H1']] [H2 | [H2 H2']].
  - left; eapply xlt_trans; eauto.
  - left; apply (xle_lt_trans c b a); auto.
  - left; apply (xlt_le_trans c b a); auto.
  - right; split; [apply (xle_trans c b a); auto | lia].
Qed.

(** An entry that is not placed before a later valid entry ranks after it. *)
Lemma ranks_before_later (p q : entry) :
  fst q < fst p -> xlt (snd q) (snd p) = false -> R q p.
Proof.
  unfold R, ranks_before; intros Hlt ->; simpl.
  apply orb_true_iff; right; apply Nat.ltb_lt; exact Hlt.
Qed.

(** ** Insertion *)

Lemma insert_desc_perm (p : entry) (l : list entry) :
  Permutation (insert_desc p l) (p :: l).
Proof.
  induction l as [|q l IH]; simpl; auto.
  match goal with |- context [if ?b then _ else _] => destruct b end; auto.
  rewrite IH; apply perm_swap.
Qed.

Lemma insert_desc_sorted (p : entry) (l : list entry) :
  valid p -> Forall valid l -> Forall (fun q => fst q < fst p) l ->
  StronglySorted R l -> StronglySorted R (insert_desc p l).
Proof.
  intros Vp; induction l as [|q l IH]; intros Vl Il Sl; simpl.
  - repeat constructor.
  - inversion Vl as [|? ? Vq Vl']; inversion Il as [|? ? Iq Il'];
      inversion Sl as [|? ? Sl' Fq]; subst.
    destruct (xlt (snd q) (snd p)) eqn:E.
    + constructor; [exact Sl|]. constructor.
      * unfold R, ranks_before; rewrite E; reflexivity.
      * rewrite Forall_forall in Fq, Vl' |- *; intros r Hr.
        apply (ranks_before_trans p q r); auto.
        unfold R, ranks_before; rewrite E; reflexivity.
    + constructor; [apply IH; auto|].
      apply (Permutation_Forall (Permutation_sym (insert_desc_perm p l))).
      constructor; [apply ranks_before_later; auto | exact Fq].
Qed.

(** Entries in increasing row order. *)
Definition row_lt (p q : entry) : Prop := fst p < fst q.

Lemma sort_desc_acc (l acc : list entry) :
  Forall valid acc -> Forall valid l -> StronglySorted R acc ->
  StronglySorted row_lt l ->
  (forall q p, In q acc -> In p l -> fst q < fst p) ->
  StronglySorted R (fold_left (fun acc p => insert_desc p acc) l acc) /\
  Permutation (fold_left (fun acc p => insert_desc p acc) l acc) (acc ++ l).
Proof.
  revert acc; induction l as [|p l IH]; intros acc Va Vl Sa Sl Hi; simpl.
  - rewrite app_nil_r; auto.
  - inversion Vl as [|? ? Vp Vl']; inversion Sl as [|? ? Sl' Fp]; subst.
    rewrite Forall_forall in Fp.
    assert (Hp : Permutation (insert_desc p acc) (p :: acc)) by apply insert_desc_perm.
    destruct (IH (insert_desc p acc)) as [IH1 IH2]; auto.
    + apply (Permutation_Forall (Permutation_sym Hp)); constructor; auto.
    + apply insert_desc_sorted; auto.
      rewrite Forall_forall; intros q Hq; apply Hi; simpl; auto.
    + intros q r Hq Hr; apply (Permutation_in _ Hp) in Hq; destruct Hq as [<-|Hq].
      * apply Fp; exact Hr.
      * apply Hi; simpl; auto.
    + split; [exact IH1|].
      rewrite IH2, Hp; simpl; apply Permutation_middle.
Qed.

Lemma sort_desc_spec (l : list entry) :
  Forall valid l -> StronglySorted row_lt l ->
  StronglySorted R (sort_desc l) /\ Permutation (sort_desc l) l.
Proof.
  intros Vl Sl; apply (sort_desc_acc l []); auto; [constructor | intros ? ? []].
Qed.

(** ** The indexed rows *)

Lemma indexed_from_spec (k : nat) (vals : list xfloat) (p : entry) :
  In p (combine (seq k (length vals)) vals) ->
  k <= fst p < k + length vals /\ snd p = nth (fst p - k) vals NaN.
Proof.
  revert k; induction vals as [|v vals IH]; intros k Hin; simpl in *; [contradiction|].
  destruct Hin as [<-|Hin]; simpl.
  - rewrite Nat.sub_diag; split; [lia | reflexivity].
  - destruct (IH (S k) Hin) as [H1 H2]; split; [lia|].
    rewrite H2; destruct (fst p - k) as [|m] eqn:E; [lia|].
    f_equal; lia.
Qed.

Lemma indexed_spec (vals : list xfloat) (p : entry) :
  In p (indexed vals) -> fst p < length vals /\ snd p = nth (fst p) vals NaN.
Proof.
  intros Hin; destruct (indexed_from_spec 0 vals p Hin) as [H1 H2].
  rewrite Nat.sub_0_r in H2; split; [lia | exact H2].
Qed.

Lemma indexed_from_sorted (k : nat) (vals : list xfloat) :
  StronglySorted row_lt (combine (seq k (length vals)) vals).
Proof.
  revert k; induction vals as [|v vals IH]; intros k; simpl; constructor; auto.
  rewrite Forall_forall; intros p Hp.
  destruct (indexed_from_spec (S k) vals p Hp); unfold row_lt; simpl; lia.
Qed.

Lemma map_fst_indexed (vals : list xfloat) :
  map fst (indexed vals) = seq 0 (length vals).
Proof.
  unfold indexed; generalize 0; induction vals as [|v vals IH]; intros k;
    simpl; f_equal; auto.
Qed.

(** ** Generic facts on sorted lists *)

Lemma StronglySorted_filter {A : Type} (Rel : A -> A -> Prop) (f : A -> bool) (l : list A) :
  StronglySorted Rel l -> StronglySorted Rel (filter f l).
Proof.
  induction l as [|a l IH]; intros Sl; simpl; [constructor|].
  inversion Sl as [|? ? Sl' Fa]; subst.
  destruct (f a); auto; constructor; auto.
  rewrite Forall_forall in *; intros b Hb; apply filter_In in Hb as [Hb _]; auto.
Qed.

Lemma StronglySorted_app {A : Type} (Rel : A -> A -> Prop) (l1 l2 : list A) :
  StronglySorted Rel l1 -> StronglySorted Rel l2 ->
  (forall a b, In a l1 -> In b l2 -> Rel a b) ->
  StronglySorted Rel (l1 ++ l2).
Proof.
  induction l1 as [|a l1 IH]; intros S1 S2 Hx; simpl; auto.
  inversion S1 as [|? ? S1' Fa]; subst; constructor.
  - apply IH; auto; intros; apply Hx; simpl; auto.
  - apply Forall_app; split; auto.
    rewrite Forall_forall; intros; apply Hx; simpl; auto.
Qed.

Lemma StronglySorted_app_inv {A : Type} (Rel : A -> A -> Prop) (l1 l2 : list A) :
  StronglySorted Rel (l1 ++ l2) ->
  StronglySorted Rel l1 /\ StronglySorted Rel l2 /\
  (forall a b, In a l1 -> In b l2 -> Rel a b).
Proof.
  induction l1 as [|a l1 IH]; intros S; simpl in *.
  { split; [constructor | split; [exact S | intros a b []]]. }
  inversion S as [|? ? S' Fa]; subst.
  destruct (IH S') as (S1 & S2 & Hx); rewrite Forall_forall in Fa.
  repeat split; auto.
  - constructor; auto; rewrite Forall_forall; intros; apply Fa, in_or_app; auto.
  - intros x y [<-|Hx'] Hy; auto; apply Fa, in_or_app; auto.
Qed.

Lemma StronglySorted_map {A B : Type} (RA : A -> A -> Prop) (RB : B -> B -> Prop)
  (f : A -> B) (l : list A) :
  (forall a b, In a l -> In b l -> RA a b -> RB (f a) (f b)) ->
  StronglySorted RA l -> StronglySorted RB (map f l).
Proof.
  induction l as [|a l IH]; intros Hf S; simpl; [constructor|].
  inversion S as [|? ? S' Fa]; subst; constructor.
  - apply IH; auto; intros; apply Hf; simpl; auto.
  - rewrite Forall_forall in *; intros y Hy; apply in_map_iff in Hy as (b & <- & Hb).
    apply Hf; simpl; auto.
Qed.

Lemma filter_partition {A : Type} (f g : A -> bool) (l : list A) :
  (forall x, g x = negb (f x)) -> Permutation (filter f l ++ filter g l) l.
Proof.
  intros Hg; induction l as [|a l IH]; simpl; auto.
  rewrite Hg; destruct (f a); simpl.
  - constructor; exact IH.
  - rewrite <- Permutation_middle; constructor; exact IH.
Qed.

(** ** The abstract specification of [nlargest] *)

(** Output order of all entries: valid entries by [ranks_before], then
    the nan entries in row order. *)
Definition rank_all (p q : entry) : Prop :=
  if is_nan (snd p) then is_nan (snd q) = true /\ fst p < fst q
  else is_nan (snd q) = true \/ R p q.

(** Row [i] precedes row [j] in the output of [nlargest]. *)
Definition rank_lt (vals : list xfloat) (i j : nat) : Prop :=
  rank_all (i, nth i vals NaN) (j, nth j vals NaN).

(** [r] lists the [n] first rows in the order [rank_lt]: it is sorted,
    has min(n, rows) rows of the table, and every row left out ranks
    after every row kept. *)
Definition top_n (vals : list xfloat) (n : nat) (r : list nat) : Prop :=
  StronglySorted (rank_lt vals) r /\
  length r = Nat.min n (length vals) /\
  (forall i, In i r -> i < length vals) /\
  (forall i j, In i r -> j < length vals -> ~ In j r -> rank_lt vals i j).

(** All rows in output order, before the cut to [n]. *)
Definition sorted_rows (vals : list xfloat) : list entry :=
  sort_desc (filter (fun p => negb (is_nan (snd p))) (indexed vals))
  ++ filter (fun p => is_nan (snd p)) (indexed vals).

Lemma sorted_rows_spec (vals : list xfloat) :
  StronglySorted rank_all (sorted_rows vals) /\
  Permutation (sorted_rows vals) (indexed vals).
Proof.
  unfold sorted_rows.
  set (V := filter (fun p => negb (is_nan (snd p))) (indexed vals)).
  set (N := filter (fun p => is_nan (snd p)) (indexed vals)).
  assert (VV : Forall valid V).
  { rewrite Forall_forall; intros p Hp; apply filter_In in Hp as [_ Hp].
    apply negb_true_iff in Hp; exact Hp. }
  destruct (sort_desc_spec V VV) as [SV PV];
    [apply StronglySorted_filter, indexed_from_sorted|].
  split.
  - apply StronglySorted_app.
    + rewrite <- (map_id (sort_desc V)); apply (StronglySorted_map R); auto.
      intros a b Ha _ Hab; unfold rank_all.
      apply (Permutation_in _ PV) in Ha; rewrite Forall_forall in VV.
      rewrite (VV a Ha); right; exact Hab.
    + rewrite <- (map_id N); apply (StronglySorted_map row_lt).
      * intros a b Ha Hb Hab; unfold rank_all; apply filter_In in Ha as [_ ->].
        apply filter_In in Hb as [_ ->]; auto.
      * apply StronglySorted_filter, indexed_from_sorted.
    + intros a b Ha Hb; unfold rank_all.
      apply (Permutation_in _ PV) in Ha; rewrite Forall_forall in VV.
      rewrite (VV a Ha); left; apply filter_In in Hb as [_ Hb]; exact Hb.
  - rewrite PV; apply filter_partition; intros; rewrite negb_involutive; reflexivity.
Qed.

Lemma sorted_rows_idx (vals : list xfloat) :
  StronglySorted (rank_lt vals) (map fst (sorted_rows vals)) /\
  Permutation (map fst (sorted_rows vals)) (seq 0 (length vals)).
Proof.
  destruct (sorted_rows_spec vals) as [S P]; split.
  - apply (StronglySorted_map rank_all); auto.
    intros a b Ha Hb Hab.
    apply (Permutation_in _ P), indexed_spec in Ha as [_ Ea].
    apply (Permutation_in _ P), indexed_spec in Hb as [_ Eb].
    unfold rank_lt; rewrite <- Ea, <- Eb; destruct a, b; exact Hab.
  - rewrite <- map_fst_indexed; apply Permutation_map, P.
Qed.

Lemma nlargest_idx_rows (n : nat) (vals : list xfloat) :
  nlargest_idx n vals = firstn n (map fst (sorted_rows vals)).
Proof. unfold nlargest_idx, sorted_rows; rewrite firstn_map; reflexivity. Qed.

Lemma nlargest_idx_spec (n : nat) (vals : list xfloat) :
  top_n vals n (nlargest_idx n vals).
Proof.
  rewrite nlargest_idx_rows.
  destruct (sorted_rows_idx vals) as [S P].
  set (M := map fst (sorted_rows vals)) in *.
  pose proof (firstn_skipn n M) as Split.
  rewrite <- Split in S; apply StronglySorted_app_inv in S as (S1 & _ & Hx).
  assert (InM : forall i, In i M <-> i < length vals).
  { intros i; split; intros Hi.
    - apply (Permutation_in _ P), in_seq in Hi; lia.
    - apply (Permutation_in _ (Permutation_sym P)), in_seq; lia. }
  repeat split.
  - exact S1.
  - rewrite length_firstn, (Permutation_length P), length_seq; reflexivity.
  - intros i Hi; apply InM, (in_firstn _ _ _ Hi).
  - intros i j Hi Hj Hn; apply Hx; auto.
    apply InM in Hj; rewrite <- Split in Hj.
    apply in_app_or in Hj as [Hj|Hj]; [contradiction | exact Hj].
Qed.

(** ** [rank_lt] is a strict total order on the rows *)

Lemma rank_lt_irrefl (vals : list xfloat) (i : nat) : ~ rank_lt vals i i.
Proof.
  unfold rank_lt, rank_all, R; simpl.
  destruct (is_nan (nth i vals NaN)); [lia|].
  intros [H|H]; [discriminate | rewrite ranks_before_irrefl in H; discriminate].
Qed.

Lemma rank_lt_trans (vals : list xfloat) (i j k : nat) :
  rank_lt vals i j -> rank_lt vals j k -> rank_lt vals i k.
Proof.
  unfold rank_lt, rank_all; simpl.
  destruct (is_nan (nth i vals NaN)) eqn:Ei, (is_nan (nth j vals NaN)) eqn:Ej,
    (is_nan (nth k vals NaN)) eqn:Ek; intuition (try discriminate; try lia).
  right; apply (ranks_before_trans _ (j, nth j vals NaN)); auto.
Qed.

Lemma rank_lt_total (vals : list xfloat) (i j : nat) :
  i <> j -> rank_lt vals i j \/ rank_lt vals j i.
Proof.
  intros Hne; unfold rank_lt, rank_all, R, ranks_before; simpl.
  destruct (is_nan (nth i vals NaN)) eqn:Ei, (is_nan (nth j vals NaN)) eqn:Ej;
    auto; try lia.
  destruct (xlt_total _ _ Ei Ej) as [H | [H | [H1 H2]]]; rewrite ?H, ?H1, ?H2;
    simpl; rewrite ?orb_true_r; auto.
  destruct (Nat.lt_total i j) as [Hl | [Hl | Hl]]; [left | lia | right];
    right; apply Nat.ltb_lt; exact Hl.
Qed.

Lemma rank_lt_asym (vals : list xfloat) (i j : nat) :
  rank_lt vals i j -> rank_lt vals j i -> False.
Proof. intros H1 H2; apply (rank_lt_irrefl vals i), (rank_lt_trans _ _ j); auto. Qed.

Lemma sorted_rank_NoDup (vals : list xfloat) (r : list nat) :
  StronglySorted (rank_lt vals) r -> NoDup r.
Proof.
  induction r as [|a r IH]; intros S; constructor; inversion S as [|? ? S' Fa]; subst; auto.
  rewrite Forall_forall in Fa; intros Ha; apply (rank_lt_irrefl vals a), Fa, Ha.
Qed.

(** Two lists sorted by [rank_lt] with the same elements are equal. *)
Lemma sorted_rank_eq (vals : list xfloat) (r1 r2 : list nat) :
  StronglySorted (rank_lt vals) r1 -> StronglySorted (rank_lt vals) r2 ->
  incl r1 r2 -> incl r2 r1 -> r1 = r2.
Proof.
  revert r2; induction r1 as [|a r1 IH]; intros [|b r2] S1 S2 I12 I21; auto.
  - destruct (I21 b); simpl; auto.
  - destruct (I12 a); simpl; auto.
  - inversion S1 as [|? ? S1' F1]; inversion S2 as [|? ? S2' F2]; subst.
    rewrite Forall_forall in F1, F2.
    assert (Hab : a = b).
    { destruct (Nat.eq_dec a b) as [|Hne]; auto; exfalso.
      destruct (I12 a) as [|Ha]; [simpl; auto | congruence|].
      destruct (I21 b) as [|Hb]; [simpl; auto | congruence|].
      apply (rank_lt_asym vals a b); auto. }
    subst b; f_equal.
    pose proof (sorted_rank_NoDup vals _ S1) as N1.
    pose proof (sorted_rank_NoDup vals _ S2) as N2.
    inversion N1; inversion N2; subst.
    apply IH; auto; intros x Hx.
    + destruct (I12 x) as [<-|]; simpl; auto; contradiction.
    + destruct (I21 x) as [<-|]; simpl; auto; contradiction.
Qed.

Lemma not_incl_exists (l1 l2 : list nat) :
  ~ incl l2 l1 -> exists j, In j l2 /\ ~ In j l1.
Proof.
  induction l2 as [|b l2 IH]; intros Hn; [destruct Hn; intros ? []|].
  destruct (in_dec Nat.eq_dec b l1) as [Hb|Hb]; [|exists b; simpl; auto].
  destruct IH as (j & Hj & Hj'); [intros Hi; apply Hn; intros x [<-|Hx]; auto|].
  exists j; simpl; auto.
Qed.

Lemma top_n_incl (vals : list xfloat) (n : nat) (r1 r2 : list nat) :
  top_n vals n r1 -> top_n vals n r2 -> incl r1 r2.
Proof.
  intros (S1 & L1 & B1 & C1) (S2 & L2 & B2 & C2) i Hi.
  destruct (in_dec Nat.eq_dec i r2) as [|Hni]; auto; exfalso.
  destruct (not_incl_exists r1 r2) as (j & Hj & Hj').
  { intros Hincl; apply Hni.
    apply (NoDup_length_incl (l' := r1) (sorted_rank_NoDup vals _ S2)); auto; lia. }
  apply (rank_lt_asym vals i j); auto.
Qed.

(** C12. Refinement: the rows [nlargest(n, column)] returns satisfy the
    top-n specification: the [n] largest valid values, largest first,
    ties in row order, nan rows last, never more rows than the table. *)
Theorem nlargest_idx_top_n (n : nat) (vals : list xfloat) :
  top_n vals n (nlargest_idx n vals).
Proof. apply nlargest_idx_spec. Qed.

(** C13. The specification determines the result: any list of rows
    satisfying [top_n] is the one [nlargest] returns. *)
Theorem top_n_unique (vals : list xfloat) (n : nat) (r : list nat) :
  top_n vals n r -> r = nlargest_idx n vals.
Proof.
  intros Hr; pose proof (nlargest_idx_spec n vals) as Hn.
  apply (sorted_rank_eq vals); [apply Hr | apply Hn | |];
    eapply top_n_incl; eauto.
Qed.

(** ** The shape of the result *)

Lemma numeric_values_length (c : column) (vals : list xfloat) :
  numeric_values c = Ok vals -> length vals = col_length c.
Proof. destruct c; simpl; intros H; inversion H; subst; rewrite ?length_map; reflexivity. Qed.

Lemma take_rows_length (idx : list nat) (c : column) : col_length (take_rows idx c) = length idx.
Proof. destruct c; simpl; apply length_map. Qed.

(** C30. [df.nlargest(n, label)] on a table whose columns have [k] rows
    returns a table with the same labels in the same order and
    [min(n, k)] rows in every column: the top-10 chart of the
    per-product page has ten bars, or one per product when there are
    fewer. *)
Theorem nlargest_shape (n k : nat) (df df' : frame) (label : string) :
  rectangular k df = true -> nlargest n df label = Ok df' ->
  rectangular (Nat.min n k) df' = true /\ labels df' = labels df.
Proof.
  intros Hr Hn; unfold nlargest in Hn.
  apply bind_eq_Ok in Hn as (c & Hc & Hn); apply bind_eq_Ok in Hn as (vals & Hv & Hn).
  injection Hn as <-.
  assert (Hlen : length (nlargest_idx n vals) = Nat.min n k).
  { destruct (nlargest_idx_spec n vals) as (_ & L & _).
    rewrite L, (numeric_values_length c vals Hv), (getitem_length k df label c Hr Hc).
    reflexivity. }
  unfold rectangular, labels; simpl; rewrite map_map; split; [|reflexivity].
  apply forallb_forall; intros p Hp; apply in_map_iff in Hp as (p' & <- & _).
  simpl; rewrite take_rows_length, Hlen; apply Nat.eqb_refl.
Qed.

Lemma top_n_unique_witness : [1; 0] = nlargest_idx 2 [Fin 1%Q; Fin 2%Q; NaN; Fin 0%Q].
Proof.
  apply top_n_unique.
  replace [1; 0] with (nlargest_idx 2 [Fin 1%Q; Fin 2%Q; NaN; Fin 0%Q]) by reflexivity.
  apply nlargest_idx_spec.
Defined.

Definition sample_products : frame :=
  mkFrame [("ProductId"%string, StrCol ["a"; "b"; "c"]%string);
           ("Quantity Test 25"%string, FloatCol [Fin 1%Q; Fin 3%Q; Fin 2%Q])].

Lemma nlargest_shape_witness :
  exists df', nlargest 2 sample_products "Quantity Test 25"%string = Ok df' /\
    rectangular (Nat.min 2 3) df' = true /\ labels df' = labels sample_products.
Proof.
  eexists; split; [reflexivity|].
  apply (nlargest_shape 2 3 sample_products _ "Quantity Test 25"%string); reflexivity.
Defined.

End NLargest.
