(* ===== verification/Dashboard.v ===== *)
(** * Dashboard: the script's start-up sequence and its pages

    Streamlit runs app.py top to bottom on every interaction.  The
    module-level statements before the page branch form the start-up
    sequence [startup]:
    - [load_data()] (line 71);
    - the three Test percentage changes (lines 77-79);
    - the loop of lines 82-84, which mutates in place the objects named
      [revenue_df], [margin_df], [quantity_df]: the loop variable [df]
      aliases them, so the model keeps the three tables in one store
      ([loaded]) indexed by [measure] and the loop updates the entry the
      alias points to ([round_loop]);
    - the three performance differences (lines 87-89).
    An exception anywhere in this sequence stops the script before any
    page is drawn.  The page branch (lines 113-288) is modelled by
    [render]: the radio label selects the home page, a measure page
    ([page.split()[1]] names the measure, lines 163-167) or the
    per-product page, whose bar chart is [nlargest(10, column)] of the
    column the select box maps to (lines 240-256).  A total formatted
    with [,.2f] raises ValueError when the sum is a str ([format_total]),
    and plotly raises ValueError when a column argument of [px.bar] or
    [px.scatter] names no column ([px_column]). *)

From Stdlib Require Import String Ascii List QArith ZArith Bool.
From S2P Require Import Prelude PyFloat PyNum Frame Format Comparator Loader NLargest.
Import ListNotations.
Local Open Scope py_scope.
Local Open Scope string_scope.

Module Dashboard.
Import PyFloat PyNum Frame Format Comparator Loader NLargest.

(** The three measure tables, the store the loop of lines 82-84 writes. *)
Inductive measure : Type := Revenue | Margin | Quantity.

Definition get_df (d : loaded) (m : measure) : frame :=
  match m with
  | Revenue => revenue_df d
  | Margin => margin_df d
  | Quantity => quantity_df d
  end.

Definition set_df (d : loaded) (m : measure) (f : frame) : loaded :=
  match m with
  | Revenue => mkLoaded f (margin_df d) (quantity_df d) (product_df d)
  | Margin => mkLoaded (revenue_df d) f (quantity_df d) (product_df d)
  | Quantity => mkLoaded (revenue_df d) (margin_df d) f (product_df d)
  end.

(** [for df in [revenue_df, margin_df, quantity_df]: ...] *)
Definition round_loop (d : loaded) : result loaded :=
  fold_left
    (fun acc m => d' <- acc ;; f <- round_change_columns (get_df d' m) ;; Ok (set_df d' m f))
    [Revenue; Margin; Quantity] (Ok d).

(** Everything the pages read: the (rounded) tables and the six scalars. *)
Record app_state : Type := mkState {
  tables : loaded;
  revenue_test_pct : pynum;
  margin_test_pct : pynum;
  quantity_test_pct : pynum;
  revenue_perf_diff : pynum;
  margin_perf_diff : pynum;
  quantity_perf_diff : pynum
}.

(** Lines 74-89, on the tables [load_data()] handed to the script. *)
Definition startup_from (d : loaded) : result app_state :=
  rt <- compute_percentage_change (revenue_df d) "Test 2025" "Test 2024" ;;
  mt <- compute_percentage_change (margin_df d) "Test 2025" "Test 2024" ;;
  qt <- compute_percentage_change (quantity_df d) "Test 2025" "Test 2024" ;;
  d' <- round_loop d ;;
  rp <- perf_diff rt (revenue_df d') ;;
  mp <- perf_diff mt (margin_df d') ;;
  qp <- perf_diff qt (quantity_df d') ;;
  Ok (mkState d' rt mt qt rp mp qp).

(** Lines 71-89. *)
Definition startup (raw : raw_data) : result app_state := startup_from (load_data raw).

(** ** Pages *)

(** The options of the radio button (line 102). *)
Definition page_home : string := "🏠 Home".
Definition page_revenue : string := "💰 Revenue".
Definition page_margin : string := "📈 Margin".
Definition page_quantity : string := "📦 Quantity".
Definition page_product : string := "📊 Per Product Analysis".

Definition pages : list string :=
  [page_home; page_revenue; page_margin; page_quantity; page_product].

(** Whitespace for [str.split()]: the ASCII whitespace characters (the
    labels contain no other Unicode whitespace). *)
Definition is_space (c : ascii) : bool :=
  let n := nat_of_ascii c in
  (n =? 32)%nat || ((9 <=? n) && (n <=? 13))%nat || ((28 <=? n) && (n <=? 31))%nat.

Fixpoint split_aux (cs : list ascii) (cur : list ascii) : list (list ascii) :=
  match cs with
  | [] => match cur with [] => [] | _ => [rev cur] end
  | c :: cs' =>
      if is_space c then
        match cur with
        | [] => split_aux cs' []
        | _ => rev cur :: split_aux cs' []
        end
      else split_aux cs' (c :: cur)
  end.

(** [s.split()] *)
Definition py_split (s : string) : list string :=
  map string_of_list_ascii (split_aux (list_ascii_of_string s) []).

(** [l[1]] *)
Definition index1 (l : list string) : result string :=
  match l with
  | _ :: x :: _ => Ok x
  | _ => Err IndexError
  end.

(** [r if measure == "Revenue" else m if measure == "Margin" else q]
    (lines 165-167). *)
Definition pick {A : Type} (measure : string) (r m q : A) : A :=
  if String.eqb measure "Revenue" then r
  else if String.eqb measure "Margin" then m
  else q.

(** Line 173. *)
Definition currency_symbol (measure : string) : string :=
  if existsb (String.eqb measure) ["Revenue"; "Margin"] then "€" else "".

(** [format(value, ",.<nd>f")] of a sum: a str has no format code 'f'. *)
Definition format_total (nd : nat) (v : pyval) : result string :=
  match v with
  | VNum n => Ok (format_fixed true nd (to_float n))
  | VStr _ => Err (ValueError "Unknown format code 'f' for object of type 'str'")
  end.

(** [{prefix}{df[label].sum():,.<nd>f}] *)
Definition fmt_total (prefix : string) (nd : nat) (df : frame) (label : string)
  : result string :=
  c <- getitem df label ;;
  s <- format_total nd (col_sum c) ;;
  Ok (prefix ++ s).

(** [{df["%Change Control"].mean():.2f}%] *)
Definition fmt_control_pct (df : frame) : result string :=
  c <- getitem df "%Change Control" ;;
  m <- col_mean c ;;
  Ok (format_fixed false 2 m ++ "%").

(** The texts shown for one measure: four totals, the two changes and
    the verdict. *)
Record summary : Type := mkSummary {
  sm_test25 : string;
  sm_test24 : string;
  sm_ctrl25 : string;
  sm_ctrl24 : string;
  sm_test_pct : string;
  sm_ctrl_pct : string;
  sm_arrow : string
}.

(** One column of the home page (lines 119-155): [symbol] is "€" for
    revenue and margin, and the totals use [nd] decimals (2, or 0 for
    quantity). *)
Definition home_column (symbol : string) (nd : nat) (df : frame)
  (test_pct perf : pynum) : result summary :=
  t25 <- fmt_total ("Test 2025: " ++ symbol) nd df "Test 2025" ;;
  t24 <- fmt_total ("Test 2024: **" ++ symbol) nd df "Test 2024" ;;
  c25 <- fmt_total ("Control 2025: " ++ symbol) nd df "Control 2025" ;;
  c24 <- fmt_total ("Control 2024: **" ++ symbol) nd df "Control 2024" ;;
  cp <- fmt_control_pct df ;;
  Ok (mkSummary t25 (t24 ++ "**") c25 (c24 ++ "**")
       (format_fixed false 2 (to_float test_pct) ++ "%") cp
       ("**" ++ performance_arrow perf ++ "**")).

(** The chart data of [create_bar_chart(df, column, title)] (lines
    105-110): the x, y and colour columns of a copy of [df] whose
    [column] is rounded; the copy leaves [df] unchanged. *)
Record bar_chart : Type := mkChart {
  ch_x : column;
  ch_y : column;
  ch_color : column;
  ch_text : list string;
  ch_title : string
}.

(** A column argument of [px.bar] or [px.scatter]: plotly checks that
    it names a column of the data frame and raises ValueError otherwise. *)
Definition px_column (df : frame) (label : string) : result column :=
  match getitem df label with
  | Err (KeyError _) => Err (ValueError "not the name of a column in 'data_frame'")
  | r => r
  end.

(** [column.astype(str) + '%'] (line 109). *)
Definition col_text (c : column) : list string :=
  match c with
  | IntCol l => map (fun z => int_str z ++ "%") l
  | FloatCol l => map (fun x => float_str x ++ "%") l
  | StrCol l => map (fun s => s ++ "%") l
  end.

Definition create_bar_chart (df : frame) (col title : string) : result bar_chart :=
  c <- getitem df col ;;
  c' <- col_round 2 c ;;
  let df' := setitem df col c' in
  x <- px_column df' "Price change" ;;
  y <- px_column df' col ;;
  k <- px_column df' "StrategyBoxName" ;;
  Ok (mkChart x y k (col_text y) title).

(** A detail page (lines 163-229). *)
Record measure_detail : Type := mkDetail {
  md_title : string;
  md_summary : summary;
  md_test_chart : bar_chart;
  md_control_chart : bar_chart;
  md_table : frame
}.

(** Lines 169-229, once the measure, its table and its two scalars are
    selected. *)
Definition detail_page (measure : string) (df : frame) (test_pct perf : pynum)
  : result measure_detail :=
  let sym := currency_symbol measure in
  t25 <- fmt_total sym 2 df "Test 2025" ;;
  t24 <- fmt_total ("2024: " ++ sym) 2 df "Test 2024" ;;
  c25 <- fmt_total sym 2 df "Control 2025" ;;
  c24 <- fmt_total ("2024: " ++ sym) 2 df "Control 2024" ;;
  cp <- fmt_control_pct df ;;
  ch1 <- create_bar_chart df "%Change Test" (measure ++ " Test % Change") ;;
  ch2 <- create_bar_chart df "%Change Control" (measure ++ " Control % Change") ;;
  Ok (mkDetail ("📊 Detailed " ++ measure ++ " Analysis")
        (mkSummary t25 t24 c25 c24 (format_fixed false 2 (to_float test_pct) ++ "%") cp
           (performance_arrow perf))
        ch1 ch2 df).

(** Lines 164-167: the measure named by the page label selects the table
    and the two scalars. *)
Definition measure_page (st : app_state) (page : string) : result measure_detail :=
  let d := tables st in
  measure <- index1 (py_split page) ;;
  let df := pick measure (revenue_df d) (margin_df d) (quantity_df d) in
  let test_pct := pick measure (revenue_test_pct st) (margin_test_pct st)
                    (quantity_test_pct st) in
  let perf := pick measure (revenue_perf_diff st) (margin_perf_diff st)
                (quantity_perf_diff st) in
  detail_page measure df test_pct perf.

(** The select box options (line 242) and [column_map] (lines 246-250). *)
Definition metric_options : list string := ["Total Revenue"; "Total Margin"; "Quantity"].

Definition column_map : list (string * string) :=
  [("Total Revenue", "Total Revenue Test 25"); ("Total Margin", "Total Margin Test 25");
   ("Quantity", "Quantity Test 25")].

(** [column_map[selected_metric]] *)
Definition lookup_column (selected_metric : string) : result string :=
  match dict_get column_map selected_metric with
  | Some c => Ok c
  | None => Err (KeyError selected_metric)
  end.

(** The per-product page (lines 232-288): the top-10 table of the bar
    chart (its x column, line 258), and the columns the scatter plot
    reads (x, y, colour and hover data, lines 268-275). *)
Definition product_page (pdf : frame) (selected_metric : string) : result frame :=
  selected_column <- lookup_column selected_metric ;;
  top_10_products <- nlargest 10 pdf selected_column ;;
  _ <- px_column top_10_products "ProductId" ;;
  _ <- px_column pdf "Total Revenue Test 25" ;;
  _ <- px_column pdf "Total Margin Test 25" ;;
  _ <- px_column pdf "StrategyBoxName" ;;
  _ <- px_column pdf "ProductId" ;;
  Ok top_10_products.

Inductive view : Type :=
| HomeView (revenue margin quantity : summary)
| MeasureView (detail : measure_detail)
| ProductView (metric : string) (top10 : frame).

(** The page branch (lines 113-288): an if/elif chain, then a separate
    [if] for the per-product page. *)
Definition render (st : app_state) (page selected_metric : string) : result (list view) :=
  let d := tables st in
  first <- (if String.eqb page page_home then
              r <- home_column "€" 2 (revenue_df d) (revenue_test_pct st) (revenue_perf_diff st) ;;
              m <- home_column "€" 2 (margin_df d) (margin_test_pct st) (margin_perf_diff st) ;;
              q <- home_column "" 0 (quantity_df d) (quantity_test_pct st)
                     (quantity_perf_diff st) ;;
              Ok [HomeView r m q]
            else if existsb (String.eqb page) [page_revenue; page_margin; page_quantity] then
              md <- measure_page st page ;;
              Ok [MeasureView md]
            else Ok []) ;;
  second <- (if String.eqb page page_product then
               top <- product_page (product_df d) selected_metric ;;
               Ok [ProductView selected_metric top]
             else Ok []) ;;
  Ok (first ++ second)%list.

(** One run of the script for a page selection. *)
Definition run (raw : raw_data) (page selected_metric : string) : result (list view) :=
  st <- startup raw ;;
  render st page selected_metric.

(** ** Properties of the pages *)

(** The page of each measure, its name, and its two scalars. *)
Definition page_of (m : measure) : string :=
  match m with Revenue => page_revenue | Margin => page_margin | Quantity => page_quantity end.

Definition measure_name (m : measure) : string :=
  match m with Revenue => "Revenue" | Margin => "Margin" | Quantity => "Quantity" end.

Definition test_pct_of (st : app_state) (m : measure) : pynum :=
  match m with
  | Revenue => revenue_test_pct st
  | Margin => margin_test_pct st
  | Quantity => quantity_test_pct st
  end.

Definition perf_of (st : app_state) (m : measure) : pynum :=
  match m with
  | Revenue => revenue_perf_diff st
  | Margin => margin_perf_diff st
  | Quantity => quantity_perf_diff st
  end.

(** The home page column of a measure. *)
Definition home_of (m : measure) (r g q : summary) : summary :=
  match m with Revenue => r | Margin => g | Quantity => q end.

(** The same state with another per-product table. *)
Definition with_product (st : app_state) (pdf : frame) : app_state :=
  let d := tables st in
  mkState (mkLoaded (revenue_df d) (margin_df d) (quantity_df d) pdf)
    (revenue_test_pct st) (margin_test_pct st) (quantity_test_pct st)
    (revenue_perf_diff st) (margin_perf_diff st) (quantity_perf_diff st).

(** A table with [n] rows in every column and the labels [ls]. *)
Definition shaped (n : nat) (ls : list string) (df : frame) : Prop :=
  rectangular n df = true /\ labels df = ls.

(** [page.split()[1]] of a measure page is the measure's name. *)
Lemma measure_of_page (m : measure) : index1 (py_split (page_of m)) = Ok (measure_name m).
Proof. destruct m; vm_compute; reflexivity. Qed.

Lemma page_of_tests (m : measure) :
  String.eqb (page_of m) page_home = false /\
  existsb (String.eqb (page_of m)) [page_revenue; page_margin; page_quantity] = true /\
  String.eqb (page_of m) page_product = false.
Proof. destruct m; vm_compute; auto. Qed.

(** C14. Each measure page shows the table, the Test change and the
    performance difference of its own measure: [page.split()[1]] names
    the measure and the three chained conditionals agree. *)
Theorem measure_page_dispatch (st : app_state) (m : measure) (metric : string) :
  render st (page_of m) metric =
  (md <- detail_page (measure_name m) (get_df (tables st) m) (test_pct_of st m) (perf_of st m) ;;
   Ok [MeasureView md]).
Proof.
  destruct (page_of_tests m) as (T1 & T2 & T3).
  unfold render, measure_page; rewrite T1, T2, T3, measure_of_page; cbn [bind].
  destruct m; simpl; destruct (detail_page _ _ _ _); reflexivity.
Qed.

(** The three steps of a successful rounding loop. *)
Lemma round_loop_inv (d d' : loaded) :
  round_loop d = Ok d' ->
  exists r g q, round_change_columns (revenue_df d) = Ok r /\
    round_change_columns (margin_df d) = Ok g /\
    round_change_columns (quantity_df d) = Ok q /\
    d' = mkLoaded r g q (product_df d).
Proof.
  unfold round_loop; cbn [fold_left bind].
  destruct (round_change_columns (get_df d Revenue)) as [r|e] eqn:Er; cbn [bind];
    [|destruct d; intros H; discriminate H].
  destruct (round_change_columns (get_df (set_df d Revenue r) Margin)) as [g|e] eqn:Eg;
    cbn [bind]; [|intros H; discriminate H].
  destruct (round_change_columns (get_df (set_df (set_df d Revenue r) Margin g) Quantity))
    as [q|e] eqn:Eq; cbn [bind]; [|intros H; discriminate H].
  intros H; injection H as <-; destruct d; cbn in *; exists r, g, q; auto.
Qed.

(** C15. The loop of lines 82-84 rounds each of the three measure tables
    exactly once through its alias, and leaves the per-product table
    alone. *)
Theorem round_loop_each (d d' : loaded) :
  round_loop d = Ok d' ->
  (forall m, round_change_columns (get_df d m) = Ok (get_df d' m)) /\
  product_df d' = product_df d.
Proof.
  intros H; destruct (round_loop_inv d d' H) as (r & g & q & Er & Eg & Eq & ->).
  split; [intros []; assumption | reflexivity].
Qed.

(** The tables of a successful start-up come out of the rounding loop. *)
Lemma startup_loop (raw : raw_data) (st : app_state) :
  startup raw = Ok st -> round_loop (load_data raw) = Ok (tables st).
Proof.
  intros Hs; unfold startup in Hs.
  apply bind_eq_Ok in Hs as (rt & _ & Hs); apply bind_eq_Ok in Hs as (mt & _ & Hs).
  apply bind_eq_Ok in Hs as (qt & _ & Hs); apply bind_eq_Ok in Hs as (d' & Hl & Hs).
  inv_ok Hs; injection Hs as <-; exact Hl.
Qed.

(** C18. The start-up keeps the shape of the measure tables: the tables
    the pages show have the labels of the files after [rename_cols] and,
    when every column of a file has [n] rows, every column of the shown
    table has [n] rows; the per-product table is the file as read. *)
Theorem startup_shape (raw : raw_data) (st : app_state) (nr nm nq : nat) :
  rectangular nr (raw_revenue raw) = true -> rectangular nm (raw_margin raw) = true ->
  rectangular nq (raw_quantity raw) = true -> startup raw = Ok st ->
  shaped nr (map (rename_label rename_cols) (labels (raw_revenue raw))) (revenue_df (tables st)) /\
  shaped nm (map (rename_label rename_cols) (labels (raw_margin raw))) (margin_df (tables st)) /\
  shaped nq (map (rename_label rename_cols) (labels (raw_quantity raw))) (quantity_df (tables st)) /\
  product_df (tables st) = raw_product raw.
Proof.
  intros Hr Hm Hq Hs.
  destruct (round_loop_inv _ _ (startup_loop raw st Hs)) as (r & g & q & Er & Eg & Eq & E).
  rewrite E.
  cbn [load_data revenue_df margin_df quantity_df product_df] in *.
  destruct (round_change_columns_shape nr _ _ Er) as [R1 L1]; [rewrite rename_rectangular; exact Hr|].
  destruct (round_change_columns_shape nm _ _ Eg) as [R2 L2]; [rewrite rename_rectangular; exact Hm|].
  destruct (round_change_columns_shape nq _ _ Eq) as [R3 L3]; [rewrite rename_rectangular; exact Hq|].
  unfold shaped; rewrite L1, L2, L3, !rename_labels; auto.
Qed.

(** C17. The statements of lines 77-89 run in order: each measure's Test
    change is computed on the table as [load_data] returned it, before
    the rounding loop, and its performance difference on the table the
    loop rounded in place, so the mean of the Control changes is taken
    over values already rounded to two decimals. *)
Theorem perf_diff_after_rounding (raw : raw_data) (st : app_state) (m : measure) :
  startup raw = Ok st ->
  compute_percentage_change (get_df (load_data raw) m) "Test 2025" "Test 2024"
    = Ok (test_pct_of st m) /\
  round_change_columns (get_df (load_data raw) m) = Ok (get_df (tables st) m) /\
  perf_diff (test_pct_of st m) (get_df (tables st) m) = Ok (perf_of st m).
Proof.
  intros Hs; pose proof (round_loop_each _ _ (startup_loop raw st Hs)) as [Hl _].
  split; [|split; [apply Hl|]]; unfold startup, startup_from in Hs;
    apply bind_eq_Ok in Hs as (rt & Hrt & Hs); apply bind_eq_Ok in Hs as (mt & Hmt & Hs);
    apply bind_eq_Ok in Hs as (qt & Hqt & Hs); apply bind_eq_Ok in Hs as (d' & _ & Hs);
    apply bind_eq_Ok in Hs as (rp & Hrp & Hs); apply bind_eq_Ok in Hs as (mp & Hmp & Hs);
    apply bind_eq_Ok in Hs as (qp & Hqp & Hs); injection Hs as <-; destruct m; assumption.
Qed.

(** C16. Every option of the radio button draws exactly one view: the
    separate [if] of the per-product page (line 232) never adds a second
    view to a page of the if/elif chain. *)
Theorem render_one_view (st : app_state) (page metric : string) (vs : list view) :
  In page pages -> render st page metric = Ok vs -> length vs = 1%nat.
Proof.
  intros Hin Hr; unfold render in Hr.
  simpl in Hin; repeat destruct Hin as [<-|Hin]; try contradiction;
    vm_compute String.eqb in Hr; vm_compute existsb in Hr;
    apply bind_eq_Ok in Hr as (first & Hf & Hr);
    apply bind_eq_Ok in Hr as (second & Hs & Hr); injection Hr as <-;
    inv_ok Hf; inv_ok Hs; injection Hf as <-; injection Hs as <-; reflexivity.
Qed.

(** ** The home page against the detail pages *)

Lemma fmt_total_prefix (p : string) (nd : nat) (df : frame) (label : string) :
  fmt_total p nd df label = rmap (fun y => p ++ y) (fmt_total "" nd df label).
Proof.
  unfold fmt_total; destruct (getitem df label); cbn [bind rmap]; [|reflexivity].
  destruct (col_sum _); reflexivity.
Qed.

(** The home column and the detail page of the same table and scalars
    show the same changes and verdict, and the same Test 2025 total when
    they use the same symbol and two decimals. *)
Lemma home_detail_summary (sym : string) (nd : nat) (df : frame) (tp pf : pynum)
    (name : string) (s : summary) (md : measure_detail) :
  home_column sym nd df tp pf = Ok s -> detail_page name df tp pf = Ok md ->
  sm_test_pct s = sm_test_pct (md_summary md) /\ sm_ctrl_pct s = sm_ctrl_pct (md_summary md) /\
  sm_arrow s = "**" ++ sm_arrow (md_summary md) ++ "**" /\
  (sym = currency_symbol name -> nd = 2%nat ->
   sm_test25 s = "Test 2025: " ++ sm_test25 (md_summary md)).
Proof.
  unfold home_column, detail_page; intros Hh Hd.
  apply bind_eq_Ok in Hh as (t25 & Ht & Hh); inv_ok Hh; injection Hh as <-.
  apply bind_eq_Ok in Hd as (t25' & Ht' & Hd); inv_ok Hd; injection Hd as <-.
  cbn [md_summary sm_test_pct sm_ctrl_pct sm_arrow sm_test25].
  repeat split; try congruence.
  intros -> ->; rewrite fmt_total_prefix in Ht, Ht'.
  destruct (fmt_total "" 2 df "Test 2025"); cbn [rmap bind] in Ht, Ht'; [|discriminate].
  injection Ht as <-; injection Ht' as <-; reflexivity.
Qed.

Lemma render_home (st : app_state) (metric : string) (vs : list view) :
  render st page_home metric = Ok vs ->
  exists r g q,
    home_column "€" 2 (revenue_df (tables st)) (revenue_test_pct st) (revenue_perf_diff st) = Ok r /\
    home_column "€" 2 (margin_df (tables st)) (margin_test_pct st) (margin_perf_diff st) = Ok g /\
    home_column "" 0 (quantity_df (tables st)) (quantity_test_pct st) (quantity_perf_diff st) = Ok q /\
    vs = [HomeView r g q].
Proof.
  assert (E : String.eqb page_home page_product = false) by reflexivity.
  unfold render; rewrite String.eqb_refl, E; cbn beta iota.
  intros H; apply bind_eq_Ok in H as (first & Hf & H); cbn [bind] in H; injection H as <-.
  inv_ok Hf; injection Hf as <-; do 3 eexists; repeat split; eauto.
Qed.

Lemma render_measure (st : app_state) (m : measure) (metric : string) (vs : list view) :
  render st (page_of m) metric = Ok vs ->
  exists md, detail_page (measure_name m) (get_df (tables st) m) (test_pct_of st m) (perf_of st m)
             = Ok md /\ vs = [MeasureView md].
Proof.
  destruct (page_of_tests m) as (T1 & T2 & T3).
  unfold render, measure_page; rewrite T1, T2, T3, measure_of_page; cbn [bind].
  intros H; apply bind_eq_Ok in H as (first & Hf & H); cbn [bind] in H; injection H as <-.
  apply bind_eq_Ok in Hf as (md & Hmd & Hf); injection Hf as <-.
  exists md; split; [destruct m; exact Hmd | reflexivity].
Qed.

(** C19. The home page and the detail page of a measure agree: the same
    Test and Control changes, the same verdict (in bold on the home
    page), and for revenue and margin the same Test 2025 total; the
    quantity total is the exception (no decimals on the home page, two
    on the Quantity page). *)
Theorem home_detail_agree (st : app_state) (m : measure) (metric metric' : string)
    (r g q : summary) (md : measure_detail) :
  render st page_home metric = Ok [HomeView r g q] ->
  render st (page_of m) metric' = Ok [MeasureView md] ->
  sm_test_pct (home_of m r g q) = sm_test_pct (md_summary md) /\
  sm_ctrl_pct (home_of m r g q) = sm_ctrl_pct (md_summary md) /\
  sm_arrow (home_of m r g q) = "**" ++ sm_arrow (md_summary md) ++ "**" /\
  (m <> Quantity -> sm_test25 (home_of m r g q) = "Test 2025: " ++ sm_test25 (md_summary md)).
Proof.
  intros Hh Hd.
  destruct (render_home _ _ _ Hh) as (r' & g' & q' & Hr & Hg & Hq & E).
  injection E as <- <- <-.
  destruct (render_measure _ _ _ _ Hd) as (md' & Hmd & E); injection E as <-.
  destruct m; cbn [home_of];
    [ destruct (home_detail_summary _ _ _ _ _ _ _ _ Hr Hmd) as (A & B & C & D)
    | destruct (home_detail_summary _ _ _ _ _ _ _ _ Hg Hmd) as (A & B & C & D)
    | destruct (home_detail_summary _ _ _ _ _ _ _ _ Hq Hmd) as (A & B & C & D) ];
    repeat split; auto; intros Hn; [apply D; reflexivity.. | contradiction].
Qed.

(** C22. The per-product table is read only by the per-product page
    (lines 232-288), not at start-up: when it lacks the column of the
    selected metric, the per-product page raises that error, and every
    other page is drawn as it would be with any other per-product
    table. *)
Theorem product_file_errors_local (st : app_state) (pdf : frame) (metric c : string)
    (e : pyerr) :
  lookup_column metric = Ok c -> getitem (product_df (tables st)) c = Err e ->
  render st page_product metric = Err e /\
  (forall page m, page <> page_product -> render st page m = render (with_product st pdf) page m).
Proof.
  intros Hl Hg; split.
  - unfold render, product_page, nlargest; rewrite Hl; cbn [bind].
    rewrite Hg; reflexivity.
  - intros page m Hp; unfold render.
    destruct (String.eqb_spec page page_product) as [|_]; [contradiction|].
    reflexivity.
Qed.

(** ** The charts of a detail page *)

Lemma px_column_inv (df : frame) (l : string) (c : column) :
  px_column df l = Ok c -> getitem df l = Ok c.
Proof. unfold px_column; destruct (getitem df l) as [c'|[]]; congruence. Qed.

(** [create_bar_chart] on a column that is already rounded plots that
    column. *)
Lemma create_bar_chart_rounded (df : frame) (col title : string) (c : column) (ch : bar_chart) :
  getitem df col = Ok c -> col_round 2 c = Ok c -> create_bar_chart df col title = Ok ch ->
  ch_y ch = c.
Proof.
  intros Hc Hr; unfold create_bar_chart; rewrite Hc; cbn [bind]; rewrite Hr; cbn [bind].
  assert (Hc' : tbl_get df col = Ok c) by exact Hc.
  change (setitem df col c) with (tbl_set df col c); rewrite (set_get _ _ _ Hc').
  intros H; inv_ok H; injection H as <-; cbn [ch_y].
  match goal with E : px_column df col = Ok _ |- _ =>
    apply px_column_inv in E; rewrite Hc in E; injection E as <- end.
  reflexivity.
Qed.

(** C20. After the start-up, the two bar charts of a detail page plot
    exactly the percentage columns of the data table shown below them:
    the copy rounded by [create_bar_chart] (lines 105-110) equals the
    column already rounded in place (lines 82-84). *)
Theorem detail_charts_match_table (raw : raw_data) (st : app_state) (m : measure)
    (metric : string) (md : measure_detail) :
  startup raw = Ok st -> render st (page_of m) metric = Ok [MeasureView md] ->
  getitem (md_table md) "%Change Test" = Ok (ch_y (md_test_chart md)) /\
  getitem (md_table md) "%Change Control" = Ok (ch_y (md_control_chart md)).
Proof.
  intros Hs Hr.
  destruct (render_measure _ _ _ _ Hr) as (md' & Hmd & E); injection E as <-.
  destruct (round_loop_inv _ _ (startup_loop raw st Hs)) as (r & g & q & Er & Eg & Eq & E).
  assert (Hm : round_change_columns (get_df (load_data raw) m) = Ok (get_df (tables st) m))
    by (rewrite E; destruct m; assumption).
  destruct (round_change_columns_result _ _ Hm) as (ct & cc & Gt & Rt & Gc & Rc).
  cbn [tbl_get frame_table] in Gt, Gc.
  unfold detail_page in Hmd; inv_ok Hmd; injection Hmd as <-; cbn [md_table md_test_chart md_control_chart].
  repeat match goal with
  | H : create_bar_chart _ "%Change Test" _ = Ok _ |- _ =>
      rewrite (create_bar_chart_rounded _ _ _ _ _ Gt Rt H); clear H
  | H : create_bar_chart _ "%Change Control" _ = Ok _ |- _ =>
      rewrite (create_bar_chart_rounded _ _ _ _ _ Gc Rc H); clear H
  end; auto.
Qed.

(** C21. The text labels of a bar chart ([df[column].astype(str) + '%'],
    line 109) show the plotted values: each label is [str] of its bar's
    value followed by "%", and reads back as that value (the values are
    rounded to two decimals first, so [str] prints them exactly). *)
Theorem chart_labels_roundtrip (df : frame) (col title : string) (ch : bar_chart)
    (l : list xfloat) :
  create_bar_chart df col title = Ok ch -> ch_y ch = FloatCol l ->
  ch_text ch = map (fun x => float_str x ++ "%") l /\
  Forall (fun x => below_1e16 x -> exists y, read_float (float_str x) = Some y /\ xeq y x) l.
Proof.
  unfold create_bar_chart; intros H Hy.
  apply bind_eq_Ok in H as (c & Hc & H); apply bind_eq_Ok in H as (c' & Hr & H).
  assert (G : getitem (setitem df col c') col = Ok c').
  { assert (Hc' : tbl_get df col = Ok c) by exact Hc.
    change (tbl_get (tbl_set df col c') col = Ok c'); apply get_set_same.
    rewrite (get_count _ _ _ Hc'); auto. }
  inv_ok H; injection H as <-; cbn [ch_y ch_text] in *.
  match goal with E : px_column (setitem df col c') col = Ok _ |- _ =>
    apply px_column_inv in E; rewrite G in E; injection E as <- end.
  subst c'; destruct c as [l0|l0|l0]; cbn [col_round] in Hr; inversion Hr; subst.
  split; [reflexivity|].
  apply Forall_forall; intros v Hv; apply in_map_iff in Hv as (v0 & <- & _).
  apply read_float_str_rounded.
Qed.

(** ** The theorems at concrete tables *)

Definition sample_measure : frame :=
  mkFrame [("Price change", StrCol ["-5%"]); ("StrategyBoxName", StrCol ["A"]);
           ("Test 25", IntCol [110%Z]); ("Test 24", IntCol [100%Z]);
           ("Control 25", IntCol [105%Z]); ("Control 24", IntCol [100%Z]);
           ("%Change Test", FloatCol [Fin (1 # 8)]); ("%Change Control", FloatCol [Fin (5 # 1)])].

Definition sample_raw : raw_data :=
  mkRaw sample_measure sample_measure sample_measure
    (mkFrame [("ProductId", StrCol ["p1"]); ("StrategyBoxName", StrCol ["A"]);
              ("Total Revenue Test 25", IntCol [1%Z]); ("Total Margin Test 25", IntCol [1%Z]);
              ("Quantity Test 25", IntCol [1%Z])]).

Lemma round_loop_each_witness :
  exists d', round_loop (load_data sample_raw) = Ok d' /\
    product_df d' = product_df (load_data sample_raw).
Proof.
  eexists; split; [reflexivity|].
  apply (round_loop_each (load_data sample_raw)); reflexivity.
Defined.

Definition sample_state : app_state :=
  mkState (load_data sample_raw) (NFlt (Fin 10)) (NFlt (Fin 10)) (NFlt (Fin 10))
    (NFlt (Fin 5)) (NFlt (Fin 5)) (NFlt (Fin 5)).

Lemma render_one_view_witness :
  exists vs, render sample_state page_product "Quantity" = Ok vs /\ length vs = 1%nat.
Proof.
  eexists; split; [reflexivity|].
  apply (render_one_view sample_state page_product "Quantity"); [simpl; tauto | reflexivity].
Defined.

Lemma startup_shape_witness :
  exists st, startup sample_raw = Ok st /\
    shaped 1 (map (rename_label rename_cols) (labels sample_measure)) (revenue_df (tables st)) /\
    shaped 1 (map (rename_label rename_cols) (labels sample_measure)) (margin_df (tables st)) /\
    shaped 1 (map (rename_label rename_cols) (labels sample_measure)) (quantity_df (tables st)) /\
    product_df (tables st) = raw_product sample_raw.
Proof.
  eexists; split; [reflexivity|].
  apply (startup_shape sample_raw _ 1 1 1); reflexivity.
Defined.

Lemma home_detail_agree_witness :
  exists r g q md,
    render sample_state page_home "" = Ok [HomeView r g q] /\
    render sample_state (page_of Revenue) "" = Ok [MeasureView md] /\
    sm_test_pct (home_of Revenue r g q) = sm_test_pct (md_summary md) /\
    sm_ctrl_pct (home_of Revenue r g q) = sm_ctrl_pct (md_summary md) /\
    sm_arrow (home_of Revenue r g q) = "**" ++ sm_arrow (md_summary md) ++ "**" /\
    (Revenue <> Quantity ->
     sm_test25 (home_of Revenue r g q) = "Test 2025: " ++ sm_test25 (md_summary md)).
Proof.
  do 4 eexists; split; [reflexivity|]; split; [reflexivity|].
  apply (home_detail_agree sample_state Revenue "" ""); reflexivity.
Defined.

Lemma detail_charts_match_table_witness :
  exists st md, startup sample_raw = Ok st /\
    render st (page_of Margin) "" = Ok [MeasureView md] /\
    getitem (md_table md) "%Change Test" = Ok (ch_y (md_test_chart md)) /\
    getitem (md_table md) "%Change Control" = Ok (ch_y (md_control_chart md)).
Proof.
  do 2 eexists; split; [reflexivity|]; split; [reflexivity|].
  eapply (detail_charts_match_table sample_raw _ Margin ""); reflexivity.
Defined.

Lemma perf_diff_after_rounding_witness :
  exists st, startup sample_raw = Ok st /\
    compute_percentage_change (get_df (load_data sample_raw) Revenue) "Test 2025" "Test 2024"
      = Ok (test_pct_of st Revenue) /\
    round_change_columns (get_df (load_data sample_raw) Revenue) = Ok (get_df (tables st) Revenue) /\
    perf_diff (test_pct_of st Revenue) (get_df (tables st) Revenue) = Ok (perf_of st Revenue).
Proof. eexists; split; [reflexivity | apply perf_diff_after_rounding; reflexivity]. Defined.

(** A per-product file without the metric columns. *)
Definition product_ids_only : frame :=
  mkFrame [("ProductId", StrCol ["p1"]); ("StrategyBoxName", StrCol ["A"])].

Lemma product_file_errors_local_witness :
  lookup_column "Quantity" = Ok "Quantity Test 25" /\
  getitem (product_df (tables sample_state)) "Quantity Test 25" = Ok (IntCol [1%Z]) /\
  getitem (product_df (tables (with_product sample_state product_ids_only)))
    "Quantity Test 25" = Err (KeyError "Quantity Test 25") /\
  render (with_product sample_state product_ids_only) page_product "Quantity"
  = Err (KeyError "Quantity Test 25") /\
  (forall page m, page <> page_product ->
   render (with_product sample_state product_ids_only) page m
   = render (with_product (with_product sample_state product_ids_only) (product_df (tables sample_state)))
       page m).
Proof.
  split; [reflexivity|]; split; [reflexivity|]; split; [reflexivity|].
  apply (product_file_errors_local (with_product sample_state product_ids_only) _ "Quantity"
           "Quantity Test 25"); reflexivity.
Defined.

Lemma chart_labels_roundtrip_witness :
  exists ch, create_bar_chart sample_measure "%Change Test" "Revenue Test % Change" = Ok ch /\
    ch_y ch = FloatCol [Fin (12 # 100)] /\
    ch_text ch = map (fun x => float_str x ++ "%") [Fin (12 # 100)] /\
    Forall (fun x => below_1e16 x -> exists y, read_float (float_str x) = Some y /\ xeq y x)
      [Fin (12 # 100)].
Proof.
  eexists; split; [reflexivity|]; split; [reflexivity|].
  apply (chart_labels_roundtrip sample_measure "%Change Test" "Revenue Test % Change"); reflexivity.
Defined.

End Dashboard.
