(* ===== verification/Session.v ===== *)
(** * Session: the reruns of the script and the cache of [load_data]

    Streamlit runs app.py from the top on every interaction with a
    widget (the radio button of line 102, the select box of lines
    240-243).  [load_data] is decorated with [@st.cache_data] (line 50):
    the first call that returns stores its result for the process, every
    later call hands the script a copy of the stored tables without
    reading the files, and a call that raises stores nothing, so the
    next interaction reads the files again.  The in-place rounding of
    lines 82-84 therefore mutates the copy the script was handed, never
    the stored tables.

    The model: a [process] holds the CSV files on disk and the cache; a
    rerun ([rerun]) goes through the cache ([cached_load]) and runs the
    rest of the script on the tables it gets ([startup_from] and
    [render]); the events are interactions and edits of the files on
    disk ([step]); [reachable] is the closure of [step], and [exec] the
    process along an infinite stream of events.  The theorems show that
    the cache, once filled, never changes (C23), that every rerun after
    the first successful one shows [run] of the files read that first
    time, whatever happens to the files later (C24), that a missing file
    is not cached but read again at the next interaction (C25), and that
    once the files stay readable and the user keeps interacting, the
    cache is eventually filled for good (C26, liveness under fairness). *)

From Stdlib Require Import String List Arith.
From S2P Require Import Prelude Frame Loader Dashboard.
Import ListNotations.
Local Open Scope py_scope.
Local Open Scope string_scope.

Module Session.
Import Frame Loader Dashboard.

(** The four CSV files on disk; [None] for a file that is missing. *)
Record files : Type := mkFiles {
  csv_revenue : option frame;
  csv_margin : option frame;
  csv_quantity : option frame;
  csv_product : option frame
}.

(** [pd.read_csv(path)] *)
Definition read_csv (path : string) (f : option frame) : result frame :=
  match f with
  | Some df => Ok df
  | None => Err (FileNotFoundError path)
  end.

(** The four reads of [load_data], in the order of lines 53-55 and 66. *)
Definition read_files (fs : files) : result raw_data :=
  r <- read_csv "aggregated_revenue.csv" (csv_revenue fs) ;;
  m <- read_csv "aggregated_margin.csv" (csv_margin fs) ;;
  q <- read_csv "aggregated_quantity.csv" (csv_quantity fs) ;;
  p <- read_csv "Soprema_results__Feb24_Feb25(Results per product).csv" (csv_product fs) ;;
  Ok (mkRaw r m q p).

(** The body of [load_data] with its file reads. *)
Definition load_data_io (fs : files) : result loaded :=
  raw <- read_files fs ;;
  Ok (load_data raw).

(** The server process: the files on disk and the cache of [load_data]. *)
Record process : Type := mkProc {
  disk : files;
  cache : option loaded
}.

(** [load_data()] through [@st.cache_data] (lines 50 and 71): a hit hands
    out the stored tables, a miss runs the function and stores its
    result when it returns. *)
Definition cached_load (p : process) : result (loaded * process) :=
  match cache p with
  | Some d => Ok (d, p)
  | None =>
      d <- load_data_io (disk p) ;;
      Ok (d, mkProc (disk p) (Some d))
  end.

(** One run of app.py for the current widget values. *)
Definition rerun (p : process) (page selected_metric : string)
  : process * result (list view) :=
  match cached_load p with
  | Err e => (p, Err e)
  | Ok (d, p') => (p', st <- startup_from d ;; render st page selected_metric)
  end.

Inductive event : Type :=
| Interact (page selected_metric : string)   (* a widget changes: rerun *)
| EditFiles (fs : files).                     (* the CSV files change on disk *)

(** A step of the process and what it shows, if it reruns. *)
Definition step (p : process) (ev : event) : process * option (result (list view)) :=
  match ev with
  | Interact page metric =>
      let '(p', out) := rerun p page metric in (p', Some out)
  | EditFiles fs => (mkProc fs (cache p), None)
  end.

Inductive reachable (p0 : process) : process -> Prop :=
| reach_refl : reachable p0 p0
| reach_step (p : process) (ev : event) : reachable p0 p -> reachable p0 (fst (step p ev)).

(** An execution: the process after the first [n] events of the stream
    [evs] (interactions and edits, in the order they happen). *)
Fixpoint exec (p0 : process) (evs : nat -> event) (n : nat) : process :=
  match n with
  | O => p0
  | S k => fst (step (exec p0 evs k) (evs k))
  end.

Definition is_interact (ev : event) : bool :=
  match ev with Interact _ _ => true | EditFiles _ => false end.

(** The four files are there: [read_files] does not raise. *)
Definition readable (fs : files) : bool :=
  match read_files fs with Ok _ => true | Err _ => false end.

(** ** The cache *)

Lemma cached_load_hit (p : process) (d : loaded) :
  cache p = Some d -> cached_load p = Ok (d, p).
Proof. unfold cached_load; intros ->; reflexivity. Qed.

Lemma rerun_hit (p : process) (d : loaded) (page metric : string) :
  cache p = Some d ->
  rerun p page metric = (p, st <- startup_from d ;; render st page metric).
Proof. intros H; unfold rerun; rewrite (cached_load_hit p d H); reflexivity. Qed.

(** No step changes a filled cache. *)
Lemma step_keeps_cache (p : process) (ev : event) (d : loaded) :
  cache p = Some d -> cache (fst (step p ev)) = Some d.
Proof.
  intros H; destruct ev as [page metric | fs]; simpl; [|exact H].
  rewrite (rerun_hit p d page metric H); exact H.
Qed.

(** A miss on readable files fills the cache with [load_data] of them
    and shows [run] of them. *)
Lemma rerun_miss (fs : files) (raw : raw_data) (page metric : string) :
  read_files fs = Ok raw ->
  rerun (mkProc fs None) page metric
  = (mkProc fs (Some (load_data raw)), run raw page metric).
Proof.
  intros H; unfold rerun, cached_load, load_data_io; cbn [cache disk].
  rewrite H; reflexivity.
Qed.

(** C23. Once [load_data]'s result is cached, it never changes: neither
    interactions (whose in-place rounding only touches the copy the
    script is handed) nor edits of the files on disk alter it. *)
Theorem cache_stable (p0 p : process) (d : loaded) :
  cache p0 = Some d -> reachable p0 p -> cache p = Some d.
Proof.
  intros H0 Hr; induction Hr as [|p ev _ IH]; [exact H0|].
  apply step_keeps_cache; exact IH.
Qed.

(** C24. After the first successful run, every rerun shows what [run]
    shows on the files read at that first run, whatever the later
    interactions and edits of the files on disk. *)
Theorem rerun_shows_first_load (fs : files) (raw : raw_data) (p : process)
    (page0 metric0 page metric : string) :
  read_files fs = Ok raw ->
  reachable (fst (rerun (mkProc fs None) page0 metric0)) p ->
  snd (rerun p page metric) = run raw page metric.
Proof.
  intros Hf Hr; rewrite (rerun_miss fs raw page0 metric0 Hf) in Hr; cbn [fst] in Hr.
  rewrite (rerun_hit p (load_data raw)) by (exact (cache_stable (mkProc fs (Some (load_data raw))) p _ eq_refl Hr)).
  reflexivity.
Qed.

(** C25. A run that cannot read a file raises [FileNotFoundError] and
    caches nothing: the next interaction after the file is restored
    reads the files again and shows [run] of them. *)
Theorem missing_file_retried (fs fs' : files) (raw : raw_data) (e : pyerr)
    (page metric page' metric' : string) :
  read_files fs = Err e -> read_files fs' = Ok raw ->
  rerun (mkProc fs None) page metric = (mkProc fs None, Err e) /\
  snd (rerun (fst (step (mkProc fs None) (EditFiles fs'))) page' metric') = run raw page' metric'.
Proof.
  intros He Hok; split.
  - unfold rerun, cached_load, load_data_io; cbn [cache disk]; rewrite He; reflexivity.
  - cbn [step fst cache]; rewrite (rerun_miss fs' raw page' metric' Hok); reflexivity.
Qed.

(** ** Liveness *)

Lemma rerun_disk (p : process) (page metric : string) :
  disk (fst (rerun p page metric)) = disk p.
Proof.
  unfold rerun, cached_load; destruct (cache p) as [d|]; [reflexivity|].
  destruct (load_data_io (disk p)); reflexivity.
Qed.

(** A rerun on readable files leaves the cache filled. *)
Lemma rerun_fills (p : process) (page metric : string) :
  readable (disk p) = true -> exists d, cache (fst (rerun p page metric)) = Some d.
Proof.
  destruct p as [fs [d|]]; intros Hr.
  - exists d; rewrite (rerun_hit _ d) by reflexivity; reflexivity.
  - unfold readable in Hr; cbn [disk] in Hr.
    destruct (read_files fs) as [raw|e] eqn:E; [|discriminate].
    exists (load_data raw); rewrite (rerun_miss fs raw page metric E); reflexivity.
Qed.

(** Files that every later edit leaves readable stay readable. *)
Lemma exec_readable (p0 : process) (evs : nat -> event) (n0 k : nat) :
  readable (disk (exec p0 evs n0)) = true ->
  (forall m fs, n0 <= m -> evs m = EditFiles fs -> readable fs = true) ->
  readable (disk (exec p0 evs (n0 + k))) = true.
Proof.
  intros H0 Hed; induction k as [|k IH]; [rewrite Nat.add_0_r; exact H0|].
  rewrite Nat.add_succ_r; cbn [exec]; unfold step.
  destruct (evs (n0 + k)) as [page metric | fs] eqn:E.
  - destruct (rerun _ page metric) as [p' out] eqn:R; cbn [fst].
    pose proof (rerun_disk (exec p0 evs (n0 + k)) page metric) as Hd.
    rewrite R in Hd; cbn [fst] in Hd; rewrite Hd; exact IH.
  - exact (Hed (n0 + k) fs (Nat.le_add_r n0 k) E).
Qed.

Lemma exec_keeps_cache (p0 : process) (evs : nat -> event) (a b : nat) (d : loaded) :
  cache (exec p0 evs a) = Some d -> cache (exec p0 evs (a + b)) = Some d.
Proof.
  intros H; induction b as [|b IH]; [rewrite Nat.add_0_r; exact H|].
  rewrite Nat.add_succ_r; apply step_keeps_cache, IH.
Qed.

(** C26. Liveness of the cache: if from some point on the files on disk
    are readable (and every later edit keeps them so) and the user keeps
    interacting (fairness: after every moment comes an interaction), the
    cache is eventually filled and from then on always holds the same
    tables. *)
Theorem cache_eventually_filled (p0 : process) (evs : nat -> event) (n0 : nat) :
  readable (disk (exec p0 evs n0)) = true ->
  (forall m fs, n0 <= m -> evs m = EditFiles fs -> readable fs = true) ->
  (forall n, exists k, is_interact (evs (n + k)) = true) ->
  exists N d, forall m, N <= m -> cache (exec p0 evs m) = Some d.
Proof.
  intros H0 Hed Hfair; destruct (Hfair n0) as [k Hk].
  destruct (evs (n0 + k)) as [page metric | fs] eqn:E; [|discriminate].
  assert (Hs : exists d, cache (exec p0 evs (S (n0 + k))) = Some d).
  { cbn [exec]; rewrite E; unfold step.
    destruct (rerun_fills (exec p0 evs (n0 + k)) page metric (exec_readable p0 evs n0 k H0 Hed))
      as [d Hd].
    exists d; destruct (rerun _ page metric) as [p' out]; exact Hd. }
  destruct Hs as [d Hd]; exists (S (n0 + k)), d; intros m Hm.
  replace m with (S (n0 + k) + (m - S (n0 + k))) by (rewrite Nat.add_comm; apply Nat.sub_add, Hm).
  apply exec_keeps_cache, Hd.
Qed.

(** ** The theorems at concrete files *)

Definition sample_files : files :=
  mkFiles (Some sample_measure) (Some sample_measure) (Some sample_measure)
    (Some (raw_product sample_raw)).

Definition product_file_missing : files :=
  mkFiles (Some sample_measure) (Some sample_measure) (Some sample_measure) None.

Lemma cache_stable_witness :
  cache (mkProc sample_files (Some (load_data sample_raw))) = Some (load_data sample_raw) /\
  cache (fst (step (mkProc sample_files (Some (load_data sample_raw)))
                (EditFiles product_file_missing)))
  = Some (load_data sample_raw).
Proof.
  split; [reflexivity|].
  apply (cache_stable (mkProc sample_files (Some (load_data sample_raw)))).
  - reflexivity.
  - apply reach_step, reach_refl.
Defined.

Lemma rerun_shows_first_load_witness :
  read_files sample_files = Ok sample_raw /\
  snd (rerun (fst (step (fst (rerun (mkProc sample_files None) page_home ""))
                     (EditFiles product_file_missing))) page_revenue "")
  = run sample_raw page_revenue "".
Proof.
  split; [reflexivity|].
  apply (rerun_shows_first_load sample_files sample_raw _ page_home "").
  - reflexivity.
  - apply reach_step, reach_refl.
Defined.

Lemma missing_file_retried_witness :
  read_files product_file_missing
  = Err (FileNotFoundError "Soprema_results__Feb24_Feb25(Results per product).csv") /\
  rerun (mkProc product_file_missing None) page_home ""
  = (mkProc product_file_missing None,
     Err (FileNotFoundError "Soprema_results__Feb24_Feb25(Results per product).csv")) /\
  snd (rerun (fst (step (mkProc product_file_missing None) (EditFiles sample_files)))
         page_product "Quantity")
  = run sample_raw page_product "Quantity".
Proof. split; [reflexivity|]. apply missing_file_retried; reflexivity. Defined.

Lemma cache_eventually_filled_witness :
  readable sample_files = true /\
  exists N d, forall m, N <= m ->
    cache (exec (mkProc sample_files None) (fun _ => Interact page_home "") m) = Some d.
Proof.
  split; [reflexivity|].
  apply (cache_eventually_filled _ _ 0).
  - reflexivity.
  - intros m fs _ H; discriminate H.
  - intros n; exists 0; reflexivity.
Defined.

End Session.
