(* ===== verification/Style.v ===== *)
(** * Style: the page configuration and the stylesheet (lines 6-47)

    Before anything else the script configures the page
    ([st.set_page_config], line 6) and injects a stylesheet with
    [st.markdown(..., unsafe_allow_html=True)] (lines 8-47).  The model
    keeps the configuration as a record and the stylesheet as the
    browser parses it: a list of rules, each a list of selectors (the
    type and class selectors and the descendant and child combinators
    the sheet uses) and a list of declarations with their [!important]
    flag ([app_css]).  A node of the page is its element and its
    ancestors.  [cascade] is the CSS cascade within one origin: the
    declarations of the rules that match compete by importance, then by
    specificity (of the matching selector of highest specificity), then
    by order of appearance; [computed] adds the inheritance of [color].
    Streamlit's own stylesheet is a second sheet of the same origin,
    arbitrary but without [!important] declarations, which may come
    before or after the app's.

    The theorems show that a declaration the sheet marks [!important]
    wins whatever such a sheet says and wherever it is placed
    ([forced_decl_wins]), that every div of the sidebar is white
    (C31), and that the colour the sheet sets on a container is lost on
    a descendant that Streamlit's sheet colours
    ([theme_overrides_inherited_color]). *)

From Stdlib Require Import String List Bool Arith.
From S2P Require Import Prelude.
Import ListNotations.
Local Open Scope string_scope.

Module Style.

(** [st.set_page_config(layout="wide", page_title=...)] (line 6). *)
Record page_config : Type := mkConfig {
  layout : string;
  page_title : string
}.

Definition app_page_config : page_config :=
  mkConfig "wide" "Price Sensitivity Dashboard".

(** ** Stylesheets *)

Inductive selector : Type :=
| Tag (name : string)                 (* body, div, button *)
| Class (name : string)               (* .stApp *)
| Descendant (anc sel : selector)     (* A B *)
| Child (parent sel : selector).      (* A>B *)

Record declaration : Type := mkDecl {
  property : string;
  value : string;
  important : bool
}.

Record rule : Type := mkRule {
  selectors : list selector;
  declarations : list declaration
}.

(** The stylesheet of lines 10-44, rule by rule. *)
Definition app_css : list rule := [
  (* body, .stApp *)
  mkRule [Tag "body"; Class "stApp"]
    [mkDecl "background-color" "#12123B" false; mkDecl "color" "#E8F0FF" true];
  (* .stSidebar *)
  mkRule [Class "stSidebar"] [mkDecl "background-color" "#3C37FF" true];
  (* .stSidebar div *)
  mkRule [Descendant (Class "stSidebar") (Tag "div")] [mkDecl "color" "white" true];
  (* .stMarkdown, .stText, .stSubheader, .stMetric, .stTitle, .stHeader, .stTable *)
  mkRule [Class "stMarkdown"; Class "stText"; Class "stSubheader"; Class "stMetric";
          Class "stTitle"; Class "stHeader"; Class "stTable"]
    [mkDecl "color" "#E8F0FF" true];
  (* .stButton>button *)
  mkRule [Child (Class "stButton") (Tag "button")]
    [mkDecl "background-color" "#3C37FF" true; mkDecl "color" "white" true;
     mkDecl "border-radius" "8px" false; mkDecl "border" "none" false];
  (* .stMetric *)
  mkRule [Class "stMetric"] [mkDecl "color" "#E8F0FF" true]
].

(** Sheets without [!important] declarations, as Streamlit's theme. *)
Definition no_important (sheet : list rule) : bool :=
  forallb (fun r => forallb (fun d => negb (important d)) (declarations r)) sheet.

(** ** Selector matching *)

Record element : Type := mkElem {
  tag : string;
  classes : list string
}.

(** A node of the page: its element, then its ancestors, nearest first. *)
Definition node : Type := list element.

Definition has_class (c : string) (e : element) : bool :=
  existsb (String.eqb c) (classes e).

Fixpoint matches (s : selector) (n : node) : bool :=
  match s, n with
  | _, [] => false
  | Tag t, e :: _ => String.eqb (tag e) t
  | Class c, e :: _ => has_class c e
  | Descendant a s', _ :: ps =>
      matches s' n &&
      (fix some_ancestor (ps : node) : bool :=
         match ps with
         | [] => false
         | _ :: ps' => matches a ps || some_ancestor ps'
         end) ps
  | Child a s', _ :: ps => matches s' n && matches a ps
  end.

(** Specificity as (class selectors, type selectors): the sheet has no
    id selectors. *)
Fixpoint specificity (s : selector) : nat * nat :=
  match s with
  | Tag _ => (0, 1)
  | Class _ => (1, 0)
  | Descendant a b | Child a b =>
      (fst (specificity a) + fst (specificity b), snd (specificity a) + snd (specificity b))
  end.

(** ** The cascade *)

(** The precedence of a declaration: importance, then specificity. *)
Definition key : Type := bool * (nat * nat).

Definition key_le (k1 k2 : key) : bool :=
  let '(i1, (c1, t1)) := k1 in
  let '(i2, (c2, t2)) := k2 in
  if Bool.eqb i1 i2 then Nat.ltb c1 c2 || (Nat.eqb c1 c2 && Nat.leb t1 t2) else i2.

(** The specificity a rule has for a node: that of its matching selector
    of highest specificity, [None] when none matches. *)
Definition rule_specificity (r : rule) (n : node) : option (nat * nat) :=
  fold_left
    (fun acc s =>
       if matches s n then
         match acc with
         | Some k => if key_le (false, specificity s) (false, k) then Some k
                     else Some (specificity s)
         | None => Some (specificity s)
         end
       else acc)
    (selectors r) None.

Record candidate : Type := mkCand {
  c_key : key;
  c_value : string
}.

Definition rule_candidates (p : string) (n : node) (r : rule) : list candidate :=
  match rule_specificity r n with
  | None => []
  | Some k =>
      map (fun d => mkCand (important d, k) (value d))
        (filter (fun d => String.eqb (property d) p) (declarations r))
  end.

(** The declarations of property [p] that apply to [n], in order of
    appearance. *)
Definition candidates (sheet : list rule) (n : node) (p : string) : list candidate :=
  flat_map (rule_candidates p n) sheet.

(** A later declaration wins over an earlier one of equal precedence. *)
Definition pick (best : option candidate) (c : candidate) : option candidate :=
  match best with
  | Some b => if key_le (c_key b) (c_key c) then Some c else Some b
  | None => Some c
  end.

Definition select (cs : list candidate) : option candidate :=
  fold_left pick cs None.

Definition cascade (sheet : list rule) (n : node) (p : string) : option string :=
  option_map c_value (select (candidates sheet n p)).

Definition inherited (p : string) : bool := String.eqb p "color".

(** The value of [p] on [n]: the cascade, else the parent's value for an
    inherited property. *)
Fixpoint computed (sheet : list rule) (n : node) (p : string) : option string :=
  match cascade sheet n p with
  | Some v => Some v
  | None =>
      match n with
      | _ :: ps => if inherited p then computed sheet ps p else None
      | [] => None
      end
  end.

(** ** The cascade's lemmas *)

Definition imp (c : candidate) : bool := fst (c_key c).

(** A state of the selection that holds no [!important] declaration. *)
Definition weak (b : option candidate) : bool :=
  match b with Some c => negb (imp c) | None => true end.

Lemma key_le_important (k1 k2 : key) :
  fst k1 = false -> fst k2 = true -> key_le k1 k2 = true.
Proof. destruct k1 as [i1 [c1 t1]], k2 as [i2 [c2 t2]]; simpl; intros -> ->; reflexivity. Qed.

Lemma key_le_weak (k1 k2 : key) :
  fst k1 = true -> fst k2 = false -> key_le k1 k2 = false.
Proof. destruct k1 as [i1 [c1 t1]], k2 as [i2 [c2 t2]]; simpl; intros -> ->; reflexivity. Qed.

Lemma pick_cases (b : option candidate) (c : candidate) :
  pick b c = Some c \/ pick b c = b.
Proof. destruct b as [b|]; simpl; [destruct (key_le _ _)|]; auto. Qed.

(** An [!important] declaration wins over any weak state. *)
Lemma pick_important (b : option candidate) (c : candidate) :
  weak b = true -> imp c = true -> pick b c = Some c.
Proof.
  destruct b as [b|]; simpl; [|reflexivity]; intros Hb Hc.
  rewrite key_le_important; [reflexivity | apply negb_true_iff, Hb | exact Hc].
Qed.

Lemma pick_weak (b : option candidate) (c : candidate) :
  weak b = true -> imp c = false -> weak (pick b c) = true.
Proof.
  intros Hb Hc; destruct (pick_cases b c) as [-> | ->]; [|exact Hb].
  cbn [weak]; rewrite Hc; reflexivity.
Qed.

Lemma fold_pick_in (l : list candidate) (b : option candidate) (x : candidate) :
  fold_left pick l b = Some x -> b = Some x \/ In x l.
Proof.
  revert b; induction l as [|c l IH]; simpl; intros b H; [auto|].
  destruct (IH _ H) as [H' | H']; [|auto].
  destruct (pick_cases b c) as [E | E]; rewrite E in H'; [injection H' as ->|]; auto.
Qed.

Lemma fold_pick_weak (l : list candidate) (b : option candidate) :
  weak b = true -> forallb (fun d => negb (imp d)) l = true -> weak (fold_left pick l b) = true.
Proof.
  revert b; induction l as [|c l IH]; simpl; intros b Hb Hl; [exact Hb|].
  apply andb_prop in Hl as [Hc Hl]; apply IH; [apply pick_weak; [exact Hb | now destruct (imp c)] | exact Hl].
Qed.

(** Once an [!important] declaration has been read, the weak state the
    selection started from no longer matters. *)
Lemma fold_pick_weak_start (l : list candidate) (b b' : option candidate) (c : candidate) :
  weak b = true -> weak b' = true -> fold_left pick l b = Some c -> imp c = true ->
  fold_left pick l b' = Some c.
Proof.
  revert b b'; induction l as [|x l IH]; simpl; intros b b' Hb Hb' H Hc.
  - subst b; simpl in Hb; rewrite Hc in Hb; discriminate.
  - destruct (imp x) eqn:Hx.
    + rewrite (pick_important b' x Hb' Hx); rewrite (pick_important b x Hb Hx) in H; exact H.
    + apply (IH (pick b x)); auto using pick_weak.
Qed.

(** A declaration that no later one outranks stays selected. *)
Lemma fold_pick_keep (l : list candidate) (c : candidate) :
  Forall (fun x => key_le (c_key c) (c_key x) = false) l -> fold_left pick l (Some c) = Some c.
Proof. induction 1 as [|x l Hx _ IH]; simpl; [reflexivity | rewrite Hx; exact IH]. Qed.

Lemma select_top (l1 l2 : list candidate) (c : candidate) :
  Forall (fun x => key_le (c_key x) (c_key c) = true) l1 ->
  Forall (fun x => key_le (c_key c) (c_key x) = false) l2 ->
  select (l1 ++ c :: l2) = Some c.
Proof.
  intros H1 H2; unfold select; rewrite fold_left_app; simpl.
  destruct (fold_left pick l1 None) as [b|] eqn:E; simpl; [|apply fold_pick_keep, H2].
  destruct (fold_pick_in _ _ _ E) as [H | H]; [discriminate|].
  rewrite (proj1 (Forall_forall _ _) H1 b H); apply fold_pick_keep, H2.
Qed.

Lemma no_important_candidates (th : list rule) (n : node) (p : string) :
  no_important th = true -> forallb (fun d => negb (imp d)) (candidates th n p) = true.
Proof.
  intros Hth; apply forallb_forall; intros x Hx.
  apply in_flat_map in Hx as (r & Hr & Hx); unfold rule_candidates in Hx.
  destruct (rule_specificity r n); [|contradiction].
  apply in_map_iff in Hx as (d & <- & Hd); apply filter_In in Hd as [Hd _].
  unfold no_important in Hth; rewrite forallb_forall in Hth.
  specialize (Hth r Hr); rewrite forallb_forall in Hth; exact (Hth d Hd).
Qed.

(** A declaration the sheet marks [!important] wins whatever a sheet
    without [!important] declarations says, before or after it. *)
Lemma forced_decl_wins (th sheet : list rule) (n : node) (p : string) (c : candidate) :
  no_important th = true -> select (candidates sheet n p) = Some c -> imp c = true ->
  select (candidates (th ++ sheet) n p) = Some c /\
  select (candidates (sheet ++ th) n p) = Some c.
Proof.
  intros Hth Hs Hc; pose proof (no_important_candidates th n p Hth) as Hw.
  unfold candidates, select in *; rewrite !flat_map_app, !fold_left_app; split.
  - apply (fold_pick_weak_start _ None); auto using fold_pick_weak.
  - rewrite Hs; apply fold_pick_keep, Forall_forall; intros x Hx.
    apply key_le_weak; [exact Hc|].
    rewrite forallb_forall in Hw; apply negb_true_iff, (Hw x Hx).
Qed.

Lemma computed_cascade (sheet : list rule) (n : node) (p v : string) :
  cascade sheet n p = Some v -> computed sheet n p = Some v.
Proof. destruct n; simpl; intros ->; reflexivity. Qed.

Lemma rule_specificity_in (r : rule) (n : node) (k : nat * nat) :
  rule_specificity r n = Some k -> In k (map specificity (selectors r)).
Proof.
  unfold rule_specificity.
  assert (G : forall sels acc, fold_left (fun acc s =>
              if matches s n then
                match acc with
                | Some k => if key_le (false, specificity s) (false, k) then Some k
                            else Some (specificity s)
                | None => Some (specificity s)
                end
              else acc) sels acc = Some k ->
            acc = Some k \/ In k (map specificity sels)).
  { induction sels as [|s sels IH]; cbn [fold_left map In]; intros acc H; [tauto|].
    destruct (IH _ H) as [E | E]; [cbv beta in E|tauto].
    destruct (matches s n); [|tauto].
    destruct acc as [k0|]; [destruct (key_le (false, specificity s) (false, k0))|];
      inversion E; subst; tauto. }
  intros H; destruct (G _ _ H); [discriminate | assumption].
Qed.

(** A declaration that applies by rule [r] has the precedence of one of
    [r]'s selectors. *)
Lemma rule_candidates_key (p : string) (n : node) (r : rule) (x : candidate) :
  In x (rule_candidates p n r) ->
  exists i sp, c_key x = (i, sp) /\ In sp (map specificity (selectors r)).
Proof.
  unfold rule_candidates; destruct (rule_specificity r n) as [k|] eqn:E; [|contradiction].
  intros Hx; apply in_map_iff in Hx as (d & <- & _).
  exists (important d), k; split; [reflexivity | exact (rule_specificity_in r n k E)].
Qed.

(** The declarations of a rule whose selectors are all weaker than [k]. *)
Lemma rule_candidates_below (p : string) (n : node) (r : rule) (k : key) :
  fst k = true ->
  forallb (fun sp => key_le (true, sp) k) (map specificity (selectors r)) = true ->
  Forall (fun x => key_le (c_key x) k = true) (rule_candidates p n r).
Proof.
  intros Hk Hr; apply Forall_forall; intros x Hx.
  destruct (rule_candidates_key p n r x Hx) as ([|] & sp & -> & Hsp).
  - rewrite forallb_forall in Hr; exact (Hr sp Hsp).
  - apply key_le_important; [reflexivity | exact Hk].
Qed.

Lemma rule_candidates_above (p : string) (n : node) (r : rule) (k : key) :
  fst k = true ->
  forallb (fun sp => negb (key_le k (true, sp))) (map specificity (selectors r)) = true ->
  Forall (fun x => key_le k (c_key x) = false) (rule_candidates p n r).
Proof.
  intros Hk Hr; apply Forall_forall; intros x Hx.
  destruct (rule_candidates_key p n r x Hx) as ([|] & sp & -> & Hsp).
  - rewrite forallb_forall in Hr; apply negb_true_iff, (Hr sp Hsp).
  - apply key_le_weak; [exact Hk | reflexivity].
Qed.

Lemma rule_candidates_absent (p : string) (n : node) (r : rule) :
  forallb (fun d => negb (String.eqb (property d) p)) (declarations r) = true ->
  rule_candidates p n r = [].
Proof.
  intros H; unfold rule_candidates; destruct (rule_specificity r n); [|reflexivity].
  replace (filter _ _) with (@nil declaration); [reflexivity|].
  induction (declarations r) as [|d ds IH]; [reflexivity|]; cbn [forallb filter] in H |- *.
  apply andb_prop in H as [Hd H]; rewrite negb_true_iff in Hd; rewrite Hd; exact (IH H).
Qed.

(** ** The app's stylesheet *)

(** A node below an element of class [stSidebar]. *)
Definition in_sidebar (ps : node) : bool := existsb (has_class "stSidebar") ps.

Lemma matches_descendant_class (c : string) (s : selector) (e : element) (ps : node) :
  matches (Descendant (Class c) s) (e :: ps) = matches s (e :: ps) && existsb (has_class c) ps.
Proof.
  cbn [matches]; f_equal.
  induction ps as [|x ps IH]; [reflexivity|]; cbn [existsb]; rewrite <- IH; reflexivity.
Qed.

(** Among the sheet's colour declarations that apply to a div of the
    sidebar, [.stSidebar div] has the highest precedence. *)
Lemma sidebar_div_select (e : element) (ps : node) :
  tag e = "div" -> in_sidebar ps = true ->
  select (candidates app_css (e :: ps) "color") = Some (mkCand (true, (1, 1)) "white").
Proof.
  intros Ht Hs; unfold in_sidebar in Hs; unfold candidates, app_css; cbn [flat_map].
  rewrite (rule_candidates_absent _ _ (mkRule [Class "stSidebar"] _)) by reflexivity.
  replace (rule_candidates "color" (e :: ps) (mkRule [Descendant (Class "stSidebar") (Tag "div")] _))
    with [mkCand (true, (1, 1)) "white"]
    by (unfold rule_candidates, rule_specificity; cbn [fold_left selectors];
        rewrite matches_descendant_class; cbn [matches]; rewrite Ht, Hs; reflexivity).
  replace (rule_candidates "color" (e :: ps) (mkRule [Child (Class "stButton") (Tag "button")] _))
    with (@nil candidate)
    by (unfold rule_candidates, rule_specificity; cbn [fold_left selectors matches];
        rewrite Ht; reflexivity).
  cbn [app]; rewrite app_nil_r; apply select_top.
  - apply rule_candidates_below; reflexivity.
  - apply Forall_app; split; apply rule_candidates_above; reflexivity.
Qed.

(** C31. Every div of the sidebar is written in white whatever
    Streamlit's own stylesheet says: for any sheet without [!important]
    declarations, placed before or after the app's, the computed colour
    of a div below an element of class [stSidebar] is white. *)
Theorem sidebar_divs_white (th : list rule) (e : element) (ps : node) :
  no_important th = true -> tag e = "div" -> in_sidebar ps = true ->
  computed (th ++ app_css) (e :: ps) "color" = Some "white" /\
  computed (app_css ++ th) (e :: ps) "color" = Some "white".
Proof.
  intros Hth Ht Hs.
  destruct (forced_decl_wins th app_css (e :: ps) "color" _ Hth
              (sidebar_div_select e ps Ht Hs) eq_refl) as [H1 H2].
  split; apply computed_cascade; unfold cascade; [rewrite H1 | rewrite H2]; reflexivity.
Qed.

(** ** The theorems at concrete nodes *)

(** A theme that colours the headings, as Streamlit's does. *)
Definition heading_theme : list rule := [mkRule [Tag "h1"] [mkDecl "color" "#31333F" false]].

Definition sidebar_node : node :=
  [mkElem "div" []; mkElem "section" ["stSidebar"]; mkElem "div" ["stApp"]; mkElem "body" []].

(** A heading written by [st.markdown] on the main page (line 170). *)
Definition markdown_heading : node :=
  [mkElem "h1" []; mkElem "div" ["stMarkdown"]; mkElem "div" ["stApp"]; mkElem "body" []].

Lemma sidebar_divs_white_witness :
  no_important heading_theme = true /\
  computed (heading_theme ++ app_css) sidebar_node "color" = Some "white" /\
  computed (app_css ++ heading_theme) sidebar_node "color" = Some "white".
Proof.
  split; [reflexivity|].
  apply (sidebar_divs_white heading_theme (mkElem "div" []) (tl sidebar_node)); reflexivity.
Defined.

(** The colour the sheet sets on the markdown container reaches a
    heading inside it only by inheritance, which any declaration on the
    heading overrides: under a theme that colours headings, the
    heading keeps the theme's colour, placed before or after the app's
    sheet. *)
Lemma theme_overrides_inherited_color :
  no_important heading_theme = true /\
  computed app_css markdown_heading "color" = Some "#E8F0FF" /\
  computed (heading_theme ++ app_css) markdown_heading "color" = Some "#31333F" /\
  computed (app_css ++ heading_theme) markdown_heading "color" = Some "#31333F".
Proof. vm_compute; repeat split. Qed.

End Style.
